(** * The AWS load-balancer target group resource

    A shallow embedding of [aws/resource_aws_lb_target_group.go]: the
    validators, the diff-suppression hooks, the plan-time diff customization,
    the ARN helper and the four CRUD handlers, together with the properties
    the specification states about them.

    Conventions.  A Go [int] is a [Z]; none of the code below does arithmetic
    on one beyond comparisons, so no wrap-around is involved.  A Go [string]
    is a [string] of bytes.  A Go [error] result is an [option error], [None]
    standing for [nil].  Handlers mutate [*schema.ResourceData] and talk to
    the remote API; both are threaded explicitly (see [Handler]). *)

From Stdlib Require Import ZArith NArith List String Ascii Bool Lia.
From Stdlib Require Import DecimalString DecimalPos.
Import ListNotations.
Open Scope string_scope.
Open Scope Z_scope.

(** ** Go values shared by the whole file *)

(** What a call on the AWS SDK can fail with: an [awserr.Error], with its
    code and message, or any other failure of the request (a transport
    error, a cancelled context). *)
Inductive sdkError : Type :=
| AWSError (code message : string)
| RequestFailure (text : string).

(** The dynamic error values that flow through the resource.  [SDKError] is
    an error of the AWS SDK, [TimeoutError] the [*resource.TimeoutError] of
    the plugin SDK, [NumError] a [*strconv.NumError], and [Errorf] an error
    built by [fmt.Errorf] or [errors.New], kept as its format string and
    arguments. *)
Inductive error : Type :=
| SDKError (e : sdkError)
| TimeoutError
| NumError (func num : string) (range : bool)
| Errorf (format : string) (args : list fmtArg)
with fmtArg : Type :=
| ArgString (s : string)
| ArgInt (n : Z)
| ArgBool (b : bool)
| ArgError (e : error).

Definition errors_New (msg : string) : error := Errorf msg [].

(** Go returns [(value, err)]; [inl] is the value with a nil error. *)
Definition result (A : Type) : Type := (A + error)%type.

(** The same for a call on the AWS SDK. *)
Definition response (A : Type) : Type := (A + sdkError)%type.

Module strings.

(** [strings.HasPrefix(s, prefix)]. *)
Fixpoint HasPrefix (s prefix : string) : bool :=
  match prefix, s with
  | EmptyString, _ => true
  | String p prefix', String c s' => Ascii.eqb p c && HasPrefix s' prefix'
  | String _ _, EmptyString => false
  end.

(** [strings.Contains(s, substr)]. *)
Fixpoint Contains (s substr : string) : bool :=
  HasPrefix s substr ||
  match s with
  | EmptyString => false
  | String _ s' => Contains s' substr
  end.

Definition lowerByte (c : ascii) : ascii :=
  let n := nat_of_ascii c in
  if (Nat.leb 65 n && Nat.leb n 90)%bool then ascii_of_nat (n + 32) else c.

(** [strings.ToLower(s)], on the ASCII letters the protocol names use. *)
Fixpoint ToLower (s : string) : string :=
  match s with
  | EmptyString => EmptyString
  | String c s' => String (lowerByte c) (ToLower s')
  end.

End strings.

Module strconv.

Definition maxUint64 : Z := 18446744073709551615.
Definition maxInt64 : Z := 9223372036854775807.
Definition minInt64 : Z := -9223372036854775808.

Definition isDigit (c : ascii) : bool :=
  (Nat.leb 48 (nat_of_ascii c) && Nat.leb (nat_of_ascii c) 57)%bool.

Definition digit (c : ascii) : Z := Z.of_nat (nat_of_ascii c) - 48.

Inductive scan : Type :=
| ScanOk (n : Z)
| ScanSyntax
| ScanRange.

(** The digit loop of [ParseUint(s, 10, 64)]: bytes are consumed left to
    right, the first byte that is not a decimal digit is a syntax error,
    and an overflow of the accumulator is a range error reported at the
    byte where it happens. *)
Fixpoint parseUintLoop (n : Z) (s : string) : scan :=
  match s with
  | EmptyString => ScanOk n
  | String c s' =>
      if isDigit c then
        if n >=? maxUint64 / 10 + 1 then ScanRange
        else
          let n1 := n * 10 + digit c in
          if n1 >? maxUint64 then ScanRange else parseUintLoop n1 s'
      else ScanSyntax
  end.

Definition ParseUint (s : string) : scan :=
  match s with
  | EmptyString => ScanSyntax
  | _ => parseUintLoop 0 s
  end.

(** [strconv.Atoi(s)], that is [ParseInt(s, 10, 0)] on a 64-bit platform.
    Both results are returned, as in Go: on a syntax error the value is 0,
    on a range error it is the nearest bound. *)
Definition Atoi (s : string) : Z * option error :=
  match s with
  | EmptyString => (0, Some (NumError "Atoi" s false))
  | String c rest =>
      let neg := Ascii.eqb c "-" in
      let body := if (Ascii.eqb c "+" || neg)%bool then rest else s in
      match ParseUint body with
      | ScanSyntax => (0, Some (NumError "Atoi" s false))
      | ScanRange =>
          if neg then (minInt64, Some (NumError "Atoi" s true))
          else (maxInt64, Some (NumError "Atoi" s true))
      | ScanOk un =>
          if (negb neg && (un >=? maxInt64 + 1))%bool
          then (maxInt64, Some (NumError "Atoi" s true))
          else if (neg && (un >? maxInt64 + 1))%bool
          then (minInt64, Some (NumError "Atoi" s true))
          else (if neg then - un else un, None)
      end
  end.

(** [strconv.ParseBool(str)]. *)
Definition ParseBool (str : string) : result bool :=
  if (String.eqb str "1" || String.eqb str "t" || String.eqb str "T"
      || String.eqb str "TRUE" || String.eqb str "true"
      || String.eqb str "True")%bool then inl true
  else if (String.eqb str "0" || String.eqb str "f" || String.eqb str "F"
      || String.eqb str "FALSE" || String.eqb str "false"
      || String.eqb str "False")%bool then inl false
  else inr (NumError "ParseBool" str false).

(** [%d] of [fmt.Sprintf] on an [int], which is [strconv.Itoa]. *)
Definition Itoa (n : Z) : string := NilZero.string_of_int (Z.to_int n).

(** [strconv.FormatBool(b)]. *)
Definition FormatBool (b : bool) : string :=
  if b then "true" else "false".

End strconv.

(** ** Validators *)

(** The double-quote byte, for format strings that contain one. *)
Definition dquote : string := String (ascii_of_nat 34) EmptyString.

(** [validateSlowStart(v, k)]: the value is the schema's [int]. *)
Definition validateSlowStart (v : Z) (k : string) : list string * list error :=
  let value := v in
  let errors : list error := [] in
  let errors :=
    if (negb (value =? 0) && negb ((value >=? 30) && (value <=? 900)))%bool
    then (errors ++
         [Errorf ("%q contains an invalid Slow Start Duration " ++ dquote
                  ++ "%d" ++ dquote
                  ++ ". Valid intervals are 30-900 or 0 to disable.")
                 [ArgString k; ArgInt value]])%list
    else errors in
  ([], errors).

(** [validateAwsLbTargetGroupHealthCheckPort(v, k)].  The early [return] on
    "traffic-port" leaves both result lists empty; afterwards the two checks
    are independent, so a string that does not parse collects two errors
    (the parsed value is then 0 or an [int64] bound). *)
Definition validateAwsLbTargetGroupHealthCheckPort (v : string) (k : string)
  : list string * list error :=
  let value := v in
  let errors : list error := [] in
  if String.eqb value "traffic-port" then ([], errors)
  else
    let '(port, err) := strconv.Atoi value in
    let errors :=
      match err with
      | Some _ =>
          (errors ++ [Errorf "%q must be a valid port number (1-65536) or %q"
                             [ArgString k; ArgString "traffic-port"]])%list
      | None => errors
      end in
    let errors :=
      if ((port <? 1) || (port >? 65536))%bool
      then (errors ++ [Errorf "%q must be a valid port number (1-65536) or %q"
                              [ArgString k; ArgString "traffic-port"]])%list
      else errors in
    ([], errors).

(** [validateAwsLbTargetGroupHealthCheckPath(v, k)]. *)
Definition validateAwsLbTargetGroupHealthCheckPath (v : string) (k : string)
  : list string * list error :=
  let value := v in
  let errors : list error := [] in
  let errors :=
    if (Nat.ltb 1024 (String.length value))
    then (errors ++ [Errorf "%q cannot be longer than 1024 characters: %q"
                            [ArgString k; ArgString value]])%list
    else errors in
  let errors :=
    if (Nat.ltb 0 (String.length value) && negb (strings.HasPrefix value "/"))%bool
    then (errors ++ [Errorf "%q must begin with a '/' character: %q"
                            [ArgString k; ArgString value]])%list
    else errors in
  ([], errors).


(** ** The vendor SDK's constants and API shapes *)

Module elbv2.

Definition ProtocolEnumHttp : string := "HTTP".
Definition ProtocolEnumHttps : string := "HTTPS".
Definition ProtocolEnumTcp : string := "TCP".
Definition ProtocolEnumTls : string := "TLS".
Definition ProtocolEnumUdp : string := "UDP".
Definition ProtocolEnumTcpUdp : string := "TCP_UDP".

Definition TargetTypeEnumInstance : string := "instance".
Definition TargetTypeEnumIp : string := "ip".
Definition TargetTypeEnumLambda : string := "lambda".

Definition ErrCodeTargetGroupNotFoundException : string :=
  "TargetGroupNotFound".

(** [*elbv2.Matcher]. *)
Record Matcher : Type := {
  HttpCode : option string
}.

(** [*elbv2.TargetGroup], the fields the resource reads.  A pointer field
    is an [option]. *)
Record TargetGroup : Type := {
  TargetGroupArn : option string;
  TargetGroupName : option string;
  TargetType : option string;
  HealthCheckEnabled : option bool;
  HealthCheckIntervalSeconds : option Z;
  HealthCheckPort : option string;
  HealthCheckProtocol : option string;
  HealthCheckTimeoutSeconds : option Z;
  HealthyThresholdCount : option Z;
  UnhealthyThresholdCount : option Z;
  HealthCheckPath : option string;
  TargetGroupMatcher : option Matcher;
  VpcId : option string;
  Port : option Z;
  Protocol : option string
}.

(** [*elbv2.TargetGroupAttribute]. *)
Record TargetGroupAttribute : Type := {
  Key : option string;
  Value : option string
}.

(** [*elbv2.CreateTargetGroupInput]. *)
Record CreateTargetGroupInput : Type := {
  ctg_Name : option string;
  ctg_TargetType : option string;
  ctg_Port : option Z;
  ctg_Protocol : option string;
  ctg_VpcId : option string;
  ctg_HealthCheckEnabled : option bool;
  ctg_HealthCheckIntervalSeconds : option Z;
  ctg_HealthyThresholdCount : option Z;
  ctg_UnhealthyThresholdCount : option Z;
  ctg_HealthCheckTimeoutSeconds : option Z;
  ctg_HealthCheckPath : option string;
  ctg_Matcher : option Matcher;
  ctg_HealthCheckPort : option string;
  ctg_HealthCheckProtocol : option string
}.

(** [*elbv2.ModifyTargetGroupInput]. *)
Record ModifyTargetGroupInput : Type := {
  mtg_TargetGroupArn : option string;
  mtg_HealthCheckEnabled : option bool;
  mtg_HealthyThresholdCount : option Z;
  mtg_UnhealthyThresholdCount : option Z;
  mtg_HealthCheckTimeoutSeconds : option Z;
  mtg_Matcher : option Matcher;
  mtg_HealthCheckPath : option string;
  mtg_HealthCheckIntervalSeconds : option Z;
  mtg_HealthCheckPort : option string;
  mtg_HealthCheckProtocol : option string
}.

End elbv2.

Module aws.

(** [aws.StringValue], [aws.Int64Value], [aws.BoolValue]: the pointee, or
    the zero value for a nil pointer. *)
Definition StringValue (p : option string) : string :=
  match p with Some s => s | None => "" end.
Definition Int64Value (p : option Z) : Z :=
  match p with Some n => n | None => 0 end.
Definition BoolValue (p : option bool) : bool :=
  match p with Some b => b | None => false end.

End aws.

(** ** The resource's schema, as typed values *)

Module schema.

(** One [health_check] block ([map[string]interface{}] under the nested
    schema): every key with the Go type its schema gives it. *)
Record HealthCheck : Type := {
  hc_enabled : bool;
  hc_interval : Z;
  hc_path : string;
  hc_port : string;
  hc_protocol : string;
  hc_timeout : Z;
  hc_healthy_threshold : Z;
  hc_matcher : string;
  hc_unhealthy_threshold : Z
}.

(** One [stickiness] block. *)
Record Stickiness : Type := {
  st_enabled : bool;
  st_type : string;
  st_cookie_duration : Z
}.

(** A tag map, as its key/value pairs. *)
Definition Tags : Type := list (string * string).

(** The attributes of the schema.  An attribute that is not set reads as
    the zero value of its type, which is what [Get] returns for it. *)
Record Fields : Type := {
  arn : string;
  arn_suffix : string;
  name : string;
  name_prefix : string;
  port : Z;
  protocol : string;
  vpc_id : string;
  deregistration_delay : Z;
  slow_start : Z;
  proxy_protocol_v2 : bool;
  lambda_multi_value_headers_enabled : bool;
  target_type : string;
  load_balancing_algorithm_type : string;
  stickiness : list Stickiness;
  health_check : list HealthCheck;
  tags : Tags
}.

Definition zeroHealthCheck : HealthCheck :=
  {| hc_enabled := false; hc_interval := 0; hc_path := ""; hc_port := "";
     hc_protocol := ""; hc_timeout := 0; hc_healthy_threshold := 0;
     hc_matcher := ""; hc_unhealthy_threshold := 0 |}.

Definition zeroStickiness : Stickiness :=
  {| st_enabled := false; st_type := ""; st_cookie_duration := 0 |}.

(** Element 0 of a block list, or the zero values when the list is empty:
    what [Get("health_check.0.<key>")] reads from. *)
Definition health_check_0 (f : Fields) : HealthCheck :=
  match health_check f with h :: _ => h | [] => zeroHealthCheck end.

Definition stickiness_0 (f : Fields) : Stickiness :=
  match stickiness f with s :: _ => s | [] => zeroStickiness end.

(** [*schema.ResourceDiff] as the diff customization sees it: the id of
    the resource in state (empty on creation), the attribute values before
    and after the planned change, the keys of the underlying attribute diff
    and the keys flagged by [ForceNew]. *)
Record ResourceDiff : Type := {
  diff_Id : string;
  diff_old : Fields;
  diff_new : Fields;
  diff_attributes : list string;
  diff_forcedNewKeys : list string
}.

(** [diff.HasChange(key)], for the keys the customization asks about: the
    old and the new value differ. *)
Definition diff_HasChange (diff : ResourceDiff) (key : string) : bool :=
  let o := health_check_0 (diff_old diff) in
  let n := health_check_0 (diff_new diff) in
  if String.eqb key "health_check.0.interval"
  then negb (hc_interval o =? hc_interval n)
  else if String.eqb key "health_check.0.protocol"
  then negb (String.eqb (hc_protocol o) (hc_protocol n))
  else if String.eqb key "health_check.0.timeout"
  then negb (hc_timeout o =? hc_timeout n)
  else false.

(** [diff.GetChangedKeysPrefix(prefix)]: the keys of the attribute diff
    that start with [prefix]. *)
Definition diff_GetChangedKeysPrefix (diff : ResourceDiff) (prefix : string)
  : list string :=
  filter (fun k => strings.HasPrefix k prefix) (diff_attributes diff).

(** The diff with [key] flagged as forcing replacement. *)
Definition flagForceNew (diff : ResourceDiff) (key : string) : ResourceDiff :=
  {| diff_Id := diff_Id diff;
     diff_old := diff_old diff;
     diff_new := diff_new diff;
     diff_attributes := diff_attributes diff;
     diff_forcedNewKeys := key :: diff_forcedNewKeys diff |}.

(** [diff.ForceNew(key)]: refuses a key without a change, otherwise flags
    the key as forcing replacement. *)
Definition diff_ForceNew (diff : ResourceDiff) (key : string)
  : ResourceDiff * option error :=
  if diff_HasChange diff key
  then (flagForceNew diff key, None)
  else (diff, Some (Errorf "ForceNew: No changes for %s" [ArgString key])).

End schema.

Import schema.

(** ** Diff suppression for the stickiness block *)

(** A [DiffSuppressFunc] receives the resource data; these two only read
    [protocol] and [stickiness.0.enabled] from it. *)
Definition isOneOf (s : string) (l : list string) : bool :=
  existsb (String.eqb s) l.

(** [DiffSuppressFunc] of [stickiness.type]. *)
Definition stickinessTypeDiffSuppress (k old new : string) (d : Fields) : bool :=
  if isOneOf (protocol d)
       [elbv2.ProtocolEnumTcp; elbv2.ProtocolEnumUdp;
        elbv2.ProtocolEnumTcpUdp; elbv2.ProtocolEnumTls]
  then
    if (String.eqb new "lb_cookie" && negb (st_enabled (stickiness_0 d)))%bool
    then true
    else false
  else false.

(** [DiffSuppressFunc] of [stickiness.cookie_duration]. *)
Definition stickinessCookieDurationDiffSuppress (k old new : string) (d : Fields)
  : bool :=
  if isOneOf (protocol d)
       [elbv2.ProtocolEnumTcp; elbv2.ProtocolEnumUdp;
        elbv2.ProtocolEnumTcpUdp; elbv2.ProtocolEnumTls]
  then true
  else false.

(** [suppressIfTargetType(t)]. *)
Definition suppressIfTargetType (t : string) (k old new : string) (d : Fields)
  : bool :=
  String.eqb (target_type d) t.

(** ** Plan-time diff customization *)

(** The validation of a TCP health check, the first block of
    [resourceAwsLbTargetGroupCustomizeDiff]: [Some] is the error the function
    returns there. *)
Definition tcpHealthCheckValidation (diff : ResourceDiff) : option error :=
  match health_check (diff_new diff) with
  | [healthCheck] =>
      let protocol := hc_protocol healthCheck in
      if String.eqb protocol elbv2.ProtocolEnumTcp then
        if negb (String.eqb (hc_matcher healthCheck) "") then
          Some (Errorf "%s: health_check.matcher is not supported for target_groups with TCP protocol"
                       [ArgString (diff_Id diff)])
        else if negb (String.eqb (hc_path healthCheck) "") then
          Some (Errorf "%s: health_check.path is not supported for target_groups with TCP protocol"
                       [ArgString (diff_Id diff)])
        else if (negb (hc_timeout healthCheck =? 0)
                 && String.eqb (diff_Id diff) "")%bool then
          Some (Errorf "%s: health_check.timeout is not supported for target_groups with TCP protocol"
                       [ArgString (diff_Id diff)])
        else if negb (hc_healthy_threshold healthCheck
                      =? hc_unhealthy_threshold healthCheck) then
          Some (Errorf "%s: health_check.healthy_threshold %d and health_check.unhealthy_threshold %d must be the same for target_groups with TCP protocol"
                       [ArgString (diff_Id diff);
                        ArgInt (hc_healthy_threshold healthCheck);
                        ArgInt (hc_unhealthy_threshold healthCheck)])
        else None
      else None
  | _ => None
  end.

(** The second block: an HTTP(S) target group cannot use a TCP health
    check. *)
Definition httpHealthCheckValidation (diff : ResourceDiff) : option error :=
  let protocol := protocol (diff_new diff) in
  if strings.Contains protocol elbv2.ProtocolEnumHttp then
    match health_check (diff_new diff) with
    | [healthCheck] =>
        if String.eqb (strings.ToLower (hc_protocol healthCheck)) "tcp"
        then Some (Errorf "HTTP Target Groups cannot use TCP health checks" [])
        else None
    | _ => None
    end
  else None.

(** [if diff.HasChange(key) { if err := diff.ForceNew(key); err != nil
    { return err } }], with an extra guard for the protocol key. *)
Definition forceNewIfChanged (guard : bool) (key : string) (diff : ResourceDiff)
  : ResourceDiff * option error :=
  if (diff_HasChange diff key && guard)%bool
  then diff_ForceNew diff key
  else (diff, None).

(** [resourceAwsLbTargetGroupCustomizeDiff(ctx, diff, v)].  Neither the
    context nor the provider handle [v] is used: the function has no access
    to the remote API, and its only effect is on [diff]. *)
Definition resourceAwsLbTargetGroupCustomizeDiff (diff : ResourceDiff)
  : ResourceDiff * option error :=
  let protocol := protocol (diff_new diff) in
  match tcpHealthCheckValidation diff with
  | Some err => (diff, Some err)
  | None =>
  match httpHealthCheckValidation diff with
  | Some err => (diff, Some err)
  | None =>
  if String.eqb (diff_Id diff) "" then (diff, None)
  else if String.eqb protocol elbv2.ProtocolEnumTcp then
    match forceNewIfChanged true "health_check.0.interval" diff with
    | (diff, Some err) => (diff, Some err)
    | (diff, None) =>
    match forceNewIfChanged
            (negb (Nat.eqb (List.length
                     (diff_GetChangedKeysPrefix diff "health_check.0")) 0))
            "health_check.0.protocol" diff with
    | (diff, Some err) => (diff, Some err)
    | (diff, None) =>
    match forceNewIfChanged true "health_check.0.timeout" diff with
    | (diff, Some err) => (diff, Some err)
    | (diff, None) => (diff, None)
    end end end
  else (diff, None)
  end end.

(** ** Errors of the AWS SDK and of the plugin SDK *)

(** Modelled from the spec: [isAWSErr] (the provider's [awserr.go] is not
    part of the sources here).  It recognises "the error [code] with message
    containing [message]": an [awserr.Error] whose code is [code] and whose
    message contains [message]; no other error value, and no nil error,
    qualifies. *)
Definition isAWSErr (err : option error) (code message : string) : bool :=
  match err with
  | Some (SDKError (AWSError c m)) =>
      (String.eqb c code && strings.Contains m message)%bool
  | _ => false
  end.

(** Modelled from the spec: [isResourceTimeoutError] (same missing file)
    recognises the timeout error with which a retry loop ends: the
    [*resource.TimeoutError] that carries no last error, which is the only
    one [resource.Retry] returns. *)
Definition isResourceTimeoutError (err : option error) : bool :=
  match err with
  | Some TimeoutError => true
  | _ => false
  end.

(** ** The remote API *)

(** A call on the ELBv2 connection, as it appears in the call history.
    [UpdateTagsRequest] and [ListTagsRequest] stand for what
    [keyvaluetags.Elbv2UpdateTags] and [keyvaluetags.Elbv2ListTags] send. *)
Inductive Request : Type :=
| CreateTargetGroupRequest (input : elbv2.CreateTargetGroupInput)
| DescribeTargetGroupsRequest (TargetGroupArns : list string)
| ModifyTargetGroupRequest (input : elbv2.ModifyTargetGroupInput)
| ModifyTargetGroupAttributesRequest
    (TargetGroupArn : string) (Attributes : list elbv2.TargetGroupAttribute)
| DescribeTargetGroupAttributesRequest (TargetGroupArn : string)
| DeleteTargetGroupRequest (TargetGroupArn : string)
| UpdateTagsRequest (identifier : string) (oldTags newTags : Tags)
| ListTagsRequest (identifier : string).

(** Times are milliseconds on the provider's clock. *)
Definition Time : Type := N.

(** One entry of the call history: when the call was issued, what was
    asked, and the error it came back with (nil on success). *)
Record Call : Type := {
  issuedAt : Time;
  request : Request;
  failure : option sdkError
}.

(** The calls issued so far, oldest first. *)
Definition History : Type := list Call.

(** The provider handle [meta], an [AWSClient]: the connection and the
    tag-ignore configuration.  The remote side is arbitrary: every operation
    answers as a function of the calls seen so far and of its input, and
    [elapsed] says how long the answer takes. *)
Record AWSClient : Type := {
  CreateTargetGroup_ :
    History -> elbv2.CreateTargetGroupInput -> response (list elbv2.TargetGroup);
  DescribeTargetGroups_ :
    History -> list string -> response (list elbv2.TargetGroup);
  ModifyTargetGroup_ :
    History -> elbv2.ModifyTargetGroupInput -> option sdkError;
  ModifyTargetGroupAttributes_ :
    History -> string -> list elbv2.TargetGroupAttribute -> option sdkError;
  DescribeTargetGroupAttributes_ :
    History -> string -> response (list elbv2.TargetGroupAttribute);
  DeleteTargetGroup_ : History -> string -> option sdkError;
  Elbv2UpdateTags_ : History -> string -> Tags -> Tags -> option sdkError;
  Elbv2ListTags_ : History -> string -> response Tags;
  elapsed : History -> Request -> N;
  IgnoreTags : Tags -> Tags
}.

(** What lies outside the resource data: the call history, the clock and
    the state behind [resource.PrefixedUniqueId]. *)
Record World : Type := {
  history : History;
  now : Time;
  uniqueIds : nat;
  uniqueSuffix : nat -> string
}.

(** Issuing [req], which comes back with [err]: the call is appended to
    the history and the clock advances by the time the answer takes. *)
Definition issue (meta : AWSClient) (req : Request) (err : option sdkError)
  (w : World) : World :=
  {| history :=
       (history w
        ++ [ {| issuedAt := now w; request := req; failure := err |} ])%list;
     now := (now w + elapsed meta (history w) req)%N;
     uniqueIds := uniqueIds w;
     uniqueSuffix := uniqueSuffix w |}.

(** Time passing without a call. *)
Definition sleep (t : N) (w : World) : World :=
  {| history := history w;
     now := (now w + t)%N;
     uniqueIds := uniqueIds w;
     uniqueSuffix := uniqueSuffix w |}.

(** The clock reading [t], with nothing else changed. *)
Definition atTime (t : Time) (w : World) : World :=
  {| history := history w;
     now := t;
     uniqueIds := uniqueIds w;
     uniqueSuffix := uniqueSuffix w |}.

Definition failureOf {A : Type} (r : response A) : option sdkError :=
  match r with
  | inl _ => None
  | inr err => Some err
  end.

(** An SDK failure as a Go [error] value. *)
Definition asError (err : option sdkError) : option error :=
  option_map SDKError err.

Definition asResult {A : Type} (r : response A) : result A :=
  match r with
  | inl a => inl a
  | inr err => inr (SDKError err)
  end.

Section Calls.

Variable meta : AWSClient.

Definition CreateTargetGroup (input : elbv2.CreateTargetGroupInput) (w : World)
  : result (list elbv2.TargetGroup) * World :=
  let r := CreateTargetGroup_ meta (history w) input in
  (asResult r, issue meta (CreateTargetGroupRequest input) (failureOf r) w).

Definition DescribeTargetGroups (arns : list string) (w : World)
  : result (list elbv2.TargetGroup) * World :=
  let r := DescribeTargetGroups_ meta (history w) arns in
  (asResult r, issue meta (DescribeTargetGroupsRequest arns) (failureOf r) w).

Definition ModifyTargetGroup (input : elbv2.ModifyTargetGroupInput) (w : World)
  : option error * World :=
  let err := ModifyTargetGroup_ meta (history w) input in
  (asError err, issue meta (ModifyTargetGroupRequest input) err w).

Definition ModifyTargetGroupAttributes
  (arn : string) (attrs : list elbv2.TargetGroupAttribute) (w : World)
  : option error * World :=
  let err := ModifyTargetGroupAttributes_ meta (history w) arn attrs in
  (asError err, issue meta (ModifyTargetGroupAttributesRequest arn attrs) err w).

Definition DescribeTargetGroupAttributes (arn : string) (w : World)
  : result (list elbv2.TargetGroupAttribute) * World :=
  let r := DescribeTargetGroupAttributes_ meta (history w) arn in
  (asResult r, issue meta (DescribeTargetGroupAttributesRequest arn) (failureOf r) w).

Definition DeleteTargetGroup (arn : string) (w : World)
  : option error * World :=
  let err := DeleteTargetGroup_ meta (history w) arn in
  (asError err, issue meta (DeleteTargetGroupRequest arn) err w).

Definition Elbv2UpdateTags (identifier : string) (o n : Tags) (w : World)
  : option error * World :=
  let err := Elbv2UpdateTags_ meta (history w) identifier o n in
  (asError err, issue meta (UpdateTagsRequest identifier o n) err w).

Definition Elbv2ListTags (identifier : string) (w : World)
  : result Tags * World :=
  let r := Elbv2ListTags_ meta (history w) identifier in
  (asResult r, issue meta (ListTagsRequest identifier) (failureOf r) w).

End Calls.

(** ** The plugin SDK's retry helper *)

Module resource.

(** [*resource.RetryError]. *)
Record RetryError : Type := {
  Err : error;
  Retryable : bool
}.

Definition RetryableError (err : error) : option RetryError :=
  Some {| Err := err; Retryable := true |}.

Definition NonRetryableError (err : error) : option RetryError :=
  Some {| Err := err; Retryable := false |}.

(** [StateChangeConf.MinTimeout] as [RetryContext] sets it: the shortest
    pause between two attempts. *)
Definition MinTimeout : N := 500.

(** The longest pause between two attempts, [10 * time.Second]. *)
Definition maxWait : N := 10000.

(** [refreshGracePeriod]: how long a call that is under way when the
    timeout fires may still take to answer. *)
Definition refreshGracePeriod : N := 30000.

(** The pause before the next attempt, from the one before it:
    [wait *= 2], then bounded by [MinTimeout] and [10 * time.Second]
    (no [PollInterval] is set). *)
Definition nextWait (wait : N) : N :=
  let wait := (wait * 2)%N in
  if (wait <? MinTimeout)%N then MinTimeout
  else if (maxWait <? wait)%N then maxWait
  else wait.

(** What [RetryContext] returns once the wait has timed out: [resultErr],
    the error of the last attempt that answered, takes precedence; the
    [*TimeoutError] is returned only when no attempt has left an error. *)
Definition timedOut (resultErr : option error) : option error :=
  match resultErr with
  | Some err => Some err
  | None => Some TimeoutError
  end.

(** [resource.Retry] is code of the plugin SDK (helper/resource), which is
    not part of the sources here; it is modelled after the SDK's
    [RetryContext] and [StateChangeConf.WaitForStateContext], with the
    refresh goroutine and the timer put in sequence on the one clock:
    - the first attempt starts at once, each later one after a pause
      [wait] of 500 ms, 1 s, 2 s, 4 s, 8 s and then 10 s;
    - an attempt that answers nil ends the loop with nil, one that answers
      a non-retryable error ends it with that error, and one that answers
      a retryable error records it in [resultErr];
    - when [deadline] comes during a pause no further attempt starts, and
      the loop ends with [timedOut resultErr];
    - an attempt under way at [deadline] is waited for during the grace
      period, and its answer counts as above; when it has not answered by
      then the loop ends with [timedOut resultErr] at that time.
    [fuel] only makes the recursion structural: [Retry] passes more than
    the deadline lets it use, the pauses being [MinTimeout] or longer. *)
Fixpoint retryLoop (fuel : nat) (deadline : Time) (wait : N)
  (resultErr : option error)
  (f : World -> option RetryError * World) (w : World)
  : option error * World :=
  match fuel with
  | O => (timedOut resultErr, atTime (N.max (now w) deadline) w)
  | S fuel' =>
      if (deadline <=? now w + wait)%N
      then (timedOut resultErr, atTime (N.max (now w) deadline) w)
      else
        let '(rerr, w') := f (sleep wait w) in
        if (deadline + refreshGracePeriod <? now w')%N
        then (timedOut resultErr, atTime (deadline + refreshGracePeriod)%N w')
        else
          match rerr with
          | None => (None, w')
          | Some rerr =>
              if Retryable rerr
              then retryLoop fuel' deadline (nextWait wait) (Some (Err rerr)) f w'
              else (Some (Err rerr), w')
          end
  end.

Definition Retry (timeout : N) (f : World -> option RetryError * World)
  (w : World) : option error * World :=
  retryLoop (S (N.to_nat (timeout / MinTimeout))) (now w + timeout)%N 0 None
    f w.

(** [resource.PrefixedUniqueId(prefix)]: the prefix followed by a suffix
    that differs at every call. *)
Definition PrefixedUniqueId (prefix : string) (w : World) : string * World :=
  (prefix ++ uniqueSuffix w (uniqueIds w),
   {| history := history w;
      now := now w;
      uniqueIds := S (uniqueIds w);
      uniqueSuffix := uniqueSuffix w |}).

End resource.

Definition Minute : N := 60000.

(** ** Regular expressions *)

Module regexp.

(** The syntax the resource's one pattern needs.  [Any] is [.], which
    matches any byte but a line feed; [Star] is the greedy [*]; [Group] is
    a capturing pair of parentheses. *)
Inductive Regexp : Type :=
| Byte (c : ascii)
| Any
| Star (r : Regexp)
| Cat (r1 r2 : Regexp)
| Group (r : Regexp).

(** A literal string, byte by byte; [last] is what follows it. *)
Fixpoint Literal (s : string) (last : Regexp) : Regexp :=
  match s with
  | EmptyString => last
  | String c s' => Cat (Byte c) (Literal s' last)
  end.

Definition isLineFeed (c : ascii) : bool := Ascii.eqb c (ascii_of_nat 10).

(** The first [n] bytes of [s]. *)
Fixpoint take (n : nat) (s : string) : string :=
  match n, s with
  | S n', String c s' => String c (take n' s')
  | _, _ => EmptyString
  end.

(** The text between the start of [s] and the start of its suffix
    [rest]. *)
Definition consumed (s rest : string) : string :=
  take (String.length s - String.length rest) s.

(** The greedy loop of a [Star]: [step] matches the starred expression
    once.  One more iteration is preferred to stopping, and an iteration
    must consume input; [fuel] bounds the iterations by the length of the
    input. *)
Fixpoint starLoop {R : Type}
  (step : string -> list string -> (string -> list string -> option R) -> option R)
  (k : string -> list string -> option R)
  (fuel : nat) (s : string) (caps : list string) : option R :=
  match fuel with
  | O => k s caps
  | S fuel' =>
      match step s caps
              (fun s' caps' =>
                 if Nat.ltb (String.length s') (String.length s)
                 then starLoop step k fuel' s' caps'
                 else None) with
      | Some res => Some res
      | None => k s caps
      end
  end.

(** Matching at the start of [s], by backtracking in the order that gives
    the leftmost-first match Go's [regexp] promises: alternatives are
    tried in priority order and the first that lets the continuation [k]
    succeed wins.  [caps] collects the text of the groups closed so far;
    [k] receives the unread rest of the input. *)
Fixpoint matchHere {R : Type} (r : Regexp) (s : string) (caps : list string)
  (k : string -> list string -> option R) {struct r} : option R :=
  match r with
  | Byte c =>
      match s with
      | String c' s' => if Ascii.eqb c c' then k s' caps else None
      | EmptyString => None
      end
  | Any =>
      match s with
      | String c' s' => if isLineFeed c' then None else k s' caps
      | EmptyString => None
      end
  | Star r' => starLoop (matchHere r') k (String.length s) s caps
  | Cat r1 r2 =>
      matchHere r1 s caps (fun s' caps' => matchHere r2 s' caps' k)
  | Group r' =>
      matchHere r' s caps
        (fun s' caps' => k s' (caps' ++ [consumed s s'])%list)
  end.

(** One match: the text before it, the submatches (whole match first) and
    the unread rest. *)
Record Match : Type := {
  before : string;
  submatches : list string;
  after : string
}.

(** The leftmost match in [s]: the first start position at which
    [matchHere] succeeds. *)
Fixpoint search (r : Regexp) (skipped : string) (s : string) : option Match :=
  match matchHere r s []
          (fun rest caps =>
             Some {| before := skipped;
                     submatches := consumed s rest :: caps;
                     after := rest |}) with
  | Some m => Some m
  | None =>
      match s with
      | EmptyString => None
      | String c s' => search r (skipped ++ String c EmptyString) s'
      end
  end.

(** The loop of [FindAllStringSubmatch(s, -1)]: successive non-overlapping
    matches, each search starting where the previous match ended.  An
    empty match moves the position forward by one and is dropped when it
    abuts the previous match ([abut] says that the previous match ended
    at the current position). *)
Fixpoint allMatches (fuel : nat) (r : Regexp) (s : string) (abut : bool)
  : list (list string) :=
  match fuel with
  | O => []
  | S fuel' =>
      match search r EmptyString s with
      | None => []
      | Some m =>
          match submatches m with
          | EmptyString :: _ =>
              let accept :=
                negb (abut && Nat.eqb (String.length (before m)) 0) in
              let rest :=
                match after m with
                | EmptyString => None
                | String _ s' => Some s'
                end in
              let tail :=
                match rest with
                | None => []
                | Some s' => allMatches fuel' r s' false
                end in
              if accept then submatches m :: tail else tail
          | _ => submatches m :: allMatches fuel' r (after m) true
          end
      end
  end.

Definition FindAllStringSubmatch (r : Regexp) (s : string)
  : list (list string) :=
  allMatches (S (String.length s)) r s false.

(** A string without a line feed. *)
Fixpoint singleLine (s : string) : bool :=
  match s with
  | EmptyString => true
  | String c s' => (negb (isLineFeed c) && singleLine s')%bool
  end.

(** The first line of [s], without its line feed, and the rest of [s] from
    that line feed on. *)
Fixpoint firstLine (s : string) : string :=
  match s with
  | EmptyString => EmptyString
  | String c s' => if isLineFeed c then EmptyString else String c (firstLine s')
  end.

Fixpoint afterFirstLine (s : string) : string :=
  match s with
  | EmptyString => EmptyString
  | String c s' => if isLineFeed c then s else afterFirstLine s'
  end.

(** [FindStringSubmatch], the leftmost match alone. *)
Definition FindStringSubmatch (r : Regexp) (s : string)
  : option (list string) :=
  match search r EmptyString s with
  | Some m => Some (submatches m)
  | None => None
  end.

Definition MatchString (r : Regexp) (s : string) : bool :=
  match search r EmptyString s with
  | Some _ => true
  | None => false
  end.

End regexp.

(** ** The ARN suffix *)

(** The pattern of [lbTargetGroupSuffixFromARN]: the literal [arn:], a
    greedy run of any bytes, the literal [:targetgroup/] and a capturing
    group around a second greedy run. *)
Definition arnPattern : regexp.Regexp :=
  regexp.Literal "arn:"
    (regexp.Cat (regexp.Star regexp.Any)
       (regexp.Literal ":targetgroup/"
          (regexp.Group (regexp.Star regexp.Any)))).

(** [lbTargetGroupSuffixFromARN(arn)]; [arn] is a [*string]. *)
Definition lbTargetGroupSuffixFromARN (arn : option string) : string :=
  match arn with
  | None => ""
  | Some arn =>
      let arnComponents := regexp.FindAllStringSubmatch arnPattern arn in
      if Nat.eqb (List.length arnComponents) 1 then
        match arnComponents with
        | c :: _ =>
            if Nat.eqb (List.length c) 2
            then "targetgroup/" ++ nth 1 c ""
            else ""
        | [] => ""
        end
      else ""
  end.

(** ** Resource data *)

(** A value handed to [d.Set]. *)
Inductive value : Type :=
| VString (s : string)
| VInt (n : Z)
| VBool (b : bool)
| VStickiness (l : list Stickiness)
| VHealthCheck (l : list HealthCheck)
| VTags (t : Tags).

(** [*schema.ResourceData] as a handler sees it: the id, whether the
    resource is being created, the attribute values in the prior state,
    the values with the planned change applied, and the values [Get] reads,
    which are the planned ones overwritten by the handler's own [Set]s. *)
Record ResourceData : Type := {
  Id : string;
  IsNewResource : bool;
  oldValues : Fields;
  newValues : Fields;
  values : Fields
}.

Definition SetId (d : ResourceData) (v : string) : ResourceData :=
  {| Id := v;
     IsNewResource := IsNewResource d;
     oldValues := oldValues d;
     newValues := newValues d;
     values := values d |}.

(** The [ok] of [d.GetOk(key)]: the attribute holds a value that is not
    the zero value of its type. *)
Definition isSetString (v : string) : bool := negb (String.eqb v "").
Definition isSetInt (v : Z) : bool := negb (v =? 0).

Definition setsString (key name : string) (v : value) (old : string) : string :=
  match v with
  | VString s => if String.eqb key name then s else old
  | _ => old
  end.

Definition setsInt (key name : string) (v : value) (old : Z) : Z :=
  match v with
  | VInt n => if String.eqb key name then n else old
  | _ => old
  end.

Definition setsBool (key name : string) (v : value) (old : bool) : bool :=
  match v with
  | VBool b => if String.eqb key name then b else old
  | _ => old
  end.

(** Whether the schema has an attribute [key] of the type of [v]. *)
Definition accepts (key : string) (v : value) : bool :=
  match v with
  | VString _ =>
      isOneOf key ["arn"; "arn_suffix"; "name"; "name_prefix"; "protocol";
                   "vpc_id"; "target_type"; "load_balancing_algorithm_type"]
  | VInt _ => isOneOf key ["port"; "deregistration_delay"; "slow_start"]
  | VBool _ =>
      isOneOf key ["proxy_protocol_v2"; "lambda_multi_value_headers_enabled"]
  | VStickiness l => (String.eqb key "stickiness" && Nat.leb (List.length l) 1)%bool
  | VHealthCheck l => (String.eqb key "health_check" && Nat.leb (List.length l) 1)%bool
  | VTags _ => String.eqb key "tags"
  end.

(** [d.Set(key, value)]: the attribute [key] now reads as [value]; a key or
    a value the schema does not have is an error and changes nothing. *)
Definition Set_ (d : ResourceData) (key : string) (v : value)
  : ResourceData * option error :=
  let f := values d in
  if accepts key v then
    ({| Id := Id d;
        IsNewResource := IsNewResource d;
        oldValues := oldValues d;
        newValues := newValues d;
        values :=
          {| arn := setsString key "arn" v (arn f);
             arn_suffix := setsString key "arn_suffix" v (arn_suffix f);
             name := setsString key "name" v (name f);
             name_prefix := setsString key "name_prefix" v (name_prefix f);
             port := setsInt key "port" v (port f);
             protocol := setsString key "protocol" v (protocol f);
             vpc_id := setsString key "vpc_id" v (vpc_id f);
             deregistration_delay :=
               setsInt key "deregistration_delay" v (deregistration_delay f);
             slow_start := setsInt key "slow_start" v (slow_start f);
             proxy_protocol_v2 :=
               setsBool key "proxy_protocol_v2" v (proxy_protocol_v2 f);
             lambda_multi_value_headers_enabled :=
               setsBool key "lambda_multi_value_headers_enabled" v
                 (lambda_multi_value_headers_enabled f);
             target_type := setsString key "target_type" v (target_type f);
             load_balancing_algorithm_type :=
               setsString key "load_balancing_algorithm_type" v
                 (load_balancing_algorithm_type f);
             stickiness :=
               match v with VStickiness l => l | _ => stickiness f end;
             health_check :=
               match v with VHealthCheck l => l | _ => health_check f end;
             tags := match v with VTags t => t | _ => tags f end |} |}, None)
  else (d, Some (Errorf "Invalid address to set: %s" [ArgString key])).

Definition HealthCheck_eqb (a b : HealthCheck) : bool :=
  (Bool.eqb (hc_enabled a) (hc_enabled b)
   && (hc_interval a =? hc_interval b)
   && String.eqb (hc_path a) (hc_path b)
   && String.eqb (hc_port a) (hc_port b)
   && String.eqb (hc_protocol a) (hc_protocol b)
   && (hc_timeout a =? hc_timeout b)
   && (hc_healthy_threshold a =? hc_healthy_threshold b)
   && String.eqb (hc_matcher a) (hc_matcher b)
   && (hc_unhealthy_threshold a =? hc_unhealthy_threshold b))%bool.

Definition Stickiness_eqb (a b : Stickiness) : bool :=
  (Bool.eqb (st_enabled a) (st_enabled b)
   && String.eqb (st_type a) (st_type b)
   && (st_cookie_duration a =? st_cookie_duration b))%bool.

Fixpoint list_eqb {A : Type} (eqb : A -> A -> bool) (l1 l2 : list A) : bool :=
  match l1, l2 with
  | [], [] => true
  | x :: l1', y :: l2' => (eqb x y && list_eqb eqb l1' l2')%bool
  | _, _ => false
  end.

Fixpoint lookupTag (k : string) (t : Tags) : option string :=
  match t with
  | [] => None
  | (k', v) :: t' => if String.eqb k k' then Some v else lookupTag k t'
  end.

Definition subTags (a b : Tags) : bool :=
  forallb (fun kv => match lookupTag (fst kv) b with
                     | Some v => String.eqb v (snd kv)
                     | None => false
                     end) a.

(** Equality of two tag maps: the same keys with the same values. *)
Definition Tags_eqb (a b : Tags) : bool := (subTags a b && subTags b a)%bool.

(** [d.HasChange(key)]: the prior and the planned value of [key] differ. *)
Definition HasChange (d : ResourceData) (key : string) : bool :=
  let o := oldValues d in
  let n := newValues d in
  if String.eqb key "tags" then negb (Tags_eqb (tags o) (tags n))
  else if String.eqb key "health_check"
  then negb (list_eqb HealthCheck_eqb (health_check o) (health_check n))
  else if String.eqb key "deregistration_delay"
  then negb (deregistration_delay o =? deregistration_delay n)
  else if String.eqb key "slow_start"
  then negb (slow_start o =? slow_start n)
  else if String.eqb key "proxy_protocol_v2"
  then negb (Bool.eqb (proxy_protocol_v2 o) (proxy_protocol_v2 n))
  else if String.eqb key "stickiness"
  then negb (list_eqb Stickiness_eqb (stickiness o) (stickiness n))
  else if String.eqb key "load_balancing_algorithm_type"
  then negb (String.eqb (load_balancing_algorithm_type o)
                        (load_balancing_algorithm_type n))
  else if String.eqb key "lambda_multi_value_headers_enabled"
  then negb (Bool.eqb (lambda_multi_value_headers_enabled o)
                      (lambda_multi_value_headers_enabled n))
  else false.

(** What a handler returns: Go mutates [d] in place and returns an [error];
    here the data and the world after the call come back with it. *)
Definition Outcome : Type := (ResourceData * World * option error)%type.

Definition Handler : Type := ResourceData -> AWSClient -> World -> Outcome.

(** ** Read *)

(** The [stickinessMap] of [flattenAwsLbTargetGroupStickiness]: a key is
    present once the loop has stored it. *)
Record StickinessMap : Type := {
  sm_enabled : option bool;
  sm_type : option string;
  sm_cookie_duration : option Z
}.

Definition emptyStickinessMap : StickinessMap :=
  {| sm_enabled := None; sm_type := None; sm_cookie_duration := None |}.

Definition lenStickinessMap (m : StickinessMap) : nat :=
  ((match sm_enabled m with Some _ => 1 | None => 0 end)
   + (match sm_type m with Some _ => 1 | None => 0 end)
   + (match sm_cookie_duration m with Some _ => 1 | None => 0 end))%nat.

(** The loop of [flattenAwsLbTargetGroupStickiness] over the attributes. *)
Fixpoint stickinessLoop (attributes : list elbv2.TargetGroupAttribute)
  (stickinessMap : StickinessMap) (d : ResourceData)
  : StickinessMap * ResourceData * option error :=
  match attributes with
  | [] => (stickinessMap, d, None)
  | attr :: rest =>
      let key := aws.StringValue (elbv2.Key attr) in
      let val := aws.StringValue (elbv2.Value attr) in
      if String.eqb key "stickiness.enabled" then
        match strconv.ParseBool val with
        | inr _ =>
            (stickinessMap, d,
             Some (Errorf "Error converting stickiness.enabled to bool: %s"
                          [ArgString val]))
        | inl enabled =>
            stickinessLoop rest
              {| sm_enabled := Some enabled;
                 sm_type := sm_type stickinessMap;
                 sm_cookie_duration := sm_cookie_duration stickinessMap |} d
        end
      else if String.eqb key "stickiness.type" then
        stickinessLoop rest
          {| sm_enabled := sm_enabled stickinessMap;
             sm_type := Some val;
             sm_cookie_duration := sm_cookie_duration stickinessMap |} d
      else if String.eqb key "stickiness.lb_cookie.duration_seconds" then
        match strconv.Atoi val with
        | (_, Some _) =>
            (stickinessMap, d,
             Some (Errorf "Error converting stickiness.lb_cookie.duration_seconds to int: %s"
                          [ArgString val]))
        | (duration, None) =>
            stickinessLoop rest
              {| sm_enabled := sm_enabled stickinessMap;
                 sm_type := sm_type stickinessMap;
                 sm_cookie_duration := Some duration |} d
        end
      else if String.eqb key "deregistration_delay.timeout_seconds" then
        match strconv.Atoi val with
        | (_, Some _) =>
            (stickinessMap, d,
             Some (Errorf "Error converting deregistration_delay.timeout_seconds to int: %s"
                          [ArgString val]))
        | (timeout, None) =>
            stickinessLoop rest stickinessMap
              (fst (Set_ d "deregistration_delay" (VInt timeout)))
        end
      else stickinessLoop rest stickinessMap d
  end.

(** [flattenAwsLbTargetGroupStickiness(d, attributes)].  A key the map
    lacks reads as the zero value once the block is stored. *)
Definition flattenAwsLbTargetGroupStickiness (d : ResourceData)
  (attributes : list elbv2.TargetGroupAttribute) : ResourceData * option error :=
  match stickinessLoop attributes emptyStickinessMap d with
  | (_, d, Some err) => (d, Some err)
  | (stickinessMap, d, None) =>
      let setStickyMap :=
        if Nat.ltb 0 (lenStickinessMap stickinessMap)
        then [ {| st_enabled := aws.BoolValue (sm_enabled stickinessMap);
                  st_type := aws.StringValue (sm_type stickinessMap);
                  st_cookie_duration :=
                    aws.Int64Value (sm_cookie_duration stickinessMap) |} ]
        else [] in
      match Set_ d "stickiness" (VStickiness setStickyMap) with
      | (d, Some err) => (d, Some err)
      | (d, None) => (d, None)
      end
  end.

(** The attribute loop of [flattenAwsLbTargetGroupResource]. *)
Fixpoint attributesLoop (attributes : list elbv2.TargetGroupAttribute)
  (d : ResourceData) : ResourceData * option error :=
  match attributes with
  | [] => (d, None)
  | attr :: rest =>
      let key := aws.StringValue (elbv2.Key attr) in
      let val := aws.StringValue (elbv2.Value attr) in
      if String.eqb key "lambda.multi_value_headers.enabled" then
        match strconv.ParseBool val with
        | inr _ =>
            (d, Some (Errorf "Error converting lambda.multi_value_headers.enabled to bool: %s"
                             [ArgString val]))
        | inl enabled =>
            attributesLoop rest
              (fst (Set_ d "lambda_multi_value_headers_enabled" (VBool enabled)))
        end
      else if String.eqb key "proxy_protocol_v2.enabled" then
        match strconv.ParseBool val with
        | inr _ =>
            (d, Some (Errorf "Error converting proxy_protocol_v2.enabled to bool: %s"
                             [ArgString val]))
        | inl enabled =>
            attributesLoop rest (fst (Set_ d "proxy_protocol_v2" (VBool enabled)))
        end
      else if String.eqb key "slow_start.duration_seconds" then
        match strconv.Atoi val with
        | (_, Some _) =>
            (d, Some (Errorf "Error converting slow_start.duration_seconds to int: %s"
                             [ArgString val]))
        | (slowStart, None) =>
            attributesLoop rest (fst (Set_ d "slow_start" (VInt slowStart)))
        end
      else if String.eqb key "load_balancing.algorithm.type" then
        attributesLoop rest
          (fst (Set_ d "load_balancing_algorithm_type" (VString val)))
      else attributesLoop rest d
  end.

(** [flattenAwsLbTargetGroupResource(d, meta, targetGroup)].  The health
    check map gets [path] and [matcher] only when the remote group has
    them; an absent key reads as the zero value once the block is stored. *)
Definition flattenAwsLbTargetGroupResource (d : ResourceData) (meta : AWSClient)
  (targetGroup : elbv2.TargetGroup) (w : World) : Outcome :=
  let d := fst (Set_ d "arn"
                  (VString (aws.StringValue (elbv2.TargetGroupArn targetGroup)))) in
  let d := fst (Set_ d "arn_suffix"
                  (VString (lbTargetGroupSuffixFromARN
                              (elbv2.TargetGroupArn targetGroup)))) in
  let d := fst (Set_ d "name"
                  (VString (aws.StringValue (elbv2.TargetGroupName targetGroup)))) in
  let d := fst (Set_ d "target_type"
                  (VString (aws.StringValue (elbv2.TargetType targetGroup)))) in
  let healthCheck :=
    {| hc_enabled := aws.BoolValue (elbv2.HealthCheckEnabled targetGroup);
       hc_interval := aws.Int64Value (elbv2.HealthCheckIntervalSeconds targetGroup);
       hc_port := aws.StringValue (elbv2.HealthCheckPort targetGroup);
       hc_protocol := aws.StringValue (elbv2.HealthCheckProtocol targetGroup);
       hc_timeout := aws.Int64Value (elbv2.HealthCheckTimeoutSeconds targetGroup);
       hc_healthy_threshold :=
         aws.Int64Value (elbv2.HealthyThresholdCount targetGroup);
       hc_unhealthy_threshold :=
         aws.Int64Value (elbv2.UnhealthyThresholdCount targetGroup);
       hc_path := aws.StringValue (elbv2.HealthCheckPath targetGroup);
       hc_matcher :=
         match elbv2.TargetGroupMatcher targetGroup with
         | Some m => aws.StringValue (elbv2.HttpCode m)
         | None => ""
         end |} in
  let d :=
    if negb (String.eqb (target_type (values d)) elbv2.TargetTypeEnumLambda)
    then
      let d := fst (Set_ d "vpc_id"
                      (VString (aws.StringValue (elbv2.VpcId targetGroup)))) in
      let d := fst (Set_ d "port"
                      (VInt (aws.Int64Value (elbv2.Port targetGroup)))) in
      fst (Set_ d "protocol"
             (VString (aws.StringValue (elbv2.Protocol targetGroup))))
    else d in
  match Set_ d "health_check" (VHealthCheck [healthCheck]) with
  | (d, Some err) =>
      (d, w, Some (Errorf "error setting health_check: %s" [ArgError err]))
  | (d, None) =>
  match DescribeTargetGroupAttributes meta (Id d) w with
  | (inr err, w) =>
      (d, w, Some (Errorf "Error retrieving Target Group Attributes: %s"
                          [ArgError err]))
  | (inl Attributes, w) =>
  match attributesLoop Attributes d with
  | (d, Some err) => (d, w, Some err)
  | (d, None) =>
  match flattenAwsLbTargetGroupStickiness d Attributes with
  | (d, Some err) => (d, w, Some err)
  | (d, None) =>
  match Elbv2ListTags meta (Id d) w with
  | (inr err, w) =>
      (d, w, Some (Errorf "error listing tags for LB Target Group (%s): %s"
                          [ArgString (Id d); ArgError err]))
  | (inl tags, w) =>
  match Set_ d "tags" (VTags (IgnoreTags meta tags)) with
  | (d, Some err) =>
      (d, w, Some (Errorf "error setting tags: %s" [ArgError err]))
  | (d, None) => (d, w, None)
  end end end end end end.

(** [resourceAwsLbTargetGroupRead(d, meta)]. *)
Definition resourceAwsLbTargetGroupRead : Handler := fun d meta w =>
  match DescribeTargetGroups meta [Id d] w with
  | (inr err, w) =>
      if isAWSErr (Some err) elbv2.ErrCodeTargetGroupNotFoundException ""
      then (SetId d "", w, None)
      else (d, w, Some (Errorf "Error retrieving Target Group: %s" [ArgError err]))
  | (inl TargetGroups, w) =>
      match TargetGroups with
      | [targetGroup] => flattenAwsLbTargetGroupResource d meta targetGroup w
      | _ => (d, w, Some (Errorf "Error retrieving Target Group %q"
                                 [ArgString (Id d)]))
      end
  end.

(** ** Update *)

Definition attribute (key val : string) : elbv2.TargetGroupAttribute :=
  {| elbv2.Key := Some key; elbv2.Value := Some val |}.

(** The [ModifyTargetGroupInput] that [resourceAwsLbTargetGroupUpdate]
    builds when the health check changed; nil unless there is exactly one
    block. *)
Definition modifyTargetGroupParams (d : ResourceData)
  : option elbv2.ModifyTargetGroupInput :=
  match health_check (values d) with
  | [healthCheck] =>
      let t := hc_timeout healthCheck in
      let healthCheckProtocol := hc_protocol healthCheck in
      let httpUpdate :=
        (negb (String.eqb healthCheckProtocol elbv2.ProtocolEnumTcp)
         && negb (IsNewResource d))%bool in
      let notLambda :=
        negb (String.eqb (target_type (values d)) elbv2.TargetTypeEnumLambda) in
      Some {| elbv2.mtg_TargetGroupArn := Some (Id d);
              elbv2.mtg_HealthCheckEnabled := Some (hc_enabled healthCheck);
              elbv2.mtg_HealthyThresholdCount :=
                Some (hc_healthy_threshold healthCheck);
              elbv2.mtg_UnhealthyThresholdCount :=
                Some (hc_unhealthy_threshold healthCheck);
              elbv2.mtg_HealthCheckTimeoutSeconds :=
                if negb (t =? 0) then Some t else None;
              elbv2.mtg_Matcher :=
                if httpUpdate
                then Some {| elbv2.HttpCode := Some (hc_matcher healthCheck) |}
                else None;
              elbv2.mtg_HealthCheckPath :=
                if httpUpdate then Some (hc_path healthCheck) else None;
              elbv2.mtg_HealthCheckIntervalSeconds :=
                if httpUpdate then Some (hc_interval healthCheck) else None;
              elbv2.mtg_HealthCheckPort :=
                if notLambda then Some (hc_port healthCheck) else None;
              elbv2.mtg_HealthCheckProtocol :=
                if notLambda then Some healthCheckProtocol else None |}
  | _ => None
  end.

(** The stickiness attributes of an update. *)
Definition stickinessAttributes (d : ResourceData)
  : list elbv2.TargetGroupAttribute :=
  match stickiness (values d) with
  | [stickiness] =>
      if (negb (st_enabled stickiness)
          && String.eqb (st_type stickiness) "lb_cookie"
          && negb (String.eqb (protocol (values d)) elbv2.ProtocolEnumHttp)
          && negb (String.eqb (protocol (values d)) elbv2.ProtocolEnumHttps))%bool
      then []
      else
        [attribute "stickiness.enabled"
           (strconv.FormatBool (st_enabled stickiness));
         attribute "stickiness.type" (st_type stickiness)]
        ++ (if isOneOf (protocol (values d))
                 [elbv2.ProtocolEnumHttp; elbv2.ProtocolEnumHttps]
            then [attribute "stickiness.lb_cookie.duration_seconds"
                    (strconv.Itoa (st_cookie_duration stickiness))]
            else [])
  | [] => [attribute "stickiness.enabled" "false"]
  | _ => []
  end%list.

(** The [attrs] that [resourceAwsLbTargetGroupUpdate] collects, by target
    type. *)
Definition updateAttributes (d : ResourceData)
  : list elbv2.TargetGroupAttribute :=
  (if isOneOf (target_type (values d))
       [elbv2.TargetTypeEnumInstance; elbv2.TargetTypeEnumIp]
   then
     (if HasChange d "deregistration_delay"
      then [attribute "deregistration_delay.timeout_seconds"
              (strconv.Itoa (deregistration_delay (values d)))]
      else [])
     ++ (if HasChange d "slow_start"
         then [attribute "slow_start.duration_seconds"
                 (strconv.Itoa (slow_start (values d)))]
         else [])
     ++ (if HasChange d "proxy_protocol_v2"
         then [attribute "proxy_protocol_v2.enabled"
                 (strconv.FormatBool (proxy_protocol_v2 (values d)))]
         else [])
     ++ (if HasChange d "stickiness" then stickinessAttributes d else [])
     ++ (if HasChange d "load_balancing_algorithm_type"
         then [attribute "load_balancing.algorithm.type"
                 (load_balancing_algorithm_type (values d))]
         else [])
   else if String.eqb (target_type (values d)) elbv2.TargetTypeEnumLambda
   then
     (if HasChange d "lambda_multi_value_headers_enabled"
      then [attribute "lambda.multi_value_headers.enabled"
              (strconv.FormatBool
                 (lambda_multi_value_headers_enabled (values d)))]
      else [])
   else [])%list.

(** [resourceAwsLbTargetGroupUpdate(d, meta)]. *)
Definition resourceAwsLbTargetGroupUpdate : Handler := fun d meta w =>
  match (if HasChange d "tags"
         then Elbv2UpdateTags meta (Id d)
                (tags (oldValues d)) (tags (newValues d)) w
         else (None, w)) with
  | (Some err, w) =>
      (d, w, Some (Errorf "error updating LB Target Group (%s) tags: %s"
                          [ArgString (Id d); ArgError err]))
  | (None, w) =>
  match (if HasChange d "health_check"
         then match modifyTargetGroupParams d with
              | Some params => ModifyTargetGroup meta params w
              | None => (None, w)
              end
         else (None, w)) with
  | (Some err, w) =>
      (d, w, Some (Errorf "Error modifying Target Group: %s" [ArgError err]))
  | (None, w) =>
  let attrs := updateAttributes d in
  match (if Nat.ltb 0 (List.length attrs)
         then ModifyTargetGroupAttributes meta (Id d) attrs w
         else (None, w)) with
  | (Some err, w) =>
      (d, w, Some (Errorf "Error modifying Target Group Attributes: %s"
                          [ArgError err]))
  | (None, w) => resourceAwsLbTargetGroupRead d meta w
  end end end.

(** ** Create *)

Definition onlyBlock {A : Type} (l : list A) : option A :=
  match l with
  | [x] => Some x
  | _ => None
  end.

(** The [CreateTargetGroupInput] that [resourceAwsLbTargetGroupCreate]
    sends, once the three required attributes have been checked. *)
Definition createTargetGroupParams (d : ResourceData) (groupName : string)
  : elbv2.CreateTargetGroupInput :=
  let notLambda :=
    negb (String.eqb (target_type (values d)) elbv2.TargetTypeEnumLambda) in
  let healthCheck := onlyBlock (health_check (values d)) in
  let notTcp (h : HealthCheck) :=
    negb (String.eqb (hc_protocol h) elbv2.ProtocolEnumTcp) in
  {| elbv2.ctg_Name := Some groupName;
     elbv2.ctg_TargetType := Some (target_type (values d));
     elbv2.ctg_Port := if notLambda then Some (port (values d)) else None;
     elbv2.ctg_Protocol :=
       if notLambda then Some (protocol (values d)) else None;
     elbv2.ctg_VpcId := if notLambda then Some (vpc_id (values d)) else None;
     elbv2.ctg_HealthCheckEnabled := option_map hc_enabled healthCheck;
     elbv2.ctg_HealthCheckIntervalSeconds := option_map hc_interval healthCheck;
     elbv2.ctg_HealthyThresholdCount :=
       option_map hc_healthy_threshold healthCheck;
     elbv2.ctg_UnhealthyThresholdCount :=
       option_map hc_unhealthy_threshold healthCheck;
     elbv2.ctg_HealthCheckTimeoutSeconds :=
       match healthCheck with
       | Some h => if negb (hc_timeout h =? 0) then Some (hc_timeout h) else None
       | None => None
       end;
     elbv2.ctg_HealthCheckPath :=
       match healthCheck with
       | Some h =>
           if (notTcp h && negb (String.eqb (hc_path h) ""))%bool
           then Some (hc_path h) else None
       | None => None
       end;
     elbv2.ctg_Matcher :=
       match healthCheck with
       | Some h =>
           if (notTcp h && negb (String.eqb (hc_matcher h) ""))%bool
           then Some {| elbv2.HttpCode := Some (hc_matcher h) |} else None
       | None => None
       end;
     elbv2.ctg_HealthCheckPort :=
       match healthCheck with
       | Some h => if notLambda then Some (hc_port h) else None
       | None => None
       end;
     elbv2.ctg_HealthCheckProtocol :=
       match healthCheck with
       | Some h => if notLambda then Some (hc_protocol h) else None
       | None => None
       end |}.

(** [resourceAwsLbTargetGroupCreate(d, meta)]. *)
Definition resourceAwsLbTargetGroupCreate : Handler := fun d meta w =>
  let '(groupName, w) :=
    if isSetString (name (values d)) then (name (values d), w)
    else if isSetString (name_prefix (values d))
    then resource.PrefixedUniqueId (name_prefix (values d)) w
    else resource.PrefixedUniqueId "tf-" w in
  let notLambda :=
    negb (String.eqb (target_type (values d)) elbv2.TargetTypeEnumLambda) in
  if (notLambda && negb (isSetInt (port (values d))))%bool then
    (d, w, Some (Errorf "port should be set when target type is %s"
                        [ArgString (target_type (values d))]))
  else if (notLambda && negb (isSetString (protocol (values d))))%bool then
    (d, w, Some (Errorf "protocol should be set when target type is %s"
                        [ArgString (target_type (values d))]))
  else if (notLambda && negb (isSetString (vpc_id (values d))))%bool then
    (d, w, Some (Errorf "vpc_id should be set when target type is %s"
                        [ArgString (target_type (values d))]))
  else
    let params := createTargetGroupParams d groupName in
    match CreateTargetGroup meta params w with
    | (inr err, w) =>
        (d, w, Some (Errorf "Error creating LB Target Group: %s" [ArgError err]))
    | (inl TargetGroups, w) =>
        match TargetGroups with
        | [] =>
            (d, w, Some (errors_New
               "Error creating LB Target Group: no groups returned in response"))
        | targetGroup :: _ =>
            let d := SetId d (aws.StringValue (elbv2.TargetGroupArn targetGroup)) in
            resourceAwsLbTargetGroupUpdate d meta w
        end
    end.

(** ** Delete *)

(** The function [resourceAwsLbTargetGroupDelete] hands to
    [resource.Retry]: one [DeleteTargetGroup] call and the classification
    of its error. *)
Definition deleteAttempt (meta : AWSClient) (arn : string) (w : World)
  : option resource.RetryError * World :=
  let '(err, w) := DeleteTargetGroup meta arn w in
  if isAWSErr err "ResourceInUse" "is currently in use by a listener or a rule"
  then (match err with
        | Some e => resource.RetryableError e
        | None => None
        end, w)
  else
    match err with
    | Some e => (resource.NonRetryableError e, w)
    | None => (None, w)
    end.

(** [resourceAwsLbTargetGroupDelete(d, meta)]. *)
Definition resourceAwsLbTargetGroupDelete : Handler := fun d meta w =>
  let input := Id d in
  let '(err, w) := resource.Retry (2 * Minute) (deleteAttempt meta input) w in
  let '(err, w) :=
    if isResourceTimeoutError err then DeleteTargetGroup meta input w
    else (err, w) in
  match err with
  | Some err =>
      (d, w, Some (Errorf "Error deleting Target Group: %s" [ArgError err]))
  | None => (d, w, None)
  end.

(** ** Decimal numerals, as the specification means them *)

(** A string made of decimal digits only. *)
Fixpoint allDigits (s : string) : bool :=
  match s with
  | EmptyString => true
  | String c s' => (strconv.isDigit c && allDigits s')%bool
  end.

(** The number a digit string denotes, most significant digit first. *)
Fixpoint decimalValue (s : string) : Z :=
  match s with
  | EmptyString => 0
  | String c s' =>
      strconv.digit c * 10 ^ Z.of_nat (String.length s') + decimalValue s'
  end.

(** [s] is a decimal representation of the integer [n]: an optional sign
    followed by at least one digit. *)
Definition DecimalOf (s : string) (n : Z) : Prop :=
  exists sign digits,
    s = sign ++ digits /\ digits <> "" /\ allDigits digits = true /\
    (((sign = "" \/ sign = "+") /\ n = decimalValue digits)
     \/ (sign = "-" /\ n = - decimalValue digits)).

(** ** Vocabulary of the properties *)

(** The format of an error built by [fmt.Errorf]. *)
Definition formatOf (err : error) : option string :=
  match err with
  | Errorf format _ => Some format
  | _ => None
  end.

Definition hasFormatIn (formats : list string) (err : error) : bool :=
  match formatOf err with
  | Some format => isOneOf format formats
  | None => false
  end.

(** The four errors of the TCP health-check validation. *)
Definition isTcpHealthCheckError : error -> bool :=
  hasFormatIn
    ["%s: health_check.matcher is not supported for target_groups with TCP protocol";
     "%s: health_check.path is not supported for target_groups with TCP protocol";
     "%s: health_check.timeout is not supported for target_groups with TCP protocol";
     "%s: health_check.healthy_threshold %d and health_check.unhealthy_threshold %d must be the same for target_groups with TCP protocol"].

(** The one error of the health-check port validator, for the attribute
    [k]. *)
Definition portError (k : string) : error :=
  Errorf "%q must be a valid port number (1-65536) or %q"
    [ArgString k; ArgString "traffic-port"].

(** The three errors of Create about a required attribute. *)
Definition isRequiredAttributeError : error -> bool :=
  hasFormatIn
    ["port should be set when target type is %s";
     "protocol should be set when target type is %s";
     "vpc_id should be set when target type is %s"].

(** [w'] is [w] after some more calls. *)
Definition extends (w w' : World) : Prop :=
  exists calls, history w' = (history w ++ calls)%list.

(** The error a Delete that ends on the failure [err] returns. *)
Definition deleteError (err : option sdkError) : option error :=
  match err with
  | Some e => Some (Errorf "Error deleting Target Group: %s" [ArgError (SDKError e)])
  | None => None
  end.

(** The delete was refused because a listener or a rule still uses the
    target group. *)
Definition inUse (err : option sdkError) : bool :=
  isAWSErr (asError err) "ResourceInUse"
    "is currently in use by a listener or a rule".

(** [calls] are DeleteTargetGroup calls for [arn] that the remote side
    answered in turn after the history [h]: each one carries the failure
    [meta] gives for the history before it. *)
Fixpoint deleteCalls (meta : AWSClient) (arn : string) (h : History)
  (calls : list Call) : Prop :=
  match calls with
  | [] => True
  | c :: rest =>
      request c = DeleteTargetGroupRequest arn /\
      failure c = DeleteTargetGroup_ meta h arn /\
      deleteCalls meta arn (h ++ [c])%list rest
  end.

(** When the answer to the call [c], issued after the history [h],
    arrives. *)
Definition answeredAt (meta : AWSClient) (h : History) (c : Call) : Time :=
  (issuedAt c + elapsed meta h (request c))%N.

(** [calls] are issued as the attempts of a retry loop are: the first at
    the time [t] plus the pause [wait], each later one a pause after the
    answer to the one before it, the pauses growing as
    [resource.nextWait] has it.  [h] is the history before them. *)
Fixpoint paced (meta : AWSClient) (h : History) (t : Time) (wait : N)
  (calls : list Call) : Prop :=
  match calls with
  | [] => True
  | c :: rest =>
      issuedAt c = (t + wait)%N /\
      paced meta (h ++ [c])%list (answeredAt meta h c) (resource.nextWait wait)
        rest
  end.

(** When the attempt after [calls] would be issued, on the same terms. *)
Fixpoint nextAttemptAt (meta : AWSClient) (h : History) (t : Time) (wait : N)
  (calls : list Call) : Time :=
  match calls with
  | [] => (t + wait)%N
  | c :: rest =>
      nextAttemptAt meta (h ++ [c])%list (answeredAt meta h c)
        (resource.nextWait wait) rest
  end.

(** Every call of [calls], issued after the history [h], is answered by
    the time [limit]. *)
Fixpoint inTime (meta : AWSClient) (h : History) (limit : Time)
  (calls : list Call) : Prop :=
  match calls with
  | [] => True
  | c :: rest =>
      (answeredAt meta h c <= limit)%N /\
      inTime meta (h ++ [c])%list limit rest
  end.

(** The error on record after the attempts [answered], [resultErr] being
    the one on record before them. *)
Definition lastFailure (resultErr : option error) (answered : list Call)
  : option error :=
  fold_left (fun _ c => asError (failure c)) answered resultErr.

(** A request that only reads remote state. *)
Definition isReadOnly (req : Request) : bool :=
  match req with
  | DescribeTargetGroupsRequest _
  | DescribeTargetGroupAttributesRequest _
  | ListTagsRequest _ => true
  | _ => false
  end.

(** [d'] is [d] up to the values [Get] reads: same id, same creation flag,
    same prior and planned values. *)
Definition sameResource (d d' : ResourceData) : Prop :=
  Id d' = Id d /\ IsNewResource d' = IsNewResource d /\
  oldValues d' = oldValues d /\ newValues d' = newValues d.

(** The attributes that flattening takes from the described group
    itself. *)
Definition described (f : Fields)
  : string * string * string * string * string * Z * string * list HealthCheck :=
  (arn f, arn_suffix f, name f, target_type f, vpc_id f, port f, protocol f,
   health_check f).

(** The health-check block that flattening stores for a described
    group. *)
Definition describedHealthCheck (targetGroup : elbv2.TargetGroup) : HealthCheck :=
  {| hc_enabled := aws.BoolValue (elbv2.HealthCheckEnabled targetGroup);
     hc_interval := aws.Int64Value (elbv2.HealthCheckIntervalSeconds targetGroup);
     hc_path := aws.StringValue (elbv2.HealthCheckPath targetGroup);
     hc_port := aws.StringValue (elbv2.HealthCheckPort targetGroup);
     hc_protocol := aws.StringValue (elbv2.HealthCheckProtocol targetGroup);
     hc_timeout := aws.Int64Value (elbv2.HealthCheckTimeoutSeconds targetGroup);
     hc_healthy_threshold :=
       aws.Int64Value (elbv2.HealthyThresholdCount targetGroup);
     hc_matcher :=
       match elbv2.TargetGroupMatcher targetGroup with
       | Some m => aws.StringValue (elbv2.HttpCode m)
       | None => ""
       end;
     hc_unhealthy_threshold :=
       aws.Int64Value (elbv2.UnhealthyThresholdCount targetGroup) |}.


(** The history [h] ends with a DescribeTargetGroups call for [arn] that
    the remote side answered with the error code TargetGroupNotFound. *)
Definition foundGone (meta : AWSClient) (arn : string) (h : History) : Prop :=
  exists before c message,
    h = (before ++ [c])%list /\
    request c = DescribeTargetGroupsRequest [arn] /\
    failure c = Some (AWSError "TargetGroupNotFound" message) /\
    DescribeTargetGroups_ meta before [arn]
    = inr (AWSError "TargetGroupNotFound" message).


(** What Update may have sent for a call of its own, given the resource
    data it was called with: the tag update, the health-check modification
    and the attribute modification are sent only when the matching change
    is there, with the values the data holds; nothing is ever created or
    deleted. *)
Definition updateCallJustified (d : ResourceData) (req : Request) : Prop :=
  match req with
  | UpdateTagsRequest identifier o n =>
      HasChange d "tags" = true /\ identifier = Id d
      /\ o = tags (oldValues d) /\ n = tags (newValues d)
  | ModifyTargetGroupRequest input =>
      HasChange d "health_check" = true
      /\ modifyTargetGroupParams d = Some input
  | ModifyTargetGroupAttributesRequest arn attrs =>
      arn = Id d /\ attrs = updateAttributes d /\ attrs <> []
  | CreateTargetGroupRequest _ => False
  | DeleteTargetGroupRequest _ => False
  | DescribeTargetGroupsRequest _ => True
  | DescribeTargetGroupAttributesRequest _ => True
  | ListTagsRequest _ => True
  end.

(** The name Create gives a new group, with the world after drawing it:
    the configured name, or a unique id under the configured prefix, or a
    unique id under "tf-". *)
Definition createGroupName (d : ResourceData) (w : World) : string * World :=
  if isSetString (name (values d)) then (name (values d), w)
  else if isSetString (name_prefix (values d))
  then resource.PrefixedUniqueId (name_prefix (values d)) w
  else resource.PrefixedUniqueId "tf-" w.

(** How often [sub] occurs in [s], overlapping occurrences included. *)
Fixpoint occurrences (sub s : string) : nat :=
  ((if strings.HasPrefix s sub then 1 else 0)
   + match s with
     | EmptyString => 0
     | String _ s' => occurrences sub s'
     end)%nat.

(** A value a Go [int] can hold. *)
Definition isInt64 (n : Z) : Prop := strconv.minInt64 <= n <= strconv.maxInt64.

(** An attribute that [flattenAwsLbTargetGroupStickiness] stores in the
    stickiness block. *)
Definition isStickinessAttribute (a : elbv2.TargetGroupAttribute) : bool :=
  isOneOf (aws.StringValue (elbv2.Key a))
    ["stickiness.enabled"; "stickiness.type";
     "stickiness.lb_cookie.duration_seconds"].

(** The value of a digit string behind an accumulator, as the scanning
    loop of [ParseUint] sees it. *)
Definition behind (n : Z) (s : string) : Z :=
  n * 10 ^ Z.of_nat (String.length s) + decimalValue s.

(** ** Sample configurations and remote sides *)

(** A TCP target group with stickiness switched off: both hooks suppress
    the diff on the new type "lb_cookie". *)
Definition nlbFields : Fields :=
  {| arn := ""; arn_suffix := ""; name := "nlb"; name_prefix := "";
     port := 443; protocol := "TCP"; vpc_id := "vpc-1";
     deregistration_delay := 300; slow_start := 0;
     proxy_protocol_v2 := false; lambda_multi_value_headers_enabled := false;
     target_type := "instance"; load_balancing_algorithm_type := "";
     stickiness :=
       [ {| st_enabled := false; st_type := "lb_cookie";
            st_cookie_duration := 86400 |} ];
     health_check := []; tags := [] |}.


Definition tcpHealthCheck : HealthCheck :=
  {| hc_enabled := true; hc_interval := 30; hc_path := ""; hc_port := "traffic-port";
     hc_protocol := "TCP"; hc_timeout := 0; hc_healthy_threshold := 3;
     hc_matcher := ""; hc_unhealthy_threshold := 3 |}.

Definition withHealthCheck (f : Fields) (l : list HealthCheck) : Fields :=
  {| arn := arn f; arn_suffix := arn_suffix f; name := name f;
     name_prefix := name_prefix f; port := port f; protocol := protocol f;
     vpc_id := vpc_id f; deregistration_delay := deregistration_delay f;
     slow_start := slow_start f; proxy_protocol_v2 := proxy_protocol_v2 f;
     lambda_multi_value_headers_enabled := lambda_multi_value_headers_enabled f;
     target_type := target_type f;
     load_balancing_algorithm_type := load_balancing_algorithm_type f;
     stickiness := stickiness f; health_check := l; tags := tags f |}.

(** A new TCP target group whose TCP health check sets a matcher. *)
Definition matcherOnTcpDiff : ResourceDiff :=
  {| diff_Id := "";
     diff_old := withHealthCheck nlbFields [];
     diff_new :=
       withHealthCheck nlbFields
         [ {| hc_enabled := true; hc_interval := 30; hc_path := "";
              hc_port := "traffic-port"; hc_protocol := "TCP"; hc_timeout := 0;
              hc_healthy_threshold := 3; hc_matcher := "200";
              hc_unhealthy_threshold := 3 |} ];
     diff_attributes := ["health_check.0.matcher"];
     diff_forcedNewKeys := [] |}.

(** An existing TCP target group: the plan changes the health-check
    interval from 30 to 10 and sets unequal thresholds. *)
Definition unequalThresholdsDiff : ResourceDiff :=
  {| diff_Id := "arn:aws:elasticloadbalancing:eu-west-1:1:targetgroup/nlb/5f";
     diff_old := withHealthCheck nlbFields [tcpHealthCheck];
     diff_new :=
       withHealthCheck nlbFields
         [ {| hc_enabled := true; hc_interval := 10; hc_path := "";
              hc_port := "traffic-port"; hc_protocol := "TCP"; hc_timeout := 0;
              hc_healthy_threshold := 3; hc_matcher := "";
              hc_unhealthy_threshold := 5 |} ];
     diff_attributes :=
       ["health_check.0.interval"; "health_check.0.unhealthy_threshold"];
     diff_forcedNewKeys := [] |}.

(** The same resource with equal thresholds: only the interval changes. *)
Definition intervalChangeDiff : ResourceDiff :=
  {| diff_Id := "arn:aws:elasticloadbalancing:eu-west-1:1:targetgroup/nlb/5f";
     diff_old := withHealthCheck nlbFields [tcpHealthCheck];
     diff_new :=
       withHealthCheck nlbFields
         [ {| hc_enabled := true; hc_interval := 10; hc_path := "";
              hc_port := "traffic-port"; hc_protocol := "TCP"; hc_timeout := 0;
              hc_healthy_threshold := 3; hc_matcher := "";
              hc_unhealthy_threshold := 3 |} ];
     diff_attributes := ["health_check.0.interval"];
     diff_forcedNewKeys := [] |}.

(** A target group as the remote side describes it. *)
Definition sampleGroup : elbv2.TargetGroup :=
  {| elbv2.TargetGroupArn :=
       Some "arn:aws:elasticloadbalancing:eu-west-1:1:targetgroup/nlb/5f";
     elbv2.TargetGroupName := Some "nlb";
     elbv2.TargetType := Some "instance";
     elbv2.HealthCheckEnabled := Some true;
     elbv2.HealthCheckIntervalSeconds := Some 30;
     elbv2.HealthCheckPort := Some "traffic-port";
     elbv2.HealthCheckProtocol := Some "TCP";
     elbv2.HealthCheckTimeoutSeconds := Some 10;
     elbv2.HealthyThresholdCount := Some 3;
     elbv2.UnhealthyThresholdCount := Some 3;
     elbv2.HealthCheckPath := None;
     elbv2.TargetGroupMatcher := None;
     elbv2.VpcId := Some "vpc-1";
     elbv2.Port := Some 443;
     elbv2.Protocol := Some "TCP" |}.

(** A remote side on which every operation succeeds and takes 100 ms. *)
Definition quietClient : AWSClient :=
  {| CreateTargetGroup_ := fun _ _ => inl [sampleGroup];
     DescribeTargetGroups_ := fun _ _ => inl [sampleGroup];
     ModifyTargetGroup_ := fun _ _ => None;
     ModifyTargetGroupAttributes_ := fun _ _ _ => None;
     DescribeTargetGroupAttributes_ :=
       fun _ _ => inl [ {| elbv2.Key := Some "stickiness.enabled";
                           elbv2.Value := Some "false" |};
                        {| elbv2.Key := Some "deregistration_delay.timeout_seconds";
                           elbv2.Value := Some "300" |} ];
     DeleteTargetGroup_ := fun _ _ => None;
     Elbv2UpdateTags_ := fun _ _ _ _ => None;
     Elbv2ListTags_ := fun _ _ => inl [("env", "prod")];
     elapsed := fun _ _ => 100%N;
     IgnoreTags := fun t => t |}.

(** The same remote side after the target group was deleted out of
    band. *)
Definition goneClient : AWSClient :=
  {| CreateTargetGroup_ := CreateTargetGroup_ quietClient;
     DescribeTargetGroups_ :=
       fun _ _ => inr (AWSError "TargetGroupNotFound"
                         "One or more target groups not found");
     ModifyTargetGroup_ := ModifyTargetGroup_ quietClient;
     ModifyTargetGroupAttributes_ := ModifyTargetGroupAttributes_ quietClient;
     DescribeTargetGroupAttributes_ := DescribeTargetGroupAttributes_ quietClient;
     DeleteTargetGroup_ := DeleteTargetGroup_ quietClient;
     Elbv2UpdateTags_ := Elbv2UpdateTags_ quietClient;
     Elbv2ListTags_ := Elbv2ListTags_ quietClient;
     elapsed := elapsed quietClient;
     IgnoreTags := IgnoreTags quietClient |}.

(** A remote side whose target group stays attached to a listener: every
    delete is refused. *)
Definition busyClient : AWSClient :=
  {| CreateTargetGroup_ := CreateTargetGroup_ quietClient;
     DescribeTargetGroups_ := DescribeTargetGroups_ quietClient;
     ModifyTargetGroup_ := ModifyTargetGroup_ quietClient;
     ModifyTargetGroupAttributes_ := ModifyTargetGroupAttributes_ quietClient;
     DescribeTargetGroupAttributes_ := DescribeTargetGroupAttributes_ quietClient;
     DeleteTargetGroup_ :=
       fun _ _ => Some (AWSError "ResourceInUse"
                          "Target group is currently in use by a listener or a rule");
     Elbv2UpdateTags_ := Elbv2UpdateTags_ quietClient;
     Elbv2ListTags_ := Elbv2ListTags_ quietClient;
     elapsed := elapsed quietClient;
     IgnoreTags := IgnoreTags quietClient |}.

(** A remote side that takes 200 seconds to answer the first call and the
    usual 100 ms afterwards; every delete succeeds. *)
Definition silentClient : AWSClient :=
  {| CreateTargetGroup_ := CreateTargetGroup_ quietClient;
     DescribeTargetGroups_ := DescribeTargetGroups_ quietClient;
     ModifyTargetGroup_ := ModifyTargetGroup_ quietClient;
     ModifyTargetGroupAttributes_ := ModifyTargetGroupAttributes_ quietClient;
     DescribeTargetGroupAttributes_ := DescribeTargetGroupAttributes_ quietClient;
     DeleteTargetGroup_ := fun _ _ => None;
     Elbv2UpdateTags_ := Elbv2UpdateTags_ quietClient;
     Elbv2ListTags_ := Elbv2ListTags_ quietClient;
     elapsed := fun h _ => match h with [] => 200000%N | _ => 100%N end;
     IgnoreTags := IgnoreTags quietClient |}.

Definition zeroFields : Fields :=
  {| arn := ""; arn_suffix := ""; name := ""; name_prefix := "";
     port := 0; protocol := ""; vpc_id := "";
     deregistration_delay := 0; slow_start := 0;
     proxy_protocol_v2 := false; lambda_multi_value_headers_enabled := false;
     target_type := ""; load_balancing_algorithm_type := "";
     stickiness := []; health_check := []; tags := [] |}.

(** The data of an existing TCP target group, with nothing to change. *)
Definition existingData : ResourceData :=
  {| Id := "arn:aws:elasticloadbalancing:eu-west-1:1:targetgroup/nlb/5f";
     IsNewResource := false;
     oldValues := withHealthCheck nlbFields [tcpHealthCheck];
     newValues := withHealthCheck nlbFields [tcpHealthCheck];
     values := withHealthCheck nlbFields [tcpHealthCheck] |}.

(** The data of a TCP target group about to be created. *)
Definition newData : ResourceData :=
  {| Id := "";
     IsNewResource := true;
     oldValues := zeroFields;
     newValues := withHealthCheck nlbFields [tcpHealthCheck];
     values := withHealthCheck nlbFields [tcpHealthCheck] |}.

(** The same without a port. *)
Definition newDataWithoutPort : ResourceData :=
  {| Id := "";
     IsNewResource := true;
     oldValues := zeroFields;
     newValues := withHealthCheck nlbFields [tcpHealthCheck];
     values :=
       {| arn := ""; arn_suffix := ""; name := "nlb"; name_prefix := "";
          port := 0; protocol := "TCP"; vpc_id := "vpc-1";
          deregistration_delay := 300; slow_start := 0;
          proxy_protocol_v2 := false;
          lambda_multi_value_headers_enabled := false;
          target_type := "instance"; load_balancing_algorithm_type := "";
          stickiness := []; health_check := [tcpHealthCheck]; tags := [] |} |}.

Definition startOfDay : World :=
  {| history := []; now := 0%N; uniqueIds := 0;
     uniqueSuffix := fun n => strconv.Itoa (Z.of_nat n) |}.

Definition lineFeed : string := String (ascii_of_nat 10) EmptyString.

(** Two ARNs on two lines. *)
Definition twoLineArn : string :=
  "arn:aws:elasticloadbalancing:eu-west-1:1:targetgroup/a/1" ++ lineFeed
  ++ "arn:aws:elasticloadbalancing:eu-west-1:1:targetgroup/b/2".

(** An HTTP target group whose health check asks for tcp in lower case. *)
Definition tcpCheckOnHttpDiff : ResourceDiff :=
  {| diff_Id := "";
     diff_old := zeroFields;
     diff_new :=
       {| arn := ""; arn_suffix := ""; name := "web"; name_prefix := "";
          port := 80; protocol := "HTTP"; vpc_id := "vpc-1";
          deregistration_delay := 300; slow_start := 0;
          proxy_protocol_v2 := false;
          lambda_multi_value_headers_enabled := false;
          target_type := "instance"; load_balancing_algorithm_type := "";
          stickiness := [];
          health_check :=
            [ {| hc_enabled := true; hc_interval := 30; hc_path := "/";
                 hc_port := "traffic-port"; hc_protocol := "tcp";
                 hc_timeout := 5; hc_healthy_threshold := 3;
                 hc_matcher := "200"; hc_unhealthy_threshold := 3 |} ];
          tags := [] |};
     diff_attributes := ["health_check.0.protocol"];
     diff_forcedNewKeys := [] |}.

(** An instance target group on HTTP whose plan changes the slow start,
    the deregistration delay and the stickiness block. *)
Definition webFields (delay slow : Z) (sticky : list Stickiness) : Fields :=
  {| arn := ""; arn_suffix := ""; name := "web"; name_prefix := "";
     port := 80; protocol := "HTTP"; vpc_id := "vpc-1";
     deregistration_delay := delay; slow_start := slow;
     proxy_protocol_v2 := false; lambda_multi_value_headers_enabled := false;
     target_type := "instance"; load_balancing_algorithm_type := "round_robin";
     stickiness := sticky; health_check := []; tags := [] |}.

Definition changedWebData : ResourceData :=
  {| Id := "arn:aws:elasticloadbalancing:eu-west-1:1:targetgroup/web/7a";
     IsNewResource := false;
     oldValues := webFields 300 0 [];
     newValues :=
       webFields 120 60
         [ {| st_enabled := true; st_type := "lb_cookie";
              st_cookie_duration := 3600 |} ];
     values :=
       webFields 120 60
         [ {| st_enabled := true; st_type := "lb_cookie";
              st_cookie_duration := 3600 |} ] |}.

(** * Properties *)

(** ** The validators *)

(** C8: the slow_start validator returns no error if and only if the value
    is 0 or lies between 30 and 900 inclusive, and for every other integer
    it returns exactly one validation error (and never a warning). *)
Theorem validateSlowStart_zero_or_30_to_900 (v : Z) (k : string) :
  fst (validateSlowStart v k) = [] /\
  (snd (validateSlowStart v k) = [] <-> v = 0 \/ 30 <= v <= 900) /\
  (~ (v = 0 \/ 30 <= v <= 900) ->
   List.length (snd (validateSlowStart v k)) = 1%nat).
Proof.
  unfold validateSlowStart; cbn [fst snd].
  destruct (Z.eqb_spec v 0) as [E0 | N0]; cbn [negb andb].
  - repeat split; intros; try reflexivity; [now left | lia].
  - destruct (Z.geb_spec v 30) as [G | G], (Z.leb_spec v 900) as [L | L];
      cbn [negb andb app]; repeat split; intros;
      try reflexivity; try discriminate; try lia; try (right; lia).
Qed.

Section DecimalNumerals.

Lemma digit_range (c : ascii) :
  strconv.isDigit c = true -> 0 <= strconv.digit c <= 9.
Proof.
  unfold strconv.isDigit, strconv.digit; intros H.
  apply andb_true_iff in H; destruct H as [H1 H2].
  apply Nat.leb_le in H1, H2; lia.
Qed.

Lemma decimalValue_nonneg (s : string) :
  allDigits s = true -> 0 <= decimalValue s.
Proof.
  induction s as [| c s IH]; cbn [allDigits decimalValue]; intros H.
  - lia.
  - apply andb_true_iff in H; destruct H as [Hc Hs].
    pose proof (digit_range c Hc).
    pose proof (IH Hs).
    assert (0 < 10 ^ Z.of_nat (String.length s)) by (apply Z.pow_pos_nonneg; lia).
    nia.
Qed.

(** The scanning loop on a digit string: the denoted number if it fits an
    unsigned 64-bit word, a range error otherwise. *)
Lemma parseUintLoop_digits (s : string) :
  forall n, 0 <= n <= strconv.maxUint64 -> allDigits s = true ->
  let v := n * 10 ^ Z.of_nat (String.length s) + decimalValue s in
  strconv.parseUintLoop n s =
    if v <=? strconv.maxUint64 then strconv.ScanOk v else strconv.ScanRange.
Proof.
  induction s as [| c s IH]; intros n Hn Hd; cbn zeta.
  - cbn [strconv.parseUintLoop String.length decimalValue Z.of_nat].
    rewrite Z.pow_0_r, Z.mul_1_r, Z.add_0_r.
    destruct (Z.leb_spec n strconv.maxUint64) as [L | L]; [reflexivity | lia].
  - cbn [allDigits] in Hd. apply andb_true_iff in Hd; destruct Hd as [Hc Hs].
    cbn [strconv.parseUintLoop]. rewrite Hc.
    pose proof (digit_range c Hc) as Hr.
    pose proof (decimalValue_nonneg s Hs) as Hv.
    assert (Hp : 0 < 10 ^ Z.of_nat (String.length s))
      by (apply Z.pow_pos_nonneg; lia).
    assert (Hsplit :
      n * 10 ^ Z.of_nat (String.length (String c s)) + decimalValue (String c s)
      = (n * 10 + strconv.digit c) * 10 ^ Z.of_nat (String.length s)
        + decimalValue s).
    { cbn [String.length decimalValue]. rewrite Nat2Z.inj_succ, Z.pow_succ_r by lia.
      ring. }
    rewrite Hsplit.
    change (strconv.maxUint64 / 10 + 1) with 1844674407370955162.
    destruct (Z.geb_spec n 1844674407370955162) as [G | G].
    + destruct (Z.leb_spec
                  ((n * 10 + strconv.digit c) * 10 ^ Z.of_nat (String.length s)
                   + decimalValue s) strconv.maxUint64) as [L | L];
        [| reflexivity].
      unfold strconv.maxUint64 in L. nia.
    + destruct (Z.gtb_spec (n * 10 + strconv.digit c) strconv.maxUint64)
        as [G1 | G1].
      * destruct (Z.leb_spec
                    ((n * 10 + strconv.digit c) * 10 ^ Z.of_nat (String.length s)
                     + decimalValue s) strconv.maxUint64) as [L | L];
          [| reflexivity].
        nia.
      * apply IH; [lia | assumption].
Qed.

Lemma parseUintLoop_not_digits (s : string) :
  forall n un, allDigits s = false -> strconv.parseUintLoop n s <> strconv.ScanOk un.
Proof.
  induction s as [| c s IH]; intros n un Hd; cbn [allDigits] in Hd.
  - discriminate.
  - cbn [strconv.parseUintLoop].
    destruct (strconv.isDigit c); [| discriminate].
    cbn [andb] in Hd.
    destruct (n >=? strconv.maxUint64 / 10 + 1); [discriminate |].
    destruct (n * 10 + strconv.digit c >? strconv.maxUint64); [discriminate |].
    now apply IH.
Qed.

(** [ParseUint] succeeds exactly on a non-empty digit string that denotes
    a number within 64 bits, and then returns that number. *)
Lemma ParseUint_ok (s : string) (un : Z) :
  strconv.ParseUint s = strconv.ScanOk un <->
  s <> "" /\ allDigits s = true /\ un = decimalValue s
  /\ un <= strconv.maxUint64.
Proof.
  destruct s as [| c s]; [split; [discriminate | intros [H _]; now elim H] |].
  unfold strconv.ParseUint.
  destruct (allDigits (String c s)) eqn:Hd.
  - rewrite parseUintLoop_digits by (unfold strconv.maxUint64; lia || assumption).
    rewrite Z.mul_0_l, Z.add_0_l.
    destruct (Z.leb_spec (decimalValue (String c s)) strconv.maxUint64) as [L | L].
    + split.
      * intros [= <-]. repeat split; [discriminate | assumption].
      * intros (_ & _ & -> & _). reflexivity.
    + split; [discriminate | intros (_ & _ & -> & H); lia].
  - split.
    + intros H. now apply parseUintLoop_not_digits in H.
    + intros (_ & H & _). discriminate.
Qed.

Lemma isDigit_not_sign (c : ascii) :
  strconv.isDigit c = true -> Ascii.eqb c "+" = false /\ Ascii.eqb c "-" = false.
Proof.
  intros H; split.
  - destruct (Ascii.eqb_spec c "+") as [-> |]; [discriminate | reflexivity].
  - destruct (Ascii.eqb_spec c "-") as [-> |]; [discriminate | reflexivity].
Qed.

(** What [Atoi] accepts is a decimal representation of what it returns. *)
Lemma Atoi_ok_DecimalOf (s : string) (n : Z) :
  strconv.Atoi s = (n, None) -> DecimalOf s n.
Proof.
  destruct s as [| c rest]; [discriminate |].
  unfold strconv.Atoi.
  set (neg := Ascii.eqb c "-").
  set (body := if (Ascii.eqb c "+" || neg)%bool then rest else String c rest).
  destruct (strconv.ParseUint body) as [un | |] eqn:Hp;
    [| discriminate | destruct neg; discriminate].
  apply ParseUint_ok in Hp. destruct Hp as (Hne & Hd & Hun & _).
  destruct (negb neg && (un >=? strconv.maxInt64 + 1))%bool; [discriminate |].
  destruct (neg && (un >? strconv.maxInt64 + 1))%bool; [discriminate |].
  intros [= <-].
  subst body neg.
  destruct (Ascii.eqb_spec c "-") as [-> | Nm].
  - cbn [orb Ascii.eqb] in *. exists "-", rest.
    repeat split; try assumption. right. now subst un.
  - rewrite orb_false_r in *.
    destruct (Ascii.eqb_spec c "+") as [-> | Np].
    + exists "+", rest. repeat split; try assumption. left. split; [now right | assumption].
    + exists "", (String c rest).
      repeat split; try assumption. left. split; [now left | assumption].
Qed.

(** A decimal representation of a number within 64 signed bits is
    accepted by [Atoi], which returns that number. *)
Lemma DecimalOf_Atoi (s : string) (n : Z) :
  DecimalOf s n -> strconv.minInt64 <= n <= strconv.maxInt64 ->
  strconv.Atoi s = (n, None).
Proof.
  intros (sign & digits & -> & Hne & Hd & Hsign) Hr.
  pose proof (decimalValue_nonneg digits Hd) as Hv.
  assert (Hp : forall un, un = decimalValue digits ->
               un <= strconv.maxUint64 ->
               strconv.ParseUint digits = strconv.ScanOk un).
  { intros un E L. apply ParseUint_ok. auto. }
  unfold strconv.minInt64, strconv.maxInt64 in Hr.
  destruct Hsign as [[[-> | ->] ->] | [-> ->]].
  - destruct digits as [| c ds]; [now elim Hne |].
    cbn [append]. unfold strconv.Atoi.
    cbn [allDigits] in Hd. apply andb_true_iff in Hd. destruct Hd as [Hc Hds].
    destruct (isDigit_not_sign c Hc) as [-> ->]. cbn [orb].
    rewrite (Hp _ eq_refl) by (unfold strconv.maxUint64; lia).
    cbn [negb andb].
    destruct (Z.geb_spec (decimalValue (String c ds)) (strconv.maxInt64 + 1));
      [unfold strconv.maxInt64 in *; lia | reflexivity].
  - cbn [append]. unfold strconv.Atoi. cbn [Ascii.eqb Bool.eqb orb].
    change (Ascii.eqb "+" "-") with false. cbn match.
    rewrite (Hp _ eq_refl) by (unfold strconv.maxUint64; lia).
    cbn [negb andb].
    destruct (Z.geb_spec (decimalValue digits) (strconv.maxInt64 + 1));
      [unfold strconv.maxInt64 in *; lia | reflexivity].
  - cbn [append]. unfold strconv.Atoi.
    change (Ascii.eqb "-" "-") with true.
    change (Ascii.eqb "-" "+") with false. cbn [orb]. cbn match.
    rewrite (Hp _ eq_refl) by (unfold strconv.maxUint64; lia).
    cbn [negb andb].
    destruct (Z.gtb_spec (decimalValue digits) (strconv.maxInt64 + 1));
      [unfold strconv.maxInt64 in *; lia | reflexivity].
Qed.

End DecimalNumerals.

(** C7: the health-check port validator accepts (returns no error for)
    exactly the string "traffic-port" and the decimal representations of
    the integers from 1 to 65536; every other input gets at least one
    validation error. *)
Theorem validateAwsLbTargetGroupHealthCheckPort_accepts (v k : string) :
  (snd (validateAwsLbTargetGroupHealthCheckPort v k) = [] <->
   v = "traffic-port" \/ exists n, DecimalOf v n /\ 1 <= n <= 65536) /\
  (~ (v = "traffic-port" \/ exists n, DecimalOf v n /\ 1 <= n <= 65536) ->
   (1 <= List.length (snd (validateAwsLbTargetGroupHealthCheckPort v k)))%nat).
Proof.
  assert (Hiff :
    snd (validateAwsLbTargetGroupHealthCheckPort v k) = [] <->
    v = "traffic-port" \/ exists n, DecimalOf v n /\ 1 <= n <= 65536).
  { unfold validateAwsLbTargetGroupHealthCheckPort.
    destruct (String.eqb_spec v "traffic-port") as [-> | Hne].
    - split; [now left | reflexivity].
    - destruct (strconv.Atoi v) as [port err] eqn:Ha.
      split.
      + intros He. right.
        destruct err as [e |].
        * cbn [app] in He.
          destruct ((port <? 1) || (port >? 65536))%bool; discriminate.
        * destruct (Z.ltb_spec port 1), (Z.gtb_spec port 65536);
            cbn [orb snd app] in He; try discriminate.
          exists port. split; [now apply Atoi_ok_DecimalOf | lia].
      + intros [-> | (n & Hn & Hr)]; [now elim Hne |].
        rewrite (DecimalOf_Atoi v n Hn) in Ha
          by (unfold strconv.minInt64, strconv.maxInt64; lia).
        injection Ha as <- <-.
        destruct (Z.ltb_spec n 1), (Z.gtb_spec n 65536); try lia.
        reflexivity. }
  split; [exact Hiff |].
  intros Hno.
  destruct (snd (validateAwsLbTargetGroupHealthCheckPort v k)) as [| e l] eqn:E.
  - elim Hno. now apply Hiff.
  - cbn [List.length]. lia.
Qed.

(** ** Diff suppression *)

Lemma isOneOf_In (s : string) (l : list string) :
  isOneOf s l = true <-> In s l.
Proof.
  unfold isOneOf. rewrite existsb_exists. split.
  - intros (x & Hin & Heq). apply String.eqb_eq in Heq. now subst.
  - intros Hin. exists s. split; [assumption | apply String.eqb_refl].
Qed.

Lemma isOneOf_not_In (s : string) (l : list string) :
  isOneOf s l = false <-> ~ In s l.
Proof.
  rewrite <- isOneOf_In. destruct (isOneOf s l); split; intros H;
    try reflexivity; try discriminate; try (intros ?; discriminate).
  now elim H.
Qed.

(** C5: when the target group's protocol is TCP, UDP, TCP_UDP or TLS, the
    hook of stickiness cookie_duration suppresses the diff, and the hook of
    stickiness type suppresses it exactly when the new value is "lb_cookie"
    and [stickiness.0.enabled] reads false; for every other protocol both
    hooks return false. *)
Theorem stickiness_diff_suppression (k old new : string) (d : Fields) :
  (In (protocol d) ["TCP"; "UDP"; "TCP_UDP"; "TLS"] ->
   stickinessCookieDurationDiffSuppress k old new d = true /\
   (stickinessTypeDiffSuppress k old new d = true <->
    new = "lb_cookie" /\ st_enabled (stickiness_0 d) = false)) /\
  (~ In (protocol d) ["TCP"; "UDP"; "TCP_UDP"; "TLS"] ->
   stickinessCookieDurationDiffSuppress k old new d = false /\
   stickinessTypeDiffSuppress k old new d = false).
Proof.
  unfold stickinessCookieDurationDiffSuppress, stickinessTypeDiffSuppress.
  change [elbv2.ProtocolEnumTcp; elbv2.ProtocolEnumUdp;
          elbv2.ProtocolEnumTcpUdp; elbv2.ProtocolEnumTls]
    with ["TCP"; "UDP"; "TCP_UDP"; "TLS"].
  split; intros H.
  - apply isOneOf_In in H. rewrite H. split; [reflexivity |].
    destruct (String.eqb_spec new "lb_cookie") as [-> | Hn];
      destruct (st_enabled (stickiness_0 d)); cbn [andb negb];
      split; intros; try discriminate; try (now split);
      destruct H0; try discriminate; contradiction.
  - apply isOneOf_not_In in H. rewrite H. now split.
Qed.

Lemma stickiness_diff_suppression_witness :
  stickinessCookieDurationDiffSuppress
    "stickiness.0.type" "source_ip" "lb_cookie" nlbFields = true /\
  (stickinessTypeDiffSuppress
     "stickiness.0.type" "source_ip" "lb_cookie" nlbFields = true <->
   "lb_cookie" = "lb_cookie" /\ st_enabled (stickiness_0 nlbFields) = false).
Proof.
  apply (proj1 (stickiness_diff_suppression
                  "stickiness.0.type" "source_ip" "lb_cookie" nlbFields)).
  cbn. auto.
Defined.

(** ** Plan-time diff customization *)

Lemma forceNewIfChanged_eq (guard : bool) (key : string) (diff : ResourceDiff) :
  forceNewIfChanged guard key diff =
  (if (diff_HasChange diff key && guard)%bool then flagForceNew diff key else diff,
   None).
Proof.
  unfold forceNewIfChanged, diff_ForceNew.
  destruct (diff_HasChange diff key) eqn:H; cbn [andb]; [| reflexivity].
  destruct guard; reflexivity.
Qed.

Lemma diff_HasChange_flagForceNew (diff : ResourceDiff) (k key : string) :
  diff_HasChange (flagForceNew diff k) key = diff_HasChange diff key.
Proof. reflexivity. Qed.

Lemma diff_GetChangedKeysPrefix_flagForceNew (diff : ResourceDiff) (k p : string) :
  diff_GetChangedKeysPrefix (flagForceNew diff k) p
  = diff_GetChangedKeysPrefix diff p.
Proof. reflexivity. Qed.

(** The customization's result, with the three [ForceNew] steps resolved:
    none of them can fail. *)
Lemma CustomizeDiff_eq (diff : ResourceDiff) :
  resourceAwsLbTargetGroupCustomizeDiff diff =
  match tcpHealthCheckValidation diff with
  | Some err => (diff, Some err)
  | None =>
  match httpHealthCheckValidation diff with
  | Some err => (diff, Some err)
  | None =>
      if (String.eqb (diff_Id diff) ""
          || negb (String.eqb (protocol (diff_new diff)) "TCP"))%bool
      then (diff, None)
      else
        let d1 :=
          if diff_HasChange diff "health_check.0.interval"
          then flagForceNew diff "health_check.0.interval" else diff in
        let d2 :=
          if (diff_HasChange diff "health_check.0.protocol"
              && negb (Nat.eqb (List.length
                   (diff_GetChangedKeysPrefix diff "health_check.0")) 0))%bool
          then flagForceNew d1 "health_check.0.protocol" else d1 in
        let d3 :=
          if diff_HasChange diff "health_check.0.timeout"
          then flagForceNew d2 "health_check.0.timeout" else d2 in
        (d3, None)
  end end.
Proof.
  unfold resourceAwsLbTargetGroupCustomizeDiff.
  destruct (tcpHealthCheckValidation diff); [reflexivity |].
  destruct (httpHealthCheckValidation diff); [reflexivity |].
  destruct (String.eqb (diff_Id diff) ""); [reflexivity |].
  change elbv2.ProtocolEnumTcp with "TCP".
  destruct (String.eqb (protocol (diff_new diff)) "TCP"); [| reflexivity].
  cbn [orb negb].
  rewrite forceNewIfChanged_eq, andb_true_r.
  destruct (diff_HasChange diff "health_check.0.interval") eqn:Hi;
    rewrite forceNewIfChanged_eq;
    rewrite ?diff_HasChange_flagForceNew, ?diff_GetChangedKeysPrefix_flagForceNew;
    destruct (diff_HasChange diff "health_check.0.protocol"
              && negb (Nat.eqb (List.length
                   (diff_GetChangedKeysPrefix diff "health_check.0")) 0))%bool;
    rewrite forceNewIfChanged_eq, andb_true_r;
    rewrite ?diff_HasChange_flagForceNew;
    destruct (diff_HasChange diff "health_check.0.timeout");
    reflexivity.
Qed.

Lemma tcpHealthCheckValidation_spec (diff : ResourceDiff) (h : HealthCheck) :
  health_check (diff_new diff) = [h] -> hc_protocol h = "TCP" ->
  (hc_matcher h <> "" \/ hc_path h <> ""
   \/ (hc_timeout h <> 0 /\ diff_Id diff = "")
   \/ hc_healthy_threshold h <> hc_unhealthy_threshold h ->
   exists err, tcpHealthCheckValidation diff = Some err
               /\ isTcpHealthCheckError err = true) /\
  (~ (hc_matcher h <> "" \/ hc_path h <> ""
      \/ (hc_timeout h <> 0 /\ diff_Id diff = "")
      \/ hc_healthy_threshold h <> hc_unhealthy_threshold h) ->
   tcpHealthCheckValidation diff = None).
Proof.
  intros Hh Hp. unfold tcpHealthCheckValidation. rewrite Hh, Hp.
  change (String.eqb "TCP" elbv2.ProtocolEnumTcp) with true. cbn match.
  destruct (String.eqb_spec (hc_matcher h) "") as [Em | Nm]; cbn [negb].
  2: { split; [intros _; eexists; split; reflexivity | intros H; elim H; auto]. }
  destruct (String.eqb_spec (hc_path h) "") as [Ep | Np]; cbn [negb].
  2: { split; [intros _; eexists; split; reflexivity | intros H; elim H; auto]. }
  destruct (Z.eqb_spec (hc_timeout h) 0) as [Et | Nt],
           (String.eqb_spec (diff_Id diff) "") as [Ei | Ni]; cbn [negb andb].
  3: { split; [intros _; eexists; split; reflexivity | intros H; elim H; auto]. }
  all: destruct (Z.eqb_spec (hc_healthy_threshold h) (hc_unhealthy_threshold h))
         as [Eh | Nh]; cbn [negb];
       (split;
        [ intros H; try (eexists; split; reflexivity);
          exfalso; destruct H as [H | [H | [[H1 H2] | H]]]; congruence
        | intros H; try reflexivity; elim H; auto ]).
Qed.

(** C2: for a configuration with one health_check block whose protocol is
    TCP, the diff customization (a function of the diff alone: it has no
    handle on the remote API) returns one of the four TCP validation errors
    whenever the matcher is non-empty, or the path is non-empty, or the
    timeout is non-zero while the resource id is empty, or the two
    thresholds differ; otherwise whatever error it returns is none of
    these. *)
Theorem CustomizeDiff_tcp_health_check (diff : ResourceDiff) (h : HealthCheck) :
  health_check (diff_new diff) = [h] -> hc_protocol h = "TCP" ->
  (hc_matcher h <> "" \/ hc_path h <> ""
   \/ (hc_timeout h <> 0 /\ diff_Id diff = "")
   \/ hc_healthy_threshold h <> hc_unhealthy_threshold h ->
   exists err, resourceAwsLbTargetGroupCustomizeDiff diff = (diff, Some err)
               /\ isTcpHealthCheckError err = true) /\
  (~ (hc_matcher h <> "" \/ hc_path h <> ""
      \/ (hc_timeout h <> 0 /\ diff_Id diff = "")
      \/ hc_healthy_threshold h <> hc_unhealthy_threshold h) ->
   forall diff' err,
     resourceAwsLbTargetGroupCustomizeDiff diff = (diff', Some err) ->
     isTcpHealthCheckError err = false).
Proof.
  intros Hh Hp.
  destruct (tcpHealthCheckValidation_spec diff h Hh Hp) as [Hyes Hno].
  rewrite CustomizeDiff_eq. split.
  - intros H. destruct (Hyes H) as (err & -> & Herr). now exists err.
  - intros H diff' err. rewrite (Hno H).
    unfold httpHealthCheckValidation.
    destruct (strings.Contains (protocol (diff_new diff)) elbv2.ProtocolEnumHttp).
    + rewrite Hh.
      destruct (String.eqb (strings.ToLower (hc_protocol h)) "tcp").
      * intros [= <- <-]. reflexivity.
      * destruct (_ || _)%bool; cbn zeta; discriminate.
    + destruct (_ || _)%bool; cbn zeta; discriminate.
Qed.

Lemma CustomizeDiff_tcp_health_check_witness :
  exists err,
    resourceAwsLbTargetGroupCustomizeDiff matcherOnTcpDiff
    = (matcherOnTcpDiff, Some err)
    /\ isTcpHealthCheckError err = true.
Proof.
  refine (proj1 (CustomizeDiff_tcp_health_check matcherOnTcpDiff
                   {| hc_enabled := true; hc_interval := 30; hc_path := "";
                      hc_port := "traffic-port"; hc_protocol := "TCP";
                      hc_timeout := 0; hc_healthy_threshold := 3;
                      hc_matcher := "200"; hc_unhealthy_threshold := 3 |}
                   eq_refl eq_refl) _).
  left. cbn. discriminate.
Defined.

(** C4, as stated, fails: on an existing TCP target group whose plan
    changes the health-check interval but also sets unequal thresholds, the
    customization returns the validation error and flags nothing. *)
Lemma CustomizeDiff_validation_error_forces_nothing :
  String.eqb (diff_Id unequalThresholdsDiff) "" = false /\
  protocol (diff_new unequalThresholdsDiff) = "TCP" /\
  diff_HasChange unequalThresholdsDiff "health_check.0.interval" = true /\
  (exists err,
     resourceAwsLbTargetGroupCustomizeDiff unequalThresholdsDiff
     = (unequalThresholdsDiff, Some err)) /\
  diff_forcedNewKeys
    (fst (resourceAwsLbTargetGroupCustomizeDiff unequalThresholdsDiff)) = [].
Proof.
  repeat split; try reflexivity.
  eexists. reflexivity.
Qed.

Lemma length_eqb_0 {A : Type} (l : list A) :
  Nat.eqb (List.length l) 0 = false <-> l <> [].
Proof.
  destruct l; cbn; split; intros H; try discriminate; try reflexivity.
  now elim H.
Qed.

(** C4, amended: a key is flagged as forcing replacement by the diff
    customization exactly when the customization returns no error, the
    resource exists (non-empty id), its protocol is TCP, the key changed,
    and the key is the health_check interval, the health_check timeout, or
    the health_check protocol with at least one changed key under the
    health_check block.  In particular nothing is flagged for a new
    resource, for another protocol, or when a validation error is
    returned. *)
Theorem CustomizeDiff_forces_replacement (diff : ResourceDiff) (key : string) :
  In key (diff_forcedNewKeys (fst (resourceAwsLbTargetGroupCustomizeDiff diff)))
  <->
  In key (diff_forcedNewKeys diff) \/
  (snd (resourceAwsLbTargetGroupCustomizeDiff diff) = None /\
   diff_Id diff <> "" /\ protocol (diff_new diff) = "TCP" /\
   diff_HasChange diff key = true /\
   (key = "health_check.0.interval" \/ key = "health_check.0.timeout" \/
    (key = "health_check.0.protocol" /\
     diff_GetChangedKeysPrefix diff "health_check.0" <> []))).
Proof.
  rewrite CustomizeDiff_eq.
  destruct (tcpHealthCheckValidation diff) as [e |];
    [cbn [fst snd]; split; [auto | intros [H | (H & _)]; [exact H | discriminate]] |].
  destruct (httpHealthCheckValidation diff) as [e |];
    [cbn [fst snd]; split; [auto | intros [H | (H & _)]; [exact H | discriminate]] |].
  destruct (String.eqb_spec (diff_Id diff) "") as [Ei | Ni]; cbn [orb].
  { cbn [fst snd]. split; [auto | intros [H | (_ & H & _)]; [exact H | now elim H]]. }
  destruct (String.eqb_spec (protocol (diff_new diff)) "TCP") as [Ep | Np];
    cbn [negb].
  2: { cbn [fst snd].
       split; [auto | intros [H | (_ & _ & H & _)]; [exact H | now elim Np]]. }
  cbn zeta. cbn [fst snd].
  pose proof (length_eqb_0 (diff_GetChangedKeysPrefix diff "health_check.0"))
    as Hlen.
  destruct (diff_HasChange diff "health_check.0.interval") eqn:Hi;
    destruct (diff_HasChange diff "health_check.0.protocol") eqn:Hp;
    destruct (Nat.eqb (List.length
                (diff_GetChangedKeysPrefix diff "health_check.0")) 0) eqn:Hk;
    destruct (diff_HasChange diff "health_check.0.timeout") eqn:Ht;
    cbn [andb negb flagForceNew diff_forcedNewKeys In];
    (split;
     [ intros H;
       repeat (destruct H as [H | H];
               [right; subst key; repeat split; auto;
                try (right; right; split; [reflexivity | now apply Hlen])
               |]);
       now left
     | intros [H | (_ & _ & _ & Hc & [-> | [-> | [-> Hne]]])];
       try (apply Hlen in Hne);
       try congruence; auto 6 ]).
Qed.

Lemma CustomizeDiff_forces_replacement_interval :
  In "health_check.0.interval"
     (diff_forcedNewKeys
        (fst (resourceAwsLbTargetGroupCustomizeDiff intervalChangeDiff))).
Proof.
  apply (proj2 (CustomizeDiff_forces_replacement intervalChangeDiff
                  "health_check.0.interval")).
  right. repeat split; try reflexivity; [discriminate | now left].
Defined.

(** ** Read *)

Lemma HasPrefix_empty (s : string) : strings.HasPrefix s "" = true.
Proof. destruct s; reflexivity. Qed.

Lemma Contains_empty (s : string) : strings.Contains s "" = true.
Proof. destruct s; reflexivity. Qed.

Lemma isAWSErr_any_message (err : sdkError) (code : string) :
  isAWSErr (Some (SDKError err)) code "" = true <->
  exists message, err = AWSError code message.
Proof.
  unfold isAWSErr. destruct err as [c m | t].
  - rewrite Contains_empty, andb_true_r. split.
    + intros H. apply String.eqb_eq in H. subst. now exists m.
    + intros (m' & [= -> _]). apply String.eqb_refl.
  - split; [discriminate | intros (m & H); discriminate].
Qed.

(** C9: when DescribeTargetGroups fails during Read with the error code
    TargetGroupNotFound, Read clears the resource id, changes nothing else
    and returns no error; on every other describe failure it returns an
    error and leaves the resource data as it was. *)
Theorem Read_describe_failure (d : ResourceData) (meta : AWSClient) (w : World)
  (err : sdkError) :
  DescribeTargetGroups_ meta (history w) [Id d] = inr err ->
  ((exists message, err = AWSError "TargetGroupNotFound" message) ->
   resourceAwsLbTargetGroupRead d meta w
   = (SetId d "",
      issue meta (DescribeTargetGroupsRequest [Id d]) (Some err) w, None)) /\
  (~ (exists message, err = AWSError "TargetGroupNotFound" message) ->
   resourceAwsLbTargetGroupRead d meta w
   = (d, issue meta (DescribeTargetGroupsRequest [Id d]) (Some err) w,
      Some (Errorf "Error retrieving Target Group: %s" [ArgError (SDKError err)]))).
Proof.
  intros Hd.
  unfold resourceAwsLbTargetGroupRead, DescribeTargetGroups.
  rewrite Hd. cbn [asResult failureOf].
  change elbv2.ErrCodeTargetGroupNotFoundException with "TargetGroupNotFound".
  pose proof (isAWSErr_any_message err "TargetGroupNotFound") as Hc.
  destruct (isAWSErr (Some (SDKError err)) "TargetGroupNotFound" "").
  - split; [reflexivity | intros H; elim H; now apply Hc].
  - split; [intros H; apply Hc in H; discriminate | reflexivity].
Qed.

Lemma Read_describe_failure_witness :
  resourceAwsLbTargetGroupRead existingData goneClient startOfDay
  = (SetId existingData "",
     issue goneClient (DescribeTargetGroupsRequest [Id existingData])
       (Some (AWSError "TargetGroupNotFound" "One or more target groups not found"))
       startOfDay,
     None).
Proof.
  refine (proj1 (Read_describe_failure existingData goneClient startOfDay
                   (AWSError "TargetGroupNotFound"
                      "One or more target groups not found") eq_refl) _).
  eexists. reflexivity.
Defined.

(** ** What every handler keeps *)

Lemma extends_refl (w : World) : extends w w.
Proof. exists []. now rewrite app_nil_r. Qed.

Lemma extends_trans (w1 w2 w3 : World) :
  extends w1 w2 -> extends w2 w3 -> extends w1 w3.
Proof.
  intros [c1 H1] [c2 H2]. exists (c1 ++ c2)%list.
  now rewrite H2, H1, app_assoc.
Qed.

Lemma extends_issue (meta : AWSClient) (req : Request) (err : option sdkError)
  (w : World) : extends w (issue meta req err w).
Proof. eexists. reflexivity. Qed.

Lemma Set_Id (d : ResourceData) (key : string) (v : value) :
  Id (fst (Set_ d key v)) = Id d.
Proof. unfold Set_. now destruct (accepts key v). Qed.

Lemma Set_error (d d' : ResourceData) (key : string) (v : value) (e : error) :
  Set_ d key v = (d', Some e) ->
  d' = d /\ e = Errorf "Invalid address to set: %s" [ArgString key].
Proof.
  unfold Set_. destruct (accepts key v); [discriminate |].
  intros [= <- <-]. now split.
Qed.

Lemma Set_ok_Id (d d' : ResourceData) (key : string) (v : value) (r : option error) :
  Set_ d key v = (d', r) -> Id d' = Id d.
Proof. intros H. rewrite <- (Set_Id d key v), H. reflexivity. Qed.

Lemma attributesLoop_keeps (attributes : list elbv2.TargetGroupAttribute) :
  forall d d' r,
    attributesLoop attributes d = (d', r) ->
    Id d' = Id d /\
    forall e, r = Some e -> isRequiredAttributeError e = false.
Proof.
  induction attributes as [| attr rest IH]; intros d d' r; cbn [attributesLoop].
  - intros [= <- <-]. split; [reflexivity | discriminate].
  - repeat match goal with
           | |- context [String.eqb ?a ?b] => destruct (String.eqb a b)
           | |- context [strconv.ParseBool ?a] => destruct (strconv.ParseBool a)
           | |- context [strconv.Atoi ?a] =>
               let n := fresh "n" in let o := fresh "o" in
               destruct (strconv.Atoi a) as [n [o |]]
           end;
      try (intros [= <- <-]; split; [reflexivity | intros ? [= <-]; reflexivity]);
      intros H; apply IH in H; rewrite ?Set_Id in H; exact H.
Qed.

Lemma stickinessLoop_keeps (attributes : list elbv2.TargetGroupAttribute) :
  forall m d m' d' r,
    stickinessLoop attributes m d = (m', d', r) ->
    Id d' = Id d /\
    forall e, r = Some e -> isRequiredAttributeError e = false.
Proof.
  induction attributes as [| attr rest IH]; intros m d m' d' r;
    cbn [stickinessLoop].
  - intros [= <- <- <-]. split; [reflexivity | discriminate].
  - repeat match goal with
           | |- context [String.eqb ?a ?b] => destruct (String.eqb a b)
           | |- context [strconv.ParseBool ?a] => destruct (strconv.ParseBool a)
           | |- context [strconv.Atoi ?a] =>
               let n := fresh "n" in let o := fresh "o" in
               destruct (strconv.Atoi a) as [n [o |]]
           end;
      try (intros [= <- <- <-]; split; [reflexivity | intros ? [= <-]; reflexivity]);
      intros H; apply IH in H; rewrite ?Set_Id in H; exact H.
Qed.

Lemma flattenStickiness_keeps (d d' : ResourceData)
  (attributes : list elbv2.TargetGroupAttribute) (r : option error) :
  flattenAwsLbTargetGroupStickiness d attributes = (d', r) ->
  Id d' = Id d /\
  forall e, r = Some e -> isRequiredAttributeError e = false.
Proof.
  unfold flattenAwsLbTargetGroupStickiness.
  destruct (stickinessLoop attributes emptyStickinessMap d) as [[m d1] [e1 |]] eqn:Hl;
    apply stickinessLoop_keeps in Hl; destruct Hl as [Hid Herr].
  - intros [= <- <-]. split; [assumption | intros ? [= <-]; now apply Herr].
  - match goal with
    | |- context [Set_ d1 ?k ?v] => destruct (Set_ d1 k v) as [d2 [e2 |]] eqn:Hs
    end.
    + intros [= <- <-]. apply Set_error in Hs. destruct Hs as [-> ->].
      split; [assumption | intros ? [= <-]; reflexivity].
    + intros [= <- <-]. apply Set_ok_Id in Hs.
      split; [congruence | discriminate].
Qed.

(** Flattening a described group only adds calls to the history, keeps the
    resource id, and never returns a required-attribute error. *)
Lemma flatten_keeps (d : ResourceData) (meta : AWSClient)
  (targetGroup : elbv2.TargetGroup) (w : World) (d' : ResourceData) (w' : World)
  (r : option error) :
  flattenAwsLbTargetGroupResource d meta targetGroup w = (d', w', r) ->
  extends w w' /\ Id d' = Id d /\
  forall e, r = Some e -> isRequiredAttributeError e = false.
Proof.
  unfold flattenAwsLbTargetGroupResource.
  match goal with
  | |- context [Set_ ?x "health_check" ?v] =>
      remember x as x0 eqn:Ex;
      assert (Hx : Id x0 = Id d)
        by (subst x0; destruct (negb _); rewrite ?Set_Id; reflexivity);
      clear Ex;
      destruct (Set_ x0 "health_check" v) as [d1 [e1 |]] eqn:H1
  end.
  { intros [= <- <- <-]. apply Set_ok_Id in H1.
    repeat split; [apply extends_refl | congruence | intros ? [= <-]; reflexivity]. }
  apply Set_ok_Id in H1.
  unfold DescribeTargetGroupAttributes, Elbv2ListTags.
  destruct (DescribeTargetGroupAttributes_ meta (history w) (Id d1))
    as [Attributes | e2]; cbn [asResult failureOf].
  2: { intros [= <- <- <-].
       repeat split; [apply extends_issue | congruence | intros ? [= <-]; reflexivity]. }
  destruct (attributesLoop Attributes d1) as [d2 [e3 |]] eqn:H2;
    apply attributesLoop_keeps in H2; destruct H2 as [Hid2 He2].
  { intros [= <- <- <-].
    repeat split; [apply extends_issue | congruence | intros ? [= <-]; now apply He2]. }
  destruct (flattenAwsLbTargetGroupStickiness d2 Attributes) as [d3 [e4 |]] eqn:H3;
    apply flattenStickiness_keeps in H3; destruct H3 as [Hid3 He3].
  { intros [= <- <- <-].
    repeat split; [apply extends_issue | congruence | intros ? [= <-]; now apply He3]. }
  match goal with
  | |- context [Elbv2ListTags_ meta ?h ?i] =>
      destruct (Elbv2ListTags_ meta h i) as [tags | e5]; cbn [asResult failureOf]
  end.
  2: { intros [= <- <- <-].
       repeat split;
         [eapply extends_trans; apply extends_issue | congruence
         | intros ? [= <-]; reflexivity]. }
  match goal with
  | |- context [Set_ d3 ?k ?v] => destruct (Set_ d3 k v) as [d4 [e6 |]] eqn:H4
  end; apply Set_ok_Id in H4; intros [= <- <- <-];
    (repeat split;
     [eapply extends_trans; apply extends_issue | congruence
     | try discriminate; intros ? [= <-]; reflexivity]).
Qed.

Lemma Read_keeps (d : ResourceData) (meta : AWSClient) (w : World)
  (d' : ResourceData) (w' : World) (r : option error) :
  resourceAwsLbTargetGroupRead d meta w = (d', w', r) ->
  extends w w' /\ (Id d' = Id d \/ Id d' = "") /\
  forall e, r = Some e -> isRequiredAttributeError e = false.
Proof.
  unfold resourceAwsLbTargetGroupRead, DescribeTargetGroups.
  destruct (DescribeTargetGroups_ meta (history w) [Id d]) as [groups | e1];
    cbn [asResult failureOf].
  - destruct groups as [| g [| g' rest]].
    + intros [= <- <- <-].
      repeat split; [apply extends_issue | now left | intros ? [= <-]; reflexivity].
    + intros H. apply flatten_keeps in H. destruct H as (He & Hid & Herr).
      repeat split; [eapply extends_trans; [apply extends_issue | exact He]
                    | now left | exact Herr].
    + intros [= <- <- <-].
      repeat split; [apply extends_issue | now left | intros ? [= <-]; reflexivity].
  - destruct (isAWSErr _ _ _); intros [= <- <- <-].
    + repeat split; [apply extends_issue | now right | discriminate].
    + repeat split; [apply extends_issue | now left | intros ? [= <-]; reflexivity].
Qed.

(** ** Update and Create *)

(** A successful or failed Update reaches Read only after its own calls:
    the three optional writes, in order, each of which may fail. *)
Lemma Update_cases (d : ResourceData) (meta : AWSClient) (w : World) :
  (exists w1 e,
     extends w w1 /\
     resourceAwsLbTargetGroupUpdate d meta w = (d, w1, Some e) /\
     isRequiredAttributeError e = false) \/
  (exists w1,
     extends w w1 /\
     resourceAwsLbTargetGroupUpdate d meta w
     = resourceAwsLbTargetGroupRead d meta w1).
Proof.
  unfold resourceAwsLbTargetGroupUpdate.
  assert (H1 : exists w1 r1,
             (if HasChange d "tags"
              then Elbv2UpdateTags meta (Id d) (tags (oldValues d))
                     (tags (newValues d)) w
              else (None, w)) = (r1, w1) /\ extends w w1).
  { destruct (HasChange d "tags"); eexists; eexists;
      (split; [reflexivity | try apply extends_refl; apply extends_issue]). }
  destruct H1 as (w1 & r1 & -> & E1).
  destruct r1 as [e1 |].
  { left. exists w1. eexists. split; [assumption | split; reflexivity]. }
  assert (H2 : exists w2 r2,
             (if HasChange d "health_check"
              then match modifyTargetGroupParams d with
                   | Some params => ModifyTargetGroup meta params w1
                   | None => (None, w1)
                   end
              else (None, w1)) = (r2, w2) /\ extends w1 w2).
  { destruct (HasChange d "health_check");
      [destruct (modifyTargetGroupParams d) |]; eexists; eexists;
      (split; [reflexivity | try apply extends_refl; apply extends_issue]). }
  destruct H2 as (w2 & r2 & -> & E2).
  destruct r2 as [e2 |].
  { left. exists w2. eexists.
    split; [eapply extends_trans; eassumption | split; reflexivity]. }
  cbn zeta.
  assert (H3 : exists w3 r3,
             (if Nat.ltb 0 (List.length (updateAttributes d))
              then ModifyTargetGroupAttributes meta (Id d) (updateAttributes d) w2
              else (None, w2)) = (r3, w3) /\ extends w2 w3).
  { destruct (Nat.ltb 0 (List.length (updateAttributes d))); eexists; eexists;
      (split; [reflexivity | try apply extends_refl; apply extends_issue]). }
  destruct H3 as (w3 & r3 & -> & E3).
  assert (E : extends w w3) by (repeat (eapply extends_trans; try eassumption)).
  destruct r3 as [e3 |].
  - left. exists w3. eexists. split; [assumption | split; reflexivity].
  - right. exists w3. split; [assumption | reflexivity].
Qed.

Lemma Update_keeps (d : ResourceData) (meta : AWSClient) (w : World)
  (d' : ResourceData) (w' : World) (r : option error) :
  resourceAwsLbTargetGroupUpdate d meta w = (d', w', r) ->
  extends w w' /\ (Id d' = Id d \/ Id d' = "") /\
  forall e, r = Some e -> isRequiredAttributeError e = false.
Proof.
  destruct (Update_cases d meta w) as [(w1 & e & E & -> & He) | (w1 & E & ->)].
  - intros [= <- <- <-].
    repeat split; [assumption | now left | intros ? [= <-]; assumption].
  - intros H. apply Read_keeps in H. destruct H as (E' & Hid & Herr).
    repeat split; [eapply extends_trans; eassumption | assumption | assumption].
Qed.

(** The name Create gives the group leaves the call history alone. *)
Lemma groupName_history (d : ResourceData) (w : World) :
  history
    (snd (if isSetString (name (values d)) then (name (values d), w)
          else if isSetString (name_prefix (values d))
          then resource.PrefixedUniqueId (name_prefix (values d)) w
          else resource.PrefixedUniqueId "tf-" w)) = history w.
Proof.
  destruct (isSetString (name (values d)));
    [| destruct (isSetString (name_prefix (values d)))]; reflexivity.
Qed.

(** C3: when target_type is not "lambda" and one of port, protocol and
    vpc_id is unset ([GetOk] reports the attribute as not set), Create
    returns the matching validation error without a call in the history;
    when all three are set, or target_type is "lambda", the next call in
    the history is CreateTargetGroup with the parameters Create built, and
    whatever error Create returns is not one of these validation errors. *)
Theorem Create_requires_port_protocol_vpc (d : ResourceData) (meta : AWSClient)
  (w : World) :
  (target_type (values d) <> "lambda" ->
   isSetInt (port (values d)) = false
   \/ isSetString (protocol (values d)) = false
   \/ isSetString (vpc_id (values d)) = false ->
   exists err w',
     resourceAwsLbTargetGroupCreate d meta w = (d, w', Some err) /\
     isRequiredAttributeError err = true /\
     history w' = history w) /\
  (target_type (values d) = "lambda"
   \/ (isSetInt (port (values d)) = true
       /\ isSetString (protocol (values d)) = true
       /\ isSetString (vpc_id (values d)) = true) ->
   exists groupName call later,
     history (snd (fst (resourceAwsLbTargetGroupCreate d meta w)))
     = (history w ++ call :: later)%list /\
     request call = CreateTargetGroupRequest (createTargetGroupParams d groupName) /\
     forall err,
       snd (resourceAwsLbTargetGroupCreate d meta w) = Some err ->
       isRequiredAttributeError err = false).
Proof.
  unfold resourceAwsLbTargetGroupCreate.
  pose proof (groupName_history d w) as Hh.
  destruct (if isSetString (name (values d)) then (name (values d), w)
            else if isSetString (name_prefix (values d))
            then resource.PrefixedUniqueId (name_prefix (values d)) w
            else resource.PrefixedUniqueId "tf-" w) as [groupName w0].
  cbn [snd] in Hh. cbn zeta.
  change elbv2.TargetTypeEnumLambda with "lambda".
  split.
  - intros Hl Hu.
    destruct (String.eqb_spec (target_type (values d)) "lambda") as [E | _];
      [now elim Hl |]. cbn [negb andb].
    destruct (isSetInt (port (values d))); cbn [negb].
    2: { eexists. eexists. split; [reflexivity | split; [reflexivity | assumption]]. }
    destruct (isSetString (protocol (values d))); cbn [negb].
    2: { eexists. eexists. split; [reflexivity | split; [reflexivity | assumption]]. }
    destruct (isSetString (vpc_id (values d))); cbn [negb].
    2: { eexists. eexists. split; [reflexivity | split; [reflexivity | assumption]]. }
    destruct Hu as [Hu | [Hu | Hu]]; discriminate.
  - intros Hs.
    assert (Hg :
      (negb (String.eqb (target_type (values d)) "lambda")
       && negb (isSetInt (port (values d))) = false)%bool /\
      (negb (String.eqb (target_type (values d)) "lambda")
       && negb (isSetString (protocol (values d))) = false)%bool /\
      (negb (String.eqb (target_type (values d)) "lambda")
       && negb (isSetString (vpc_id (values d))) = false)%bool).
    { destruct Hs as [-> | (-> & -> & ->)];
        [repeat split; reflexivity
        | rewrite !andb_false_r; repeat split; reflexivity]. }
    destruct Hg as (-> & -> & ->).
    unfold CreateTargetGroup.
    destruct (CreateTargetGroup_ meta (history w0)
                (createTargetGroupParams d groupName)) as [groups | e];
      cbn [asResult failureOf].
    + destruct groups as [| targetGroup others].
      * exists groupName. eexists. exists [].
        cbn [fst snd issue history]. rewrite Hh.
        split; [reflexivity | split; [reflexivity |]].
        intros ? [= <-]. reflexivity.
      * match goal with
        | |- context [resourceAwsLbTargetGroupUpdate ?x meta ?y] =>
            destruct (resourceAwsLbTargetGroupUpdate x meta y)
              as [[d' w'] r] eqn:Hu;
            apply Update_keeps in Hu; destruct Hu as ([calls Hc] & _ & Herr)
        end.
        exists groupName. eexists. exists calls.
        cbn [fst snd]. rewrite Hc. cbn [issue history]. rewrite Hh, <- app_assoc.
        split; [reflexivity | split; [reflexivity | exact Herr]].
    + exists groupName. eexists. exists [].
      cbn [fst snd issue history]. rewrite Hh.
      split; [reflexivity | split; [reflexivity |]].
      intros ? [= <-]. reflexivity.
Qed.

Lemma Create_requires_port_witness :
  exists err w',
    resourceAwsLbTargetGroupCreate newDataWithoutPort quietClient startOfDay
    = (newDataWithoutPort, w', Some err) /\
    isRequiredAttributeError err = true /\
    history w' = history startOfDay.
Proof.
  refine (proj1 (Create_requires_port_protocol_vpc
                   newDataWithoutPort quietClient startOfDay) _ _).
  - cbn. discriminate.
  - left. reflexivity.
Defined.

(** ** Delete *)

Lemma HasPrefix_iff (s p : string) :
  strings.HasPrefix s p = true <-> exists post, s = p ++ post.
Proof.
  revert s. induction p as [| c p IH]; intros s; cbn [strings.HasPrefix].
  - split; [intros _; now exists s | intros _; apply HasPrefix_empty].
  - destruct s as [| c' s']; cbn [strings.HasPrefix].
    + split; [discriminate | intros (post & H); discriminate].
    + rewrite andb_true_iff, IH. split.
      * intros (Hc & post & ->). apply Ascii.eqb_eq in Hc. subst. now exists post.
      * intros (post & [= -> ->]). split; [apply Ascii.eqb_refl | now exists post].
Qed.

(** [strings.Contains] finds exactly the substrings. *)
Lemma Contains_iff (s sub : string) :
  strings.Contains s sub = true <-> exists pre post, s = pre ++ sub ++ post.
Proof.
  induction s as [| c s IH]; cbn [strings.Contains]; rewrite orb_true_iff.
  - rewrite HasPrefix_iff. split.
    + intros [(post & H) | H]; [| discriminate]. now exists "", post.
    + intros (pre & post & H). left.
      destruct pre; [now exists post | discriminate].
  - rewrite HasPrefix_iff, IH. split.
    + intros [(post & H) | (pre & post & ->)].
      * now exists "", post.
      * now exists (String c pre), post.
    + intros (pre & post & H). destruct pre as [| c' pre].
      * left. now exists post.
      * right. injection H as -> ->. now exists pre, post.
Qed.

(** The classification of a delete failure: retryable exactly for the code
    ResourceInUse with the listener message. *)
Lemma inUse_iff (err : option sdkError) :
  inUse err = true <->
  exists message pre post,
    err = Some (AWSError "ResourceInUse" message) /\
    message = pre ++ "is currently in use by a listener or a rule" ++ post.
Proof.
  unfold inUse, isAWSErr, asError. destruct err as [[c m | t] |]; cbn [option_map].
  - rewrite andb_true_iff, Contains_iff. split.
    + intros (Hc & pre & post & Hm). apply String.eqb_eq in Hc. subst c.
      now exists m, pre, post.
    + intros (m' & pre & post & [= -> ->] & Hm).
      split; [reflexivity | now exists pre, post].
  - split; [discriminate | intros (m & pre & post & H & _); discriminate].
  - split; [discriminate | intros (m & pre & post & H & _); discriminate].
Qed.

Lemma deleteAttempt_eq (meta : AWSClient) (arn : string) (w : World) :
  deleteAttempt meta arn w =
  (match DeleteTargetGroup_ meta (history w) arn with
   | Some e =>
       Some {| resource.Err := SDKError e;
               resource.Retryable :=
                 inUse (DeleteTargetGroup_ meta (history w) arn) |}
   | None => None
   end,
   issue meta (DeleteTargetGroupRequest arn)
     (DeleteTargetGroup_ meta (history w) arn) w).
Proof.
  unfold deleteAttempt, DeleteTargetGroup, inUse. cbn zeta.
  destruct (DeleteTargetGroup_ meta (history w) arn) as [e |]; cbn [asError option_map].
  - destruct (isAWSErr _ _ _); reflexivity.
  - reflexivity.
Qed.

(** [resource.nextWait] never goes below the shortest pause. *)
Lemma nextWait_MinTimeout (wait : N) :
  (resource.MinTimeout <= resource.nextWait wait)%N.
Proof.
  unfold resource.nextWait, resource.MinTimeout, resource.maxWait. cbn zeta.
  destruct (N.ltb_spec (wait * 2) 500); [lia |].
  destruct (N.ltb_spec 10000 (wait * 2)); lia.
Qed.

(** The fuel [resource.Retry] passes is never used up: where the deadline
    is within [fuel] shortest pauses, more fuel changes nothing. *)
Lemma retryLoop_fuel (meta : AWSClient) (arn : string) (deadline : Time) :
  forall fuel wait resultErr w,
    (deadline <= now w + wait + resource.MinTimeout * N.of_nat fuel)%N ->
    resource.retryLoop (S fuel) deadline wait resultErr (deleteAttempt meta arn) w
    = resource.retryLoop fuel deadline wait resultErr (deleteAttempt meta arn) w.
Proof.
  induction fuel as [| fuel IH]; intros wait resultErr w Hd.
  - cbn [resource.retryLoop].
    destruct (N.leb_spec deadline (now w + wait)) as [_ | Hlt]; [reflexivity |].
    cbn [N.of_nat] in Hd. lia.
  - cbn [resource.retryLoop] in *.
    destruct (N.leb_spec deadline (now w + wait)) as [_ | Hlt]; [reflexivity |].
    rewrite deleteAttempt_eq. cbn [sleep history now].
    destruct (N.ltb_spec (deadline + resource.refreshGracePeriod)
                (now (issue meta (DeleteTargetGroupRequest arn)
                        (DeleteTargetGroup_ meta (history w) arn)
                        (sleep wait w)))); [reflexivity |].
    destruct (DeleteTargetGroup_ meta (history w) arn) as [e |]; [| reflexivity].
    cbn [resource.Retryable resource.Err].
    destruct (inUse (Some e)); [| reflexivity].
    apply (IH (resource.nextWait wait) (Some (SDKError e))).
    cbn [issue sleep now].
    pose proof (nextWait_MinTimeout wait).
    rewrite Nat2N.inj_succ in Hd. lia.
Qed.

(** The retry loop around [deleteAttempt]: what it adds to the history and
    how it ends. *)
Lemma retryLoop_delete (meta : AWSClient) (arn : string) (deadline : Time) :
  forall fuel wait resultErr w r w',
    (deadline <= now w + wait + resource.MinTimeout * N.of_nat fuel)%N ->
    resource.retryLoop fuel deadline wait resultErr (deleteAttempt meta arn) w
    = (r, w') ->
    exists attempts,
      history w' = (history w ++ attempts)%list /\
      deleteCalls meta arn (history w) attempts /\
      paced meta (history w) (now w) wait attempts /\
      Forall (fun c => (issuedAt c < deadline)%N) attempts /\
      ((exists pre c,
          attempts = (pre ++ [c])%list /\
          Forall (fun c => inUse (failure c) = true) pre /\
          inUse (failure c) = false /\
          inTime meta (history w) (deadline + resource.refreshGracePeriod)%N
            attempts /\
          r = asError (failure c))
       \/
       (exists answered ignored,
          attempts = (answered ++ ignored)%list /\
          Forall (fun c => inUse (failure c) = true) answered /\
          inTime meta (history w) (deadline + resource.refreshGracePeriod)%N
            answered /\
          r = resource.timedOut (lastFailure resultErr answered) /\
          ((ignored = [] /\
            (deadline <= nextAttemptAt meta (history w) (now w) wait answered)%N)
           \/
           (exists l,
              ignored = [l] /\
              (deadline + resource.refreshGracePeriod
               < answeredAt meta (history w ++ answered)%list l)%N /\
              now w' = (deadline + resource.refreshGracePeriod)%N)))).
Proof.
  induction fuel as [| fuel IH]; intros wait resultErr w r w' Hfuel;
    cbn [resource.retryLoop].
  - intros [= <- <-]. exists []. rewrite app_nil_r.
    split; [reflexivity | split; [exact I | split; [exact I |]]].
    split; [constructor |].
    right. exists [], [].
    split; [reflexivity | split; [constructor | split; [exact I |]]].
    split; [reflexivity |].
    left. split; [reflexivity |].
    cbn [nextAttemptAt N.of_nat] in *. lia.
  - destruct (N.leb_spec deadline (now w + wait)) as [Hd | Hd].
    + intros [= <- <-]. exists []. rewrite app_nil_r.
      split; [reflexivity | split; [exact I | split; [exact I |]]].
      split; [constructor |].
      right. exists [], [].
      split; [reflexivity | split; [constructor | split; [exact I |]]].
      split; [reflexivity |].
      left. split; [reflexivity | exact Hd].
    + rewrite deleteAttempt_eq. cbn [sleep history].
      set (err := DeleteTargetGroup_ meta (history w) arn).
      set (c := {| issuedAt := (now w + wait)%N;
                   request := DeleteTargetGroupRequest arn;
                   failure := err |}).
      set (w1 := issue meta (DeleteTargetGroupRequest arn) err (sleep wait w)).
      assert (Hh1 : history w1 = (history w ++ [c])%list) by reflexivity.
      assert (Hn1 : now w1 = answeredAt meta (history w) c) by reflexivity.
      assert (Hc : deleteCalls meta arn (history w) [c])
        by (cbn [deleteCalls]; repeat split).
      assert (Hp : paced meta (history w) (now w) wait [c])
        by (cbn [paced]; repeat split).
      assert (Ht : Forall (fun c => (issuedAt c < deadline)%N) [c])
        by (constructor; [exact Hd | constructor]).
      destruct (N.ltb_spec (deadline + resource.refreshGracePeriod) (now w1))
        as [Hlate | Hintime].
      * intros [= <- <-]. exists [c].
        split; [exact Hh1 | split; [exact Hc | split; [exact Hp |]]].
        split; [exact Ht |].
        right. exists [], [c].
        split; [reflexivity | split; [constructor | split; [exact I |]]].
        split; [reflexivity |].
        right. exists c. rewrite app_nil_r.
        split; [reflexivity | split; [exact Hlate | reflexivity]].
      * assert (Hi : inTime meta (history w)
                       (deadline + resource.refreshGracePeriod)%N [c])
          by (cbn [inTime]; split; [rewrite <- Hn1; exact Hintime | exact I]).
        assert (Hstop : inUse err = false ->
                  exists pre c0,
                    [c] = (pre ++ [c0])%list /\
                    Forall (fun c => inUse (failure c) = true) pre /\
                    inUse (failure c0) = false /\
                    inTime meta (history w)
                      (deadline + resource.refreshGracePeriod)%N [c] /\
                    asError err = asError (failure c0)).
        { intros Hu. exists [], c.
          split; [reflexivity | split; [constructor |]].
          split; [exact Hu | split; [exact Hi | reflexivity]]. }
        destruct err as [e |] eqn:He.
        -- cbn [resource.Retryable resource.Err].
           destruct (inUse (Some e)) eqn:Hu.
           ++ intros H. apply IH in H.
              2:{ pose proof (nextWait_MinTimeout wait).
                  rewrite Nat2N.inj_succ in Hfuel.
                  change (now w1)
                    with (now w + wait
                          + elapsed meta (history w)
                              (DeleteTargetGroupRequest arn))%N.
                  lia. }
              destruct H as (attempts & Hh & Hcalls & Hpaced & Hall & Hend).
              exists (c :: attempts).
              split; [rewrite Hh, Hh1, <- app_assoc; reflexivity |].
              split.
              { cbn [deleteCalls] in *. destruct Hc as (Hq & Hf & _).
                split; [exact Hq | split; [exact Hf |]].
                rewrite <- Hh1. exact Hcalls. }
              split.
              { cbn [paced]. split; [reflexivity |].
                rewrite <- Hh1, <- Hn1. exact Hpaced. }
              split; [constructor; [exact Hd | exact Hall] |].
              destruct Hend as [(pre & c' & -> & Hpre & Hc' & Hin' & Hr)
                               | (answered & ignored & -> & Hin & Hin' & Hr & Hig)].
              ** left. exists (c :: pre), c'.
                 split; [reflexivity | split; [constructor; assumption |]].
                 split; [exact Hc' | split; [| exact Hr]].
                 cbn [inTime app] in *. split; [apply Hi |].
                 rewrite <- Hh1. exact Hin'.
              ** right. exists (c :: answered), ignored.
                 split; [reflexivity |].
                 split; [constructor; assumption |].
                 split.
                 { cbn [inTime] in *. split; [apply Hi |].
                   rewrite <- Hh1. exact Hin'. }
                 split; [exact Hr |].
                 destruct Hig as [(-> & Hnext) | (l & -> & Hl & Hn)].
                 --- left. split; [reflexivity |].
                     cbn [nextAttemptAt]. rewrite <- Hh1, <- Hn1. exact Hnext.
                 --- right. exists l.
                     split; [reflexivity | split; [| exact Hn]].
                     rewrite Hh1, <- app_assoc in Hl. exact Hl.
           ++ intros [= <- <-]. exists [c].
              split; [exact Hh1 | split; [exact Hc | split; [exact Hp |]]].
              split; [exact Ht |].
              left. exact (Hstop eq_refl).
        -- intros [= <- <-]. exists [c].
           split; [exact Hh1 | split; [exact Hc | split; [exact Hp |]]].
           split; [exact Ht |].
           left. exact (Hstop eq_refl).
Qed.

(** C1, as the claim has it, fails on a remote side that keeps refusing
    the delete: all sixteen calls Delete makes start within the two
    minutes and fail with the retryable error, there is no attempt after
    them and no other error, and Delete returns an error all the same, the
    last retryable one. *)
Lemma Delete_in_use_makes_no_final_attempt :
  let out := resourceAwsLbTargetGroupDelete existingData busyClient startOfDay in
  let calls := history (snd (fst out)) in
  snd out
  = Some (Errorf "Error deleting Target Group: %s"
            [ArgError (SDKError
               (AWSError "ResourceInUse"
                  "Target group is currently in use by a listener or a rule"))]) /\
  List.length calls = 16%nat /\
  forallb (fun c => inUse (failure c)
                    && (issuedAt c <? now startOfDay + 2 * Minute)%N) calls
  = true /\
  isResourceTimeoutError
    (fst (resource.Retry (2 * Minute)
            (deleteAttempt busyClient (Id existingData)) startOfDay))
  = false.
Proof.
  vm_compute. repeat split.
Qed.

(** The timeout error, and with it the final attempt, is what Delete gets
    when the first call has not answered by the end of the grace period:
    the second call is issued at that time. *)
Lemma Delete_final_attempt_after_silence :
  let out := resourceAwsLbTargetGroupDelete existingData silentClient startOfDay in
  snd out = None /\
  map issuedAt (history (snd (fst out))) = [0; 150000]%N /\
  fst (resource.Retry (2 * Minute)
         (deleteAttempt silentClient (Id existingData)) startOfDay)
  = Some TimeoutError.
Proof.
  vm_compute. repeat split.
Qed.

(** C1 (amended): Delete calls DeleteTargetGroup in a retry loop: every
    call is answered by the remote side, the first attempt is made at once
    and each later one a pause after the answer to the one before it, and
    every attempt starts before two minutes have passed.  A failure is
    retryable exactly when it has the code ResourceInUse and a message
    containing "is currently in use by a listener or a rule".  The loop
    stops at the first success or other error, and Delete returns an error
    exactly if that call failed.  When the time runs out after a retryable
    failure (the next attempt would start at or after the two minutes, or
    the attempt under way has not answered by the end of the grace
    period), Delete returns the last retryable failure as its error and
    makes no further attempt.  Only when the loop ends with the timeout
    error, the first call not having answered by the end of the grace
    period, is one more DeleteTargetGroup call made, at that time, and
    Delete returns an error exactly if this call failed. *)
Theorem Delete_retries_until_out_of_time (d : ResourceData) (meta : AWSClient)
  (w : World) :
  (forall err, inUse err = true <->
     exists message pre post,
       err = Some (AWSError "ResourceInUse" message) /\
       message = pre ++ "is currently in use by a listener or a rule" ++ post) /\
  exists attempts final w' err,
    resourceAwsLbTargetGroupDelete d meta w = (d, w', err) /\
    history w' = (history w ++ attempts ++ final)%list /\
    deleteCalls meta (Id d) (history w) (attempts ++ final)%list /\
    paced meta (history w) (now w) 0 attempts /\
    Forall (fun c => (issuedAt c < now w + 2 * Minute)%N) attempts /\
    ((exists pre c,
        attempts = (pre ++ [c])%list /\
        Forall (fun c => inUse (failure c) = true) pre /\
        inUse (failure c) = false /\
        inTime meta (history w)
          (now w + 2 * Minute + resource.refreshGracePeriod)%N attempts /\
        final = [] /\
        err = deleteError (failure c))
     \/
     (exists answered c ignored,
        attempts = (answered ++ [c] ++ ignored)%list /\
        Forall (fun c => inUse (failure c) = true) (answered ++ [c])%list /\
        inTime meta (history w)
          (now w + 2 * Minute + resource.refreshGracePeriod)%N
          (answered ++ [c])%list /\
        ((ignored = [] /\
          (now w + 2 * Minute
           <= nextAttemptAt meta (history w) (now w) 0 (answered ++ [c])%list)%N)
         \/
         (exists l,
            ignored = [l] /\
            (now w + 2 * Minute + resource.refreshGracePeriod
             < answeredAt meta (history w ++ answered ++ [c])%list l)%N)) /\
        final = [] /\
        err = deleteError (failure c) /\
        err <> None)
     \/
     (exists c c',
        attempts = [c] /\
        (now w + 2 * Minute + resource.refreshGracePeriod
         < answeredAt meta (history w) c)%N /\
        final = [c'] /\
        issuedAt c' = (now w + 2 * Minute + resource.refreshGracePeriod)%N /\
        err = deleteError (failure c'))).
Proof.
  split; [exact inUse_iff |].
  unfold resourceAwsLbTargetGroupDelete, resource.Retry. cbn zeta.
  destruct (resource.retryLoop
              (S (N.to_nat (2 * Minute / resource.MinTimeout)))
              (now w + 2 * Minute)%N 0 None
              (deleteAttempt meta (Id d)) w) as [r w1] eqn:Hloop.
  apply retryLoop_delete in Hloop.
  2:{ change (N.of_nat (S (N.to_nat (2 * Minute / resource.MinTimeout))))
        with 241%N.
      unfold Minute, resource.MinTimeout. lia. }
  destruct Hloop as (attempts & Hh & Hcalls & Hpaced & Htime & Hend).
  destruct Hend as [(pre & c & Hat & Hpre & Hc & Hin' & Hr)
                   | (answered & ignored & Hat & Hin & Hin' & Hr & Hig)].
  - exists attempts, [], w1, (deleteError (failure c)).
    rewrite app_nil_r.
    split.
    { subst r. destruct (failure c) as [e |]; reflexivity. }
    split; [assumption | split; [assumption | split; [assumption |]]].
    split; [assumption |].
    left. exists pre, c. auto 10.
  - destruct (rev answered) as [| c front] eqn:Hrev.
    + (* no attempt has answered: the timeout error *)
      apply (f_equal (@rev Call)) in Hrev. rewrite rev_involutive in Hrev.
      cbn [rev] in Hrev. subst answered. cbn [app] in Hat.
      cbn [lastFailure fold_left resource.timedOut] in Hr. subst r.
      destruct Hig as [(-> & Hcut) | (l & -> & Hl & Hn)].
      { cbn [nextAttemptAt] in Hcut. unfold Minute in Hcut. lia. }
      subst attempts. rewrite app_nil_r in Hl.
      cbn [isResourceTimeoutError].
      unfold DeleteTargetGroup. cbn zeta.
      set (last := DeleteTargetGroup_ meta (history w1) (Id d)).
      set (c' := {| issuedAt := now w1;
                    request := DeleteTargetGroupRequest (Id d);
                    failure := last |}).
      exists [l], [c'],
        (issue meta (DeleteTargetGroupRequest (Id d)) last w1),
        (deleteError last).
      split.
      { destruct last as [e |]; reflexivity. }
      split.
      { cbn [issue history]. rewrite Hh, <- app_assoc. reflexivity. }
      split.
      { cbn [deleteCalls app] in *.
        destruct Hcalls as (Hq & Hf & _).
        split; [exact Hq | split; [exact Hf |]].
        split; [reflexivity | split; [| exact I]].
        cbn [c' failure]. unfold last. rewrite Hh. reflexivity. }
      split; [assumption | split; [assumption |]].
      right. right. exists l, c'.
      split; [reflexivity | split; [exact Hl |]].
      split; [reflexivity | split; [exact Hn | reflexivity]].
    + (* the last attempt that answered failed with the retryable error *)
      apply (f_equal (@rev Call)) in Hrev. rewrite rev_involutive in Hrev.
      cbn [rev] in Hrev. subst answered.
      assert (Hu : inUse (failure c) = true).
      { apply Forall_app in Hin. destruct Hin as [_ Hin].
        now inversion Hin. }
      assert (Hr' : r = asError (failure c)).
      { subst r. unfold lastFailure. rewrite fold_left_app. cbn [fold_left].
        destruct (failure c) as [e |]; [reflexivity | discriminate Hu]. }
      destruct (failure c) as [e |] eqn:Hfc; [| discriminate Hu].
      rewrite Hr'. cbn [asError option_map isResourceTimeoutError].
      exists attempts, [], w1,
        (Some (Errorf "Error deleting Target Group: %s" [ArgError (SDKError e)])).
      rewrite app_nil_r.
      split; [reflexivity |].
      split; [assumption | split; [assumption | split; [assumption |]]].
      split; [assumption |].
      right. left. exists (rev front), c, ignored.
      split; [rewrite Hat, <- app_assoc; reflexivity |].
      split; [exact Hin | split; [exact Hin' |]].
      split.
      { destruct Hig as [(-> & Hnext) | (l & -> & Hl & _)].
        - left. split; [reflexivity | exact Hnext].
        - right. exists l. split; [reflexivity | exact Hl]. }
      split; [reflexivity |].
      split; [rewrite Hfc; reflexivity | discriminate].
Qed.

(** ** The ARN suffix *)

Section ArnPattern.

Import regexp.

Lemma firstLine_afterFirstLine (s : string) :
  s = firstLine s ++ afterFirstLine s.
Proof.
  induction s as [| c s IH]; cbn [firstLine afterFirstLine]; [reflexivity |].
  destruct (isLineFeed c); cbn [append]; [reflexivity | now f_equal].
Qed.

Lemma take_length_app (a b : string) : take (String.length a) (a ++ b) = a.
Proof. induction a as [| c a IH]; cbn; [now destruct b | now f_equal]. Qed.

Lemma length_append (a b : string) :
  String.length (a ++ b) = (String.length a + String.length b)%nat.
Proof. induction a as [| c a IH]; cbn; [reflexivity | now f_equal]. Qed.

Lemma consumed_app (a b : string) : consumed (a ++ b) b = a.
Proof.
  unfold consumed. rewrite length_append.
  replace (String.length a + String.length b - String.length b)%nat
    with (String.length a) by lia.
  apply take_length_app.
Qed.

Lemma string_app_assoc (a b c : string) : a ++ b ++ c = (a ++ b) ++ c.
Proof. induction a as [| x a IH]; cbn; [reflexivity | now f_equal]. Qed.

Lemma consumed_firstLine (x tail : string) :
  consumed (x ++ tail) (afterFirstLine tail) = x ++ firstLine tail.
Proof.
  rewrite (firstLine_afterFirstLine tail) at 1.
  rewrite string_app_assoc. apply consumed_app.
Qed.

Lemma singleLine_firstLine (s : string) : singleLine (firstLine s) = true.
Proof.
  induction s as [| c s IH]; cbn [firstLine singleLine]; [reflexivity |].
  destruct (isLineFeed c) eqn:E; cbn [singleLine]; [reflexivity |].
  now rewrite E.
Qed.

Lemma singleLine_app (a b : string) :
  singleLine (a ++ b) = (singleLine a && singleLine b)%bool.
Proof.
  induction a as [| c a IH]; cbn [append singleLine]; [reflexivity |].
  now rewrite IH, andb_assoc.
Qed.

Lemma singleLine_lines (s : string) :
  singleLine s = true -> firstLine s = s /\ afterFirstLine s = "".
Proof.
  induction s as [| c s IH]; cbn [singleLine firstLine afterFirstLine];
    [now split |].
  intros H. apply andb_true_iff in H. destruct H as [Hc Hs].
  destruct (isLineFeed c); [discriminate |].
  destruct (IH Hs) as [-> ->]. now split.
Qed.

(** One round of the greedy loop on [Any]. *)
Lemma starLoop_Any_S {R : Type} (k : string -> list string -> option R)
  (fuel : nat) (s : string) (caps : list string) :
  starLoop (matchHere Any) k (S fuel) s caps =
  match s with
  | EmptyString => k s caps
  | String c s' =>
      if isLineFeed c then k s caps
      else match starLoop (matchHere Any) k fuel s' caps with
           | Some res => Some res
           | None => k s caps
           end
  end.
Proof.
  destruct s as [| c s']; [reflexivity |].
  cbn [starLoop matchHere]. destruct (isLineFeed c); [reflexivity |].
  assert (E : Nat.ltb (String.length s') (String.length (String c s')) = true)
    by (apply Nat.ltb_lt; cbn; lia).
  rewrite E. reflexivity.
Qed.

(** A greedy run of [Any] in front of a continuation that cannot fail
    takes the whole first line. *)
Lemma starLoop_Any_total {R : Type} (k : string -> list string -> option R)
  (res : string -> list string -> R) :
  (forall s caps, k s caps = Some (res s caps)) ->
  forall fuel s caps,
    (String.length s <= fuel)%nat ->
    starLoop (matchHere Any) k fuel s caps
    = Some (res (afterFirstLine s) caps).
Proof.
  intros Hk. induction fuel as [| fuel IH]; intros s caps Hlen.
  - destruct s; [| cbn in Hlen; lia]. cbn. apply Hk.
  - rewrite starLoop_Any_S. destruct s as [| c s].
    + cbn. apply Hk.
    + cbn [afterFirstLine]. destruct (isLineFeed c); [apply Hk |].
      rewrite IH by (cbn in Hlen; lia). reflexivity.
Qed.

(** Whatever a greedy run of [Any] ends in, its continuation was entered
    after a stretch without a line feed. *)
Lemma starLoop_Any_reaches {R : Type} (k : string -> list string -> option R) :
  forall fuel s caps res,
    starLoop (matchHere Any) k fuel s caps = Some res ->
    exists mid s', s = mid ++ s' /\ singleLine mid = true
                   /\ k s' caps = Some res.
Proof.
  induction fuel as [| fuel IH]; intros s caps res.
  - cbn [starLoop]. intros H. now exists "", s.
  - rewrite starLoop_Any_S.
    destruct s as [| c s]; [intros H; now exists "", "" |].
    destruct (isLineFeed c) eqn:Ec; [intros H; now exists "", (String c s) |].
    destruct (starLoop (matchHere Any) k fuel s caps) as [res' |] eqn:Hs.
    + intros [= <-]. apply IH in Hs. destruct Hs as (mid & s' & -> & Hm & Hk).
      exists (String c mid), s'. cbn [append singleLine]. rewrite Ec.
      split; [reflexivity | split; [exact Hm | exact Hk]].
    + intros H. now exists "", (String c s).
Qed.

(** A literal matches exactly when the input starts with it. *)
Lemma matchHere_Literal {R : Type} (lit : string) (last : Regexp) :
  forall s caps (k : string -> list string -> option R) res,
    matchHere (Literal lit last) s caps k = Some res ->
    exists s', s = lit ++ s' /\ matchHere last s' caps k = Some res.
Proof.
  induction lit as [| c lit IH]; intros s caps k res; cbn [Literal].
  - intros H. now exists s.
  - cbn [matchHere]. destruct s as [| c' s]; [discriminate |].
    destruct (Ascii.eqb_spec c c') as [<- | _]; [| discriminate].
    intros H. apply IH in H. destruct H as (s' & -> & H). now exists s'.
Qed.

(** The shape of a match of the ARN pattern at the start of [s]. *)
Lemma matchHere_arnPattern (skipped s : string) (m : Match) :
  matchHere arnPattern s []
    (fun rest caps =>
       Some {| before := skipped;
               submatches := consumed s rest :: caps;
               after := rest |}) = Some m ->
  exists mid tail,
    s = "arn:" ++ mid ++ ":targetgroup/" ++ tail /\
    singleLine mid = true /\
    before m = skipped /\
    submatches m
    = ["arn:" ++ mid ++ ":targetgroup/" ++ firstLine tail; firstLine tail] /\
    after m = afterFirstLine tail.
Proof.
  unfold arnPattern. intros H.
  apply matchHere_Literal in H. destruct H as (s1 & -> & H).
  cbn [matchHere] in H.
  apply starLoop_Any_reaches in H. destruct H as (mid & s2 & -> & Hmid & H).
  apply matchHere_Literal in H. destruct H as (tail & -> & H).
  cbn [matchHere] in H.
  rewrite (starLoop_Any_total _
             (fun rest caps =>
                {| before := skipped;
                   submatches :=
                     consumed ("arn:" ++ mid ++ ":targetgroup/" ++ tail) rest
                     :: (caps ++ [consumed tail rest])%list;
                   after := rest |})) in H
    by (reflexivity || apply Nat.le_refl).
  injection H as <-. exists mid, tail. cbn [before submatches after app].
  split; [reflexivity | split; [assumption | split; [reflexivity |]]].
  split; [| reflexivity].
  change (consumed tail (afterFirstLine tail))
    with (consumed ("" ++ tail) (afterFirstLine tail)).
  match goal with
  | |- [consumed ?a _; _] = _ =>
      replace a with (("arn:" ++ mid ++ ":targetgroup/") ++ tail)
        by (cbn [append]; now rewrite <- string_app_assoc)
  end.
  rewrite !consumed_firstLine. cbn [append].
  now rewrite <- string_app_assoc.
Qed.

(** The shape of the leftmost match of the ARN pattern in [s]. *)
Lemma search_arnPattern (s : string) :
  forall skipped m,
    search arnPattern skipped s = Some m ->
    exists pre mid tail,
      s = pre ++ "arn:" ++ mid ++ ":targetgroup/" ++ tail /\
      singleLine mid = true /\
      submatches m
      = ["arn:" ++ mid ++ ":targetgroup/" ++ firstLine tail; firstLine tail] /\
      after m = afterFirstLine tail.
Proof.
  induction s as [| c s IH]; intros skipped m; cbn [search].
  - destruct (matchHere arnPattern "" [] _) as [m' |] eqn:Hm; [| discriminate].
    intros [= <-]. apply matchHere_arnPattern in Hm.
    destruct Hm as (mid & tail & Hs & _). discriminate.
  - destruct (matchHere arnPattern (String c s) [] _) as [m' |] eqn:Hm.
    + intros [= <-]. apply matchHere_arnPattern in Hm.
      destruct Hm as (mid & tail & Hs & Hmid & _ & Hsub & Haft).
      exists "", mid, tail. auto.
    + intros H. apply IH in H.
      destruct H as (pre & mid & tail & -> & Hmid & Hsub & Haft).
      exists (String c pre), mid, tail. auto.
Qed.

(** Every match the loop of [FindAllStringSubmatch] delivers for the ARN
    pattern has the whole match and one group. *)
Lemma allMatches_arnPattern_pairs (fuel : nat) :
  forall s abut,
    Forall (fun c => exists whole suffix, c = [whole; suffix])
           (allMatches fuel arnPattern s abut).
Proof.
  induction fuel as [| fuel IH]; intros s abut; cbn [allMatches];
    [constructor |].
  destruct (search arnPattern "" s) as [m |] eqn:Hs; [| constructor].
  apply search_arnPattern in Hs.
  destruct Hs as (pre & mid & tail & _ & _ & Hsub & _).
  rewrite Hsub. cbn [append]. constructor; [| apply IH].
  eexists. eexists. reflexivity.
Qed.

Lemma allMatches_arnPattern_empty (fuel : nat) (abut : bool) :
  allMatches fuel arnPattern "" abut = [].
Proof. destruct fuel; reflexivity. Qed.

Lemma suffix_of_pairs (c : list string) (whole suffix : string) :
  c = [whole; suffix] ->
  (if Nat.eqb (List.length c) 2 then "targetgroup/" ++ nth 1 c "" else "")
  = "targetgroup/" ++ suffix.
Proof. intros ->. reflexivity. Qed.

End ArnPattern.

(** C10, as stated, fails: the pattern matches a string of two ARNs on two
    lines, with the captured suffix "a/1", and the function returns the
    empty string. *)
Lemma lbTargetGroupSuffixFromARN_two_matches :
  regexp.MatchString arnPattern twoLineArn = true /\
  regexp.FindStringSubmatch arnPattern twoLineArn
  = Some ["arn:aws:elasticloadbalancing:eu-west-1:1:targetgroup/a/1"; "a/1"] /\
  lbTargetGroupSuffixFromARN (Some twoLineArn) = "".
Proof. repeat split; vm_compute; reflexivity. Qed.

(** C10, amended: [lbTargetGroupSuffixFromARN] returns the empty string for
    a nil pointer and for a string the pattern does not match; for a
    string without a line feed that the pattern matches it returns
    "targetgroup/" followed by the captured suffix, which is what follows
    the ":targetgroup/" of the match; and for any string it returns
    "targetgroup/" followed by the captured suffix when the pattern
    matches exactly once, and the empty string otherwise. *)
Theorem lbTargetGroupSuffixFromARN_total :
  lbTargetGroupSuffixFromARN None = "" /\
  (forall s,
     regexp.MatchString arnPattern s = false ->
     lbTargetGroupSuffixFromARN (Some s) = "") /\
  (forall s,
     regexp.singleLine s = true ->
     regexp.MatchString arnPattern s = true ->
     exists pre mid suffix,
       s = pre ++ "arn:" ++ mid ++ ":targetgroup/" ++ suffix /\
       regexp.FindStringSubmatch arnPattern s
       = Some ["arn:" ++ mid ++ ":targetgroup/" ++ suffix; suffix] /\
       lbTargetGroupSuffixFromARN (Some s) = "targetgroup/" ++ suffix) /\
  (forall s,
     (exists whole suffix,
        regexp.FindAllStringSubmatch arnPattern s = [[whole; suffix]] /\
        lbTargetGroupSuffixFromARN (Some s) = "targetgroup/" ++ suffix)
     \/
     (List.length (regexp.FindAllStringSubmatch arnPattern s) <> 1%nat /\
      lbTargetGroupSuffixFromARN (Some s) = "")).
Proof.
  split; [reflexivity |].
  split; [| split].
  - intros s. unfold regexp.MatchString, lbTargetGroupSuffixFromARN,
      regexp.FindAllStringSubmatch.
    cbn [regexp.allMatches].
    destruct (regexp.search arnPattern "" s); [discriminate | reflexivity].
  - intros s Hline. unfold regexp.MatchString, regexp.FindStringSubmatch,
      lbTargetGroupSuffixFromARN, regexp.FindAllStringSubmatch.
    cbn [regexp.allMatches].
    destruct (regexp.search arnPattern "" s) as [m |] eqn:Hs; [| discriminate].
    intros _. apply search_arnPattern in Hs.
    destruct Hs as (pre & mid & tail & Hs & Hmid & Hsub & Haft).
    assert (Htail : regexp.singleLine tail = true).
    { rewrite Hs in Hline. rewrite !singleLine_app in Hline.
      repeat (apply andb_true_iff in Hline; destruct Hline as [? Hline]).
      assumption. }
    destruct (singleLine_lines tail Htail) as [Hf Ha].
    rewrite Hf in Hsub. rewrite Ha in Haft.
    exists pre, mid, tail. rewrite Hsub, Haft.
    split; [assumption | split; [reflexivity |]].
    cbn [append]. rewrite allMatches_arnPattern_empty. reflexivity.
  - intros s. unfold lbTargetGroupSuffixFromARN, regexp.FindAllStringSubmatch.
    pose proof (allMatches_arnPattern_pairs (S (String.length s)) s false) as Hall.
    destruct (regexp.allMatches (S (String.length s)) arnPattern s false)
      as [| c [| c' rest]].
    + right. split; [discriminate | reflexivity].
    + left. inversion Hall as [| ? ? (whole & suffix & ->) _]. subst.
      exists whole, suffix. split; reflexivity.
    + right. split; [cbn; discriminate | reflexivity].
Qed.

Lemma lbTargetGroupSuffixFromARN_sample :
  lbTargetGroupSuffixFromARN
    (Some "arn:aws:elasticloadbalancing:eu-west-1:1:targetgroup/nlb/5f")
  = "targetgroup/nlb/5f".
Proof.
  destruct (proj1 (proj2 (proj2 lbTargetGroupSuffixFromARN_total))
              "arn:aws:elasticloadbalancing:eu-west-1:1:targetgroup/nlb/5f"
              eq_refl eq_refl)
    as (pre & mid & suffix & Hs & Hf & Hr).
  rewrite Hr. f_equal.
  assert (E : regexp.FindStringSubmatch arnPattern
                "arn:aws:elasticloadbalancing:eu-west-1:1:targetgroup/nlb/5f"
              = Some ["arn:aws:elasticloadbalancing:eu-west-1:1:targetgroup/nlb/5f";
                      "nlb/5f"]) by (vm_compute; reflexivity).
  rewrite E in Hf. now injection Hf.
Defined.

(** * Further properties of the resource *)

(** ** The health-check path validator *)

Lemma HasPrefix_slash (s : string) :
  strings.HasPrefix s "/" = true <-> exists rest, s = "/" ++ rest.
Proof. apply HasPrefix_iff. Qed.

(** X1: the health-check path validator accepts exactly the empty path and
    the paths of at most 1024 bytes that begin with a slash; a path that is
    both too long and without a leading slash gets two errors, any other
    refused path one. *)
Theorem validateAwsLbTargetGroupHealthCheckPath_accepts (v k : string) :
  (snd (validateAwsLbTargetGroupHealthCheckPath v k) = [] <->
   v = "" \/ ((String.length v <= 1024)%nat /\ exists rest, v = "/" ++ rest)) /\
  List.length (snd (validateAwsLbTargetGroupHealthCheckPath v k))
  = ((if Nat.ltb 1024 (String.length v) then 1 else 0)
     + (if strings.HasPrefix v "/" then 0
        else if Nat.eqb (String.length v) 0 then 0 else 1))%nat.
Proof.
  unfold validateAwsLbTargetGroupHealthCheckPath. cbn [snd].
  pose proof (HasPrefix_slash v) as Hs.
  destruct (Nat.ltb_spec 1024 (String.length v)) as [Hlong | Hshort];
    destruct (strings.HasPrefix v "/") eqn:Hp;
    destruct v as [| c v']; cbn [String.length Nat.ltb Nat.leb Nat.eqb negb andb app List.length] in *;
    try lia;
    (split; [split; intros H | reflexivity]);
    try discriminate H; try reflexivity; try (now left);
    try (right; split; [lia | now apply Hs]);
    try (destruct H as [H | [H1 H2]]; [discriminate H | try lia]);
    try (apply Hs in H2; discriminate H2).
Qed.

(** ** The health-check port validator, error by error *)

Lemma Atoi_ok_range (s : string) (n : Z) :
  strconv.Atoi s = (n, None) -> strconv.minInt64 <= n <= strconv.maxInt64.
Proof.
  destruct s as [| c rest]; [discriminate |].
  unfold strconv.Atoi.
  destruct (strconv.ParseUint _) as [un | |] eqn:Hp;
    [| discriminate | destruct (Ascii.eqb c "-"); discriminate].
  apply ParseUint_ok in Hp. destruct Hp as (_ & Hd & -> & _).
  pose proof (decimalValue_nonneg _ Hd) as Hv.
  unfold strconv.minInt64, strconv.maxInt64.
  destruct (Ascii.eqb c "-"); cbn [negb andb].
  - match goal with |- context [?a >? ?b] => destruct (Z.gtb_spec a b) end;
      [discriminate | intros [= <-]; lia].
  - match goal with |- context [?a >=? ?b] => destruct (Z.geb_spec a b) end;
      [discriminate | intros [= <-]; lia].
Qed.

(** On an error [Atoi] returns 0 or one of the two 64-bit bounds. *)
Lemma Atoi_error_value (s : string) (n : Z) (e : error) :
  strconv.Atoi s = (n, Some e) ->
  n = 0 \/ n = strconv.maxInt64 \/ n = strconv.minInt64.
Proof.
  destruct s as [| c rest]; [intros [= <- _]; now left |].
  unfold strconv.Atoi.
  destruct (strconv.ParseUint _) as [un | |];
    repeat match goal with
           | |- context [if ?b then _ else _] => destruct b
           end;
    intros [= <- _]; auto; discriminate.
Qed.

Lemma traffic_port_not_decimal (n : Z) : ~ DecimalOf "traffic-port" n.
Proof.
  intros (sign & digits & Hs & Hne & Hd & [[[-> | ->] _] | [-> _]]).
  - cbn [append] in Hs. subst digits. discriminate.
  - discriminate.
  - discriminate.
Qed.

(** X2: the health-check port validator reports a value that is no decimal
    number of 64 bits twice, with the same message both times (once for the
    failed conversion, once because the number it is left with is out of
    range), and a decimal number outside 1..65536 once, with that message:
    that the attribute must be a valid port number (1-65536) or
    "traffic-port". *)
Theorem validateAwsLbTargetGroupHealthCheckPort_reports (v k : string) :
  ((exists n, DecimalOf v n /\ strconv.minInt64 <= n <= strconv.maxInt64
              /\ (n < 1 \/ 65536 < n)) ->
   validateAwsLbTargetGroupHealthCheckPort v k = ([], [portError k])) /\
  (v <> "traffic-port" ->
   ~ (exists n, DecimalOf v n /\ strconv.minInt64 <= n <= strconv.maxInt64) ->
   validateAwsLbTargetGroupHealthCheckPort v k
   = ([], [portError k; portError k])).
Proof.
  unfold validateAwsLbTargetGroupHealthCheckPort, portError. split.
  - intros (n & Hn & Hr & Hout).
    destruct (String.eqb_spec v "traffic-port") as [-> | _];
      [now apply traffic_port_not_decimal in Hn |].
    rewrite (DecimalOf_Atoi v n Hn Hr).
    destruct (Z.ltb_spec n 1), (Z.gtb_spec n 65536); cbn; solve [reflexivity | lia].
  - intros Hne Hno.
    destruct (String.eqb_spec v "traffic-port") as [E | _]; [now elim Hne |].
    destruct (strconv.Atoi v) as [port [e |]] eqn:Ha.
    + apply Atoi_error_value in Ha.
      unfold strconv.maxInt64, strconv.minInt64 in Ha.
      destruct (Z.ltb_spec port 1), (Z.gtb_spec port 65536); cbn;
        solve [reflexivity | lia].
    + elim Hno. exists port.
      split; [now apply Atoi_ok_DecimalOf | eapply Atoi_ok_range; eassumption].
Qed.

Lemma validateAwsLbTargetGroupHealthCheckPort_reports_witness :
  validateAwsLbTargetGroupHealthCheckPort "70000" "port"
  = ([], [portError "port"])
  /\ validateAwsLbTargetGroupHealthCheckPort "http" "port"
     = ([], [portError "port"; portError "port"]).
Proof.
  split.
  - apply (proj1 (validateAwsLbTargetGroupHealthCheckPort_reports
                    "70000" "port")).
    exists 70000.
    split; [| split; [unfold strconv.minInt64, strconv.maxInt64; lia | lia]].
    exists "", "70000".
    repeat split; try reflexivity; [discriminate | now left; split; [left |]].
  - apply (proj2 (validateAwsLbTargetGroupHealthCheckPort_reports
                    "http" "port")).
    + discriminate.
    + intros (n & Hn & Hr).
      apply (DecimalOf_Atoi _ _ Hn) in Hr. vm_compute in Hr. discriminate.
Defined.

(** ** The diff customization as a whole *)

Lemma tcpHealthCheckValidation_errors (diff : ResourceDiff) (e : error) :
  tcpHealthCheckValidation diff = Some e -> isTcpHealthCheckError e = true.
Proof.
  unfold tcpHealthCheckValidation.
  destruct (health_check (diff_new diff)) as [| h [| h' l]]; try discriminate.
  repeat match goal with
         | |- context [if ?b then _ else _] => destruct b
         end;
    try discriminate; intros [= <-]; reflexivity.
Qed.

Lemma httpHealthCheckValidation_errors (diff : ResourceDiff) (e : error) :
  httpHealthCheckValidation diff = Some e ->
  e = Errorf "HTTP Target Groups cannot use TCP health checks" [].
Proof.
  unfold httpHealthCheckValidation.
  destruct (strings.Contains _ _); [| discriminate].
  destruct (health_check (diff_new diff)) as [| h [| h' l]]; try discriminate.
  destruct (String.eqb _ _); [| discriminate].
  now intros [= <-].
Qed.

(** X3: for a target group of protocol HTTP or HTTPS with one health check
    whose protocol is TCP in any letter case, the diff customization always
    returns an error and leaves the diff alone: one of the TCP validation
    errors, or the error that HTTP target groups cannot use TCP health
    checks. *)
Theorem CustomizeDiff_http_group_tcp_health_check (diff : ResourceDiff)
  (h : HealthCheck) :
  In (protocol (diff_new diff)) ["HTTP"; "HTTPS"] ->
  health_check (diff_new diff) = [h] ->
  strings.ToLower (hc_protocol h) = "tcp" ->
  exists err,
    resourceAwsLbTargetGroupCustomizeDiff diff = (diff, Some err) /\
    (isTcpHealthCheckError err = true
     \/ err = Errorf "HTTP Target Groups cannot use TCP health checks" []).
Proof.
  intros Hp Hh Hl. rewrite CustomizeDiff_eq.
  destruct (tcpHealthCheckValidation diff) as [e |] eqn:Ht.
  - exists e. split; [reflexivity | left].
    now apply tcpHealthCheckValidation_errors in Ht.
  - unfold httpHealthCheckValidation.
    assert (Hc : strings.Contains (protocol (diff_new diff)) elbv2.ProtocolEnumHttp
                 = true).
    { destruct Hp as [<- | [<- | []]]; reflexivity. }
    rewrite Hc, Hh, Hl. cbn [String.eqb]. eexists. split; [reflexivity | now right].
Qed.

Lemma CustomizeDiff_http_group_tcp_health_check_witness :
  exists err,
    resourceAwsLbTargetGroupCustomizeDiff tcpCheckOnHttpDiff
    = (tcpCheckOnHttpDiff, Some err) /\
    (isTcpHealthCheckError err = true
     \/ err = Errorf "HTTP Target Groups cannot use TCP health checks" []).
Proof.
  eapply (CustomizeDiff_http_group_tcp_health_check tcpCheckOnHttpDiff).
  - left. reflexivity.
  - reflexivity.
  - reflexivity.
Defined.

(** X4: the diff customization never touches the id, the old or the new
    values or the attribute diff; the only errors it returns are the four
    TCP validation errors and the HTTP/TCP one (its [ForceNew] calls cannot
    fail), and with an error, or for a resource without an id, it returns
    the diff as it got it. *)
Theorem CustomizeDiff_frame (diff : ResourceDiff) :
  diff_Id (fst (resourceAwsLbTargetGroupCustomizeDiff diff)) = diff_Id diff /\
  diff_old (fst (resourceAwsLbTargetGroupCustomizeDiff diff)) = diff_old diff /\
  diff_new (fst (resourceAwsLbTargetGroupCustomizeDiff diff)) = diff_new diff /\
  diff_attributes (fst (resourceAwsLbTargetGroupCustomizeDiff diff))
  = diff_attributes diff /\
  (forall e,
     snd (resourceAwsLbTargetGroupCustomizeDiff diff) = Some e ->
     fst (resourceAwsLbTargetGroupCustomizeDiff diff) = diff /\
     (isTcpHealthCheckError e = true
      \/ e = Errorf "HTTP Target Groups cannot use TCP health checks" [])) /\
  (diff_Id diff = "" ->
   fst (resourceAwsLbTargetGroupCustomizeDiff diff) = diff).
Proof.
  rewrite CustomizeDiff_eq.
  destruct (tcpHealthCheckValidation diff) as [e1 |] eqn:H1.
  { cbn [fst snd]. do 4 (split; [reflexivity |]). split; [| reflexivity].
    intros e [= <-]. split; [reflexivity | left].
    now apply tcpHealthCheckValidation_errors in H1. }
  destruct (httpHealthCheckValidation diff) as [e2 |] eqn:H2.
  { cbn [fst snd]. do 4 (split; [reflexivity |]). split; [| reflexivity].
    intros e [= <-]. split; [reflexivity | right].
    now apply httpHealthCheckValidation_errors in H2. }
  destruct (String.eqb_spec (diff_Id diff) "") as [Ei | Ni]; cbn [orb].
  { cbn [fst snd]. do 4 (split; [reflexivity |]).
    split; [discriminate | reflexivity]. }
  destruct (negb _).
  { cbn [fst snd]. do 4 (split; [reflexivity |]).
    split; [discriminate | reflexivity]. }
  cbn zeta. cbn [fst snd].
  destruct (diff_HasChange diff "health_check.0.interval");
    destruct (_ && _)%bool;
    destruct (diff_HasChange diff "health_check.0.timeout");
    cbn [flagForceNew diff_Id diff_old diff_new diff_attributes];
    do 4 (split; [reflexivity |]);
    (split; [discriminate | intros E; now elim Ni]).
Qed.

(** ** Read: what it leaves alone and what it asks *)

Lemma sameResource_refl (d : ResourceData) : sameResource d d.
Proof. repeat split. Qed.

Lemma sameResource_trans (d1 d2 d3 : ResourceData) :
  sameResource d1 d2 -> sameResource d2 d3 -> sameResource d1 d3.
Proof.
  unfold sameResource. intros (A1 & A2 & A3 & A4) (B1 & B2 & B3 & B4).
  repeat split; congruence.
Qed.

Lemma Set_sameResource (d : ResourceData) (key : string) (v : value) :
  sameResource d (fst (Set_ d key v)).
Proof. unfold Set_. destruct (accepts key v); repeat split. Qed.

Lemma Set_pair_sameResource (d d' : ResourceData) (key : string) (v : value)
  (r : option error) :
  Set_ d key v = (d', r) -> sameResource d d'.
Proof.
  intros H. pose proof (Set_sameResource d key v) as S. now rewrite H in S.
Qed.

Lemma attributesLoop_sameResource (attributes : list elbv2.TargetGroupAttribute) :
  forall d, sameResource d (fst (attributesLoop attributes d)).
Proof.
  induction attributes as [| attr rest IH]; intros d; cbn [attributesLoop].
  - apply sameResource_refl.
  - repeat match goal with
           | |- context [String.eqb ?a ?b] => destruct (String.eqb a b)
           | |- context [strconv.ParseBool ?a] => destruct (strconv.ParseBool a)
           | |- context [strconv.Atoi ?a] =>
               let n := fresh "n" in let o := fresh "o" in
               destruct (strconv.Atoi a) as [n [o |]]
           end;
      try apply sameResource_refl; try apply IH;
      (eapply sameResource_trans; [apply Set_sameResource | apply IH]).
Qed.

Lemma stickinessLoop_sameResource (attributes : list elbv2.TargetGroupAttribute) :
  forall m d, sameResource d (snd (fst (stickinessLoop attributes m d))).
Proof.
  induction attributes as [| attr rest IH]; intros m d; cbn [stickinessLoop].
  - apply sameResource_refl.
  - repeat match goal with
           | |- context [String.eqb ?a ?b] => destruct (String.eqb a b)
           | |- context [strconv.ParseBool ?a] => destruct (strconv.ParseBool a)
           | |- context [strconv.Atoi ?a] =>
               let n := fresh "n" in let o := fresh "o" in
               destruct (strconv.Atoi a) as [n [o |]]
           end;
      try apply sameResource_refl; try apply IH;
      (eapply sameResource_trans; [apply Set_sameResource | apply IH]).
Qed.

Lemma flattenStickiness_sameResource (d : ResourceData)
  (attributes : list elbv2.TargetGroupAttribute) :
  sameResource d (fst (flattenAwsLbTargetGroupStickiness d attributes)).
Proof.
  unfold flattenAwsLbTargetGroupStickiness.
  pose proof (stickinessLoop_sameResource attributes emptyStickinessMap d) as H.
  destruct (stickinessLoop attributes emptyStickinessMap d) as [[m d1] [e |]];
    cbn [fst snd] in *; [exact H |].
  match goal with
  | |- context [Set_ d1 ?k ?v] =>
      pose proof (Set_sameResource d1 k v) as H2;
      destruct (Set_ d1 k v) as [d2 [e2 |]]
  end; cbn [fst] in *; eapply sameResource_trans; eassumption.
Qed.

(** What flattening adds to the history: the attribute query and, when it
    gets that far, the tag listing. *)
Lemma flatten_reads (d : ResourceData) (meta : AWSClient)
  (targetGroup : elbv2.TargetGroup) (w : World) (d' : ResourceData) (w' : World)
  (r : option error) :
  flattenAwsLbTargetGroupResource d meta targetGroup w = (d', w', r) ->
  sameResource d d' /\
  uniqueIds w' = uniqueIds w /\
  exists calls,
    history w' = (history w ++ calls)%list /\
    Forall (fun c => isReadOnly (request c) = true) calls /\
    (List.length calls <= 2)%nat.
Proof.
  unfold flattenAwsLbTargetGroupResource.
  match goal with
  | |- context [Set_ ?x "health_check" ?v] =>
      remember x as x0 eqn:Ex;
      assert (Hx : sameResource d x0)
        by (subst x0; destruct (negb _);
            repeat (eapply sameResource_trans; [| apply Set_sameResource]);
            apply sameResource_refl);
      clear Ex;
      destruct (Set_ x0 "health_check" v) as [d1 [e1 |]] eqn:H1
  end; apply Set_pair_sameResource in H1;
    assert (Hd1 : sameResource d d1) by (eapply sameResource_trans; eassumption).
  { intros [= <- <- <-]. split; [assumption | split; [reflexivity |]].
    exists []. rewrite app_nil_r. repeat constructor. }
  unfold DescribeTargetGroupAttributes, Elbv2ListTags.
  destruct (DescribeTargetGroupAttributes_ meta (history w) (Id d1))
    as [Attributes | e2]; cbn [asResult failureOf].
  2: { intros [= <- <- <-]. split; [assumption | split; [reflexivity |]].
       eexists. split; [reflexivity |]. split; [repeat constructor | cbn; lia]. }
  pose proof (attributesLoop_sameResource Attributes d1) as H2.
  destruct (attributesLoop Attributes d1) as [d2 [e3 |]]; cbn [fst] in H2;
    assert (Hd2 : sameResource d d2) by (eapply sameResource_trans; eassumption).
  { intros [= <- <- <-]. split; [assumption | split; [reflexivity |]].
    eexists. split; [reflexivity |]. split; [repeat constructor | cbn; lia]. }
  pose proof (flattenStickiness_sameResource d2 Attributes) as H3.
  destruct (flattenAwsLbTargetGroupStickiness d2 Attributes) as [d3 [e4 |]];
    cbn [fst] in H3;
    assert (Hd3 : sameResource d d3) by (eapply sameResource_trans; eassumption).
  { intros [= <- <- <-]. split; [assumption | split; [reflexivity |]].
    eexists. split; [reflexivity |]. split; [repeat constructor | cbn; lia]. }
  match goal with
  | |- context [Elbv2ListTags_ meta ?h ?i] =>
      destruct (Elbv2ListTags_ meta h i) as [tags | e5]; cbn [asResult failureOf]
  end.
  2: { intros [= <- <- <-]. split; [assumption | split; [reflexivity |]].
       eexists. split; [cbn [issue history]; rewrite <- app_assoc; reflexivity |].
       split; [repeat constructor | cbn; lia]. }
  match goal with
  | |- context [Set_ d3 ?k ?v] =>
      pose proof (Set_sameResource d3 k v) as H4;
      destruct (Set_ d3 k v) as [d4 [e6 |]]
  end; cbn [fst] in H4; intros [= <- <- <-];
    (split; [eapply sameResource_trans; eassumption | split; [reflexivity |]]);
    (eexists; split; [cbn [issue history]; rewrite <- app_assoc; reflexivity |]);
    (split; [repeat constructor | cbn; lia]).
Qed.

(** X5: whatever it returns, Read only queries the remote side (one
    DescribeTargetGroups, then at most DescribeTargetGroupAttributes and the
    tag listing, so between one and three read-only calls), leaves the prior
    and the planned values and the creation flag of the resource data as
    they were, and either keeps the id or clears it. *)
Theorem Read_only_reads (d : ResourceData) (meta : AWSClient) (w : World) :
  IsNewResource (fst (fst (resourceAwsLbTargetGroupRead d meta w)))
  = IsNewResource d /\
  oldValues (fst (fst (resourceAwsLbTargetGroupRead d meta w))) = oldValues d /\
  newValues (fst (fst (resourceAwsLbTargetGroupRead d meta w))) = newValues d /\
  (Id (fst (fst (resourceAwsLbTargetGroupRead d meta w))) = Id d
   \/ Id (fst (fst (resourceAwsLbTargetGroupRead d meta w))) = "") /\
  exists first rest,
    history (snd (fst (resourceAwsLbTargetGroupRead d meta w)))
    = (history w ++ first :: rest)%list /\
    request first = DescribeTargetGroupsRequest [Id d] /\
    Forall (fun c => isReadOnly (request c) = true) rest /\
    (List.length rest <= 2)%nat.
Proof.
  unfold resourceAwsLbTargetGroupRead, DescribeTargetGroups.
  destruct (DescribeTargetGroups_ meta (history w) [Id d]) as [groups | e1];
    cbn [asResult failureOf].
  - destruct groups as [| g [| g' l]].
    + cbn [fst snd]. do 3 (split; [reflexivity |]). split; [now left |].
      eexists. exists []. repeat split; [constructor | cbn; lia].
    + destruct (flattenAwsLbTargetGroupResource d meta g _) as [[d' w'] r] eqn:Hf.
      apply flatten_reads in Hf.
      destruct Hf as ((A1 & A2 & A3 & A4) & _ & calls & Hh & Hro & Hlen).
      cbn [fst snd]. do 3 (split; [assumption |]). split; [now left |].
      eexists. exists calls. rewrite Hh. cbn [issue history].
      rewrite <- app_assoc. repeat split; assumption.
    + cbn [fst snd]. do 3 (split; [reflexivity |]). split; [now left |].
      eexists. exists []. repeat split; [constructor | cbn; lia].
  - destruct (isAWSErr _ _ _); cbn [fst snd SetId Id IsNewResource oldValues newValues];
      do 3 (split; [reflexivity |]);
      (split; [(now left) || (now right) |]);
      eexists; exists []; repeat split; try constructor; cbn; lia.
Qed.

(** ** Read: what it stores *)

Lemma isOneOf_false_cons (s a : string) (l : list string) :
  isOneOf s (a :: l) = false -> String.eqb s a = false /\ isOneOf s l = false.
Proof. unfold isOneOf. cbn [existsb]. apply orb_false_iff. Qed.

(** [Set] on another key leaves the described attributes alone. *)
Lemma Set_described (d : ResourceData) (key : string) (v : value) :
  isOneOf key ["arn"; "arn_suffix"; "name"; "target_type"; "vpc_id"; "port";
               "protocol"; "health_check"] = false ->
  described (values (fst (Set_ d key v))) = described (values d).
Proof.
  intros H.
  repeat (apply isOneOf_false_cons in H;
          let E := fresh "E" in destruct H as [E H]).
  unfold Set_. destruct (accepts key v) eqn:Ha; [| reflexivity].
  cbn [fst values]. unfold described, setsString, setsInt.
  cbn [arn arn_suffix name target_type vpc_id port protocol health_check].
  destruct v; rewrite ?E, ?E0, ?E1, ?E2, ?E3, ?E4, ?E5; try reflexivity.
  cbn [accepts] in Ha. rewrite E6 in Ha. discriminate.
Qed.

Lemma attributesLoop_described (attributes : list elbv2.TargetGroupAttribute) :
  forall d,
    described (values (fst (attributesLoop attributes d))) = described (values d).
Proof.
  induction attributes as [| attr rest IH]; intros d; cbn [attributesLoop];
    [reflexivity |].
  repeat match goal with
         | |- context [String.eqb ?a ?b] => destruct (String.eqb a b)
         | |- context [strconv.ParseBool ?a] => destruct (strconv.ParseBool a)
         | |- context [strconv.Atoi ?a] =>
             let n := fresh "n" in let o := fresh "o" in
             destruct (strconv.Atoi a) as [n [o |]]
         end;
    try reflexivity; try apply IH;
    (rewrite IH; now apply Set_described).
Qed.

Lemma stickinessLoop_described (attributes : list elbv2.TargetGroupAttribute) :
  forall m d,
    described (values (snd (fst (stickinessLoop attributes m d))))
    = described (values d).
Proof.
  induction attributes as [| attr rest IH]; intros m d; cbn [stickinessLoop];
    [reflexivity |].
  repeat match goal with
         | |- context [String.eqb ?a ?b] => destruct (String.eqb a b)
         | |- context [strconv.ParseBool ?a] => destruct (strconv.ParseBool a)
         | |- context [strconv.Atoi ?a] =>
             let n := fresh "n" in let o := fresh "o" in
             destruct (strconv.Atoi a) as [n [o |]]
         end;
    try reflexivity; try apply IH;
    (rewrite IH; now apply Set_described).
Qed.

(** After [flattenAwsLbTargetGroupStickiness] the described attributes are
    as before, and on success at most one stickiness block is stored. *)
Lemma flattenStickiness_described (d : ResourceData)
  (attributes : list elbv2.TargetGroupAttribute) :
  described (values (fst (flattenAwsLbTargetGroupStickiness d attributes)))
  = described (values d) /\
  (snd (flattenAwsLbTargetGroupStickiness d attributes) = None ->
   (List.length
      (stickiness (values (fst (flattenAwsLbTargetGroupStickiness d attributes))))
    <= 1)%nat).
Proof.
  unfold flattenAwsLbTargetGroupStickiness.
  pose proof (stickinessLoop_described attributes emptyStickinessMap d) as H.
  destruct (stickinessLoop attributes emptyStickinessMap d) as [[m d1] [e |]];
    cbn [fst snd] in *; [split; [exact H | discriminate] |].
  destruct (Nat.ltb 0 (lenStickinessMap m));
    (split; [rewrite <- H | intros _]); cbn; (reflexivity || lia).
Qed.

Lemma Set_tags (d : ResourceData) (t : Tags) :
  Set_ d "tags" (VTags t)
  = ({| Id := Id d; IsNewResource := IsNewResource d;
        oldValues := oldValues d; newValues := newValues d;
        values :=
          {| arn := arn (values d); arn_suffix := arn_suffix (values d);
             name := name (values d); name_prefix := name_prefix (values d);
             port := port (values d); protocol := protocol (values d);
             vpc_id := vpc_id (values d);
             deregistration_delay := deregistration_delay (values d);
             slow_start := slow_start (values d);
             proxy_protocol_v2 := proxy_protocol_v2 (values d);
             lambda_multi_value_headers_enabled :=
               lambda_multi_value_headers_enabled (values d);
             target_type := target_type (values d);
             load_balancing_algorithm_type :=
               load_balancing_algorithm_type (values d);
             stickiness := stickiness (values d);
             health_check := health_check (values d);
             tags := t |} |}, None).
Proof. reflexivity. Qed.

(** What a successful flattening has stored. *)
Lemma flatten_result (d : ResourceData) (meta : AWSClient)
  (targetGroup : elbv2.TargetGroup) (w : World) (d' : ResourceData) (w' : World) :
  flattenAwsLbTargetGroupResource d meta targetGroup w = (d', w', None) ->
  described (values d')
  = (aws.StringValue (elbv2.TargetGroupArn targetGroup),
     lbTargetGroupSuffixFromARN (elbv2.TargetGroupArn targetGroup),
     aws.StringValue (elbv2.TargetGroupName targetGroup),
     aws.StringValue (elbv2.TargetType targetGroup),
     (if String.eqb (aws.StringValue (elbv2.TargetType targetGroup)) "lambda"
      then vpc_id (values d)
      else aws.StringValue (elbv2.VpcId targetGroup)),
     (if String.eqb (aws.StringValue (elbv2.TargetType targetGroup)) "lambda"
      then port (values d)
      else aws.Int64Value (elbv2.Port targetGroup)),
     (if String.eqb (aws.StringValue (elbv2.TargetType targetGroup)) "lambda"
      then protocol (values d)
      else aws.StringValue (elbv2.Protocol targetGroup)),
     [describedHealthCheck targetGroup]) /\
  (List.length (stickiness (values d')) <= 1)%nat /\
  exists h listed,
    Elbv2ListTags_ meta h (Id d) = inl listed /\
    tags (values d') = IgnoreTags meta listed.
Proof.
  unfold flattenAwsLbTargetGroupResource.
  match goal with
  | |- context [Set_ ?x "health_check" ?v] =>
      assert (Hx : described (values (fst (Set_ x "health_check" v)))
                   = (aws.StringValue (elbv2.TargetGroupArn targetGroup),
                      lbTargetGroupSuffixFromARN (elbv2.TargetGroupArn targetGroup),
                      aws.StringValue (elbv2.TargetGroupName targetGroup),
                      aws.StringValue (elbv2.TargetType targetGroup),
                      (if String.eqb (aws.StringValue (elbv2.TargetType targetGroup))
                                     "lambda"
                       then vpc_id (values d)
                       else aws.StringValue (elbv2.VpcId targetGroup)),
                      (if String.eqb (aws.StringValue (elbv2.TargetType targetGroup))
                                     "lambda"
                       then port (values d)
                       else aws.Int64Value (elbv2.Port targetGroup)),
                      (if String.eqb (aws.StringValue (elbv2.TargetType targetGroup))
                                     "lambda"
                       then protocol (values d)
                       else aws.StringValue (elbv2.Protocol targetGroup)),
                      [describedHealthCheck targetGroup])
                   /\ Id (fst (Set_ x "health_check" v)) = Id d)
        by (change elbv2.TargetTypeEnumLambda with "lambda";
            change (target_type (values (fst (Set_ ?y "target_type" (VString ?t)))))
              with t;
            destruct (String.eqb (aws.StringValue (elbv2.TargetType targetGroup))
                                 "lambda"); split; reflexivity);
      destruct (Set_ x "health_check" v) as [d1 [e1 |]]; [discriminate |]
  end.
  cbn [fst] in Hx. destruct Hx as [Hx Hid1].
  unfold DescribeTargetGroupAttributes, Elbv2ListTags.
  destruct (DescribeTargetGroupAttributes_ meta (history w) (Id d1))
    as [Attributes | e2]; cbn [asResult failureOf]; [| discriminate].
  pose proof (attributesLoop_described Attributes d1) as H2.
  pose proof (attributesLoop_sameResource Attributes d1) as (I2 & _).
  destruct (attributesLoop Attributes d1) as [d2 [e3 |]]; [discriminate |].
  cbn [fst] in H2, I2.
  pose proof (flattenStickiness_described d2 Attributes) as [H3 L3].
  pose proof (flattenStickiness_sameResource d2 Attributes) as (I3 & _).
  destruct (flattenAwsLbTargetGroupStickiness d2 Attributes) as [d3 [e4 |]];
    [discriminate |].
  cbn [fst snd] in H3, L3, I3. specialize (L3 eq_refl).
  match goal with
  | |- context [Elbv2ListTags_ meta ?h ?i] =>
      destruct (Elbv2ListTags_ meta h i) as [listed | e5] eqn:Ht;
      cbn [asResult failureOf]; [| discriminate]
  end.
  rewrite Set_tags. intros [= <- _].
  cbn [values]. split; [| split].
  - unfold described in *.
    cbn [arn arn_suffix name target_type vpc_id port protocol health_check].
    congruence.
  - cbn [stickiness]. exact L3.
  - eexists. exists listed. split; [| reflexivity].
    rewrite <- Hid1, <- I2, <- I3. exact Ht.
Qed.

(** X6: when DescribeTargetGroups returns exactly one group and Read
    succeeds, the resource data read as that group: its ARN, the ARN
    suffix derived from it, its name and target type, one health-check
    block with the group's settings (path and matcher empty when the group
    has none), its VPC, port and protocol unless the group's target type is
    "lambda" (then these three stay as they were), at most one stickiness
    block, and the listed tags after the ignore filter. *)
Theorem Read_stores_described_group (d : ResourceData) (meta : AWSClient)
  (w : World) (targetGroup : elbv2.TargetGroup) (d' : ResourceData) (w' : World) :
  DescribeTargetGroups_ meta (history w) [Id d] = inl [targetGroup] ->
  resourceAwsLbTargetGroupRead d meta w = (d', w', None) ->
  described (values d')
  = (aws.StringValue (elbv2.TargetGroupArn targetGroup),
     lbTargetGroupSuffixFromARN (elbv2.TargetGroupArn targetGroup),
     aws.StringValue (elbv2.TargetGroupName targetGroup),
     aws.StringValue (elbv2.TargetType targetGroup),
     (if String.eqb (aws.StringValue (elbv2.TargetType targetGroup)) "lambda"
      then vpc_id (values d)
      else aws.StringValue (elbv2.VpcId targetGroup)),
     (if String.eqb (aws.StringValue (elbv2.TargetType targetGroup)) "lambda"
      then port (values d)
      else aws.Int64Value (elbv2.Port targetGroup)),
     (if String.eqb (aws.StringValue (elbv2.TargetType targetGroup)) "lambda"
      then protocol (values d)
      else aws.StringValue (elbv2.Protocol targetGroup)),
     [describedHealthCheck targetGroup]) /\
  (List.length (stickiness (values d')) <= 1)%nat /\
  exists h listed,
    Elbv2ListTags_ meta h (Id d) = inl listed /\
    tags (values d') = IgnoreTags meta listed.
Proof.
  intros Hd. unfold resourceAwsLbTargetGroupRead, DescribeTargetGroups.
  rewrite Hd. cbn [asResult failureOf]. apply flatten_result.
Qed.

Lemma Read_stores_described_group_witness :
  described
    (values (fst (fst (resourceAwsLbTargetGroupRead
                         existingData quietClient startOfDay))))
  = ("arn:aws:elasticloadbalancing:eu-west-1:1:targetgroup/nlb/5f",
     "targetgroup/nlb/5f", "nlb", "instance", "vpc-1", 443, "TCP",
     [describedHealthCheck sampleGroup]).
Proof.
  refine (proj1 (Read_stores_described_group existingData quietClient startOfDay
                   sampleGroup _ _ eq_refl _)).
  vm_compute. reflexivity.
Defined.

(** ** Update: what it sends *)

Lemma Read_calls_read_only (d : ResourceData) (meta : AWSClient) (w : World)
  (d' : ResourceData) (w' : World) (r : option error) :
  resourceAwsLbTargetGroupRead d meta w = (d', w', r) ->
  exists calls,
    history w' = (history w ++ calls)%list /\
    Forall (fun c => isReadOnly (request c) = true) calls.
Proof.
  unfold resourceAwsLbTargetGroupRead, DescribeTargetGroups.
  destruct (DescribeTargetGroups_ meta (history w) [Id d]) as [groups | e1];
    cbn [asResult failureOf].
  - destruct groups as [| g [| g' l]].
    + intros [= <- <- <-]. eexists. split; [reflexivity | repeat constructor].
    + intros Hf. apply flatten_reads in Hf.
      destruct Hf as (_ & _ & calls & Hh & Hro & _).
      eexists. rewrite Hh. cbn [issue history]. rewrite <- app_assoc.
      split; [reflexivity |]. constructor; [reflexivity | exact Hro].
    + intros [= <- <- <-]. eexists. split; [reflexivity | repeat constructor].
  - destruct (isAWSErr _ _ _); intros [= <- <- <-];
      eexists; (split; [reflexivity | repeat constructor]).
Qed.

Lemma readOnly_justified (d : ResourceData) (c : Call) :
  isReadOnly (request c) = true -> updateCallJustified d (request c).
Proof. destruct (request c); cbn; intros H; try discriminate; exact I. Qed.

(** Every call Update adds to the history is justified by the resource
    data it was called with. *)
Lemma Update_calls (d : ResourceData) (meta : AWSClient) (w : World) :
  exists calls,
    history (snd (fst (resourceAwsLbTargetGroupUpdate d meta w)))
    = (history w ++ calls)%list /\
    Forall (fun c => updateCallJustified d (request c)) calls.
Proof.
  unfold resourceAwsLbTargetGroupUpdate.
  assert (H1 : exists w1 r1 c1,
             (if HasChange d "tags"
              then Elbv2UpdateTags meta (Id d) (tags (oldValues d))
                     (tags (newValues d)) w
              else (None, w)) = (r1, w1)
             /\ history w1 = (history w ++ c1)%list
             /\ Forall (fun c => updateCallJustified d (request c)) c1).
  { destruct (HasChange d "tags") eqn:Ht.
    - eexists. eexists. eexists. split; [reflexivity |].
      split; [reflexivity |]. constructor; [| constructor].
      cbn. auto.
    - exists w, None, []. rewrite app_nil_r. repeat split. constructor. }
  destruct H1 as (w1 & r1 & c1 & -> & Hh1 & Hj1).
  destruct r1 as [e1 |]; [cbn [fst snd]; now exists c1 |].
  assert (H2 : exists w2 r2 c2,
             (if HasChange d "health_check"
              then match modifyTargetGroupParams d with
                   | Some params => ModifyTargetGroup meta params w1
                   | None => (None, w1)
                   end
              else (None, w1)) = (r2, w2)
             /\ history w2 = (history w1 ++ c2)%list
             /\ Forall (fun c => updateCallJustified d (request c)) c2).
  { destruct (HasChange d "health_check") eqn:Hc;
      [destruct (modifyTargetGroupParams d) as [params |] eqn:Hp |].
    - eexists. eexists. eexists. split; [reflexivity |].
      split; [reflexivity |]. constructor; [| constructor].
      cbn. auto.
    - exists w1, None, []. rewrite app_nil_r. repeat split. constructor.
    - exists w1, None, []. rewrite app_nil_r. repeat split. constructor. }
  destruct H2 as (w2 & r2 & c2 & -> & Hh2 & Hj2).
  destruct r2 as [e2 |].
  { cbn [fst snd]. exists (c1 ++ c2)%list. rewrite Hh2, Hh1, app_assoc.
    split; [reflexivity | now apply Forall_app]. }
  cbn zeta.
  assert (H3 : exists w3 r3 c3,
             (if Nat.ltb 0 (List.length (updateAttributes d))
              then ModifyTargetGroupAttributes meta (Id d) (updateAttributes d) w2
              else (None, w2)) = (r3, w3)
             /\ history w3 = (history w2 ++ c3)%list
             /\ Forall (fun c => updateCallJustified d (request c)) c3).
  { destruct (Nat.ltb 0 (List.length (updateAttributes d))) eqn:Hl.
    - eexists. eexists. eexists. split; [reflexivity |].
      split; [reflexivity |]. constructor; [| constructor].
      cbn. repeat split. intros E. rewrite E in Hl. discriminate.
    - exists w2, None, []. rewrite app_nil_r. repeat split. constructor. }
  destruct H3 as (w3 & r3 & c3 & -> & Hh3 & Hj3).
  assert (Hall : Forall (fun c => updateCallJustified d (request c))
                        (c1 ++ c2 ++ c3)%list)
    by (repeat (apply Forall_app; split); assumption).
  assert (Hh : history w3 = (history w ++ c1 ++ c2 ++ c3)%list)
    by (rewrite Hh3, Hh2, Hh1, <- !app_assoc; reflexivity).
  destruct r3 as [e3 |]; [cbn [fst snd]; eexists; split; eassumption |].
  destruct (resourceAwsLbTargetGroupRead d meta w3) as [[d' w'] r] eqn:Hr.
  apply Read_calls_read_only in Hr. destruct Hr as (c4 & Hh4 & Hro).
  cbn [fst snd]. exists ((c1 ++ c2 ++ c3) ++ c4)%list.
  rewrite Hh4, Hh. split; [now rewrite <- !app_assoc |].
  apply Forall_app. split; [assumption |].
  eapply Forall_impl; [| exact Hro]. intros c. apply readOnly_justified.
Qed.

(** X7: every call Update adds to the history is justified by the resource
    data: the tag update only when the tags changed, ModifyTargetGroup only
    when the health check changed (with the parameters built from the one
    block), ModifyTargetGroupAttributes only with a non-empty attribute
    list for this id; the rest are the queries of the closing Read.  Update
    never creates or deletes a target group. *)
Theorem Update_calls_justified (d : ResourceData) (meta : AWSClient) (w : World) :
  exists calls,
    history (snd (fst (resourceAwsLbTargetGroupUpdate d meta w)))
    = (history w ++ calls)%list /\
    Forall (fun c => updateCallJustified d (request c)) calls.
Proof. exact (Update_calls d meta w). Qed.

Lemma updateAttributes_unchanged (d : ResourceData) :
  (forall key, HasChange d key = false) -> updateAttributes d = [].
Proof.
  intros H. unfold updateAttributes. rewrite !H.
  destruct (isOneOf _ _); [reflexivity |].
  destruct (String.eqb _ _); reflexivity.
Qed.

(** X8: an Update that finds no attribute changed sends nothing: it is
    exactly a Read. *)
Theorem Update_without_changes_is_Read (d : ResourceData) (meta : AWSClient)
  (w : World) :
  (forall key, HasChange d key = false) ->
  resourceAwsLbTargetGroupUpdate d meta w = resourceAwsLbTargetGroupRead d meta w.
Proof.
  intros H. unfold resourceAwsLbTargetGroupUpdate.
  rewrite (H "tags"), (H "health_check"), (updateAttributes_unchanged d H).
  reflexivity.
Qed.

Lemma existingData_unchanged (key : string) : HasChange existingData key = false.
Proof.
  unfold HasChange.
  repeat match goal with
         | |- context [String.eqb key ?k] => destruct (String.eqb key k)
         end; reflexivity.
Qed.

Lemma Update_without_changes_is_Read_witness :
  resourceAwsLbTargetGroupUpdate existingData quietClient startOfDay
  = resourceAwsLbTargetGroupRead existingData quietClient startOfDay.
Proof.
  apply (Update_without_changes_is_Read existingData quietClient startOfDay).
  exact existingData_unchanged.
Defined.

(** X9: the attributes Update collects depend on the target type: for
    "lambda" only lambda.multi_value_headers.enabled, and only when that
    flag changed; for "instance" and "ip" never that one; for any other
    target type none.  The cookie duration is among them only when the
    protocol is HTTP or HTTPS. *)
Theorem updateAttributes_by_target_type (d : ResourceData)
  (a : elbv2.TargetGroupAttribute) :
  In a (updateAttributes d) ->
  (target_type (values d) = "lambda" /\
   HasChange d "lambda_multi_value_headers_enabled" = true /\
   a = attribute "lambda.multi_value_headers.enabled"
         (strconv.FormatBool (lambda_multi_value_headers_enabled (values d))))
  \/
  (In (target_type (values d)) ["instance"; "ip"] /\
   elbv2.Key a <> Some "lambda.multi_value_headers.enabled" /\
   (elbv2.Key a = Some "stickiness.lb_cookie.duration_seconds" ->
    In (protocol (values d)) ["HTTP"; "HTTPS"])).
Proof.
  unfold updateAttributes.
  change [elbv2.TargetTypeEnumInstance; elbv2.TargetTypeEnumIp]
    with ["instance"; "ip"].
  change elbv2.TargetTypeEnumLambda with "lambda".
  destruct (isOneOf (target_type (values d)) ["instance"; "ip"]) eqn:Ht.
  - apply isOneOf_In in Ht. intros Hin. right. split; [exact Ht |].
    repeat (apply in_app_or in Hin; destruct Hin as [Hin | Hin]);
      try (destruct (HasChange d _); [| now elim Hin];
           destruct Hin as [<- | []]; split; [discriminate | discriminate]).
    destruct (HasChange d "stickiness"); [| now elim Hin].
    unfold stickinessAttributes in Hin.
    change [elbv2.ProtocolEnumHttp; elbv2.ProtocolEnumHttps]
      with ["HTTP"; "HTTPS"] in Hin.
    destruct (stickiness (values d)) as [| s [| s' l]]; [| | now elim Hin].
    + destruct Hin as [<- | []]. split; discriminate.
    + destruct (_ && _ && _ && _)%bool; [now elim Hin |].
      destruct (isOneOf (protocol (values d)) ["HTTP"; "HTTPS"]) eqn:Hp.
      * apply isOneOf_In in Hp.
        destruct Hin as [<- | [<- | [<- | []]]];
          (split; [discriminate | intros _; exact Hp]).
      * destruct Hin as [<- | [<- | []]]; split; discriminate.
  - destruct (String.eqb_spec (target_type (values d)) "lambda") as [E | _];
      [| intros []].
    destruct (HasChange d "lambda_multi_value_headers_enabled");
      [| intros []].
    intros [<- | []]. left. auto.
Qed.

Lemma updateAttributes_by_target_type_witness :
  (target_type (values changedWebData) = "lambda" /\
   HasChange changedWebData "lambda_multi_value_headers_enabled" = true /\
   attribute "stickiness.lb_cookie.duration_seconds" "3600"
   = attribute "lambda.multi_value_headers.enabled"
       (strconv.FormatBool
          (lambda_multi_value_headers_enabled (values changedWebData))))
  \/
  (In (target_type (values changedWebData)) ["instance"; "ip"] /\
   elbv2.Key (attribute "stickiness.lb_cookie.duration_seconds" "3600")
   <> Some "lambda.multi_value_headers.enabled" /\
   (elbv2.Key (attribute "stickiness.lb_cookie.duration_seconds" "3600")
    = Some "stickiness.lb_cookie.duration_seconds" ->
    In (protocol (values changedWebData)) ["HTTP"; "HTTPS"])).
Proof.
  apply (updateAttributes_by_target_type changedWebData
           (attribute "stickiness.lb_cookie.duration_seconds" "3600")).
  vm_compute. auto 10.
Defined.

(** ** Create: the id it leaves *)

Lemma flatten_Id (d : ResourceData) (meta : AWSClient)
  (targetGroup : elbv2.TargetGroup) (w : World) :
  Id (fst (fst (flattenAwsLbTargetGroupResource d meta targetGroup w))) = Id d.
Proof.
  destruct (flattenAwsLbTargetGroupResource d meta targetGroup w)
    as [[d' w'] r] eqn:H.
  apply flatten_keeps in H. cbn [fst]. tauto.
Qed.

Lemma Read_Id (d : ResourceData) (meta : AWSClient) (w : World) :
  Id (fst (fst (resourceAwsLbTargetGroupRead d meta w))) = Id d
  \/ (Id (fst (fst (resourceAwsLbTargetGroupRead d meta w))) = ""
      /\ snd (resourceAwsLbTargetGroupRead d meta w) = None
      /\ foundGone meta (Id d)
           (history (snd (fst (resourceAwsLbTargetGroupRead d meta w))))).
Proof.
  unfold resourceAwsLbTargetGroupRead, DescribeTargetGroups.
  destruct (DescribeTargetGroups_ meta (history w) [Id d]) as [groups | e] eqn:Hd;
    cbn [asResult failureOf].
  - destruct groups as [| g [| g' l]]; [now left | | now left].
    left. apply flatten_Id.
  - destruct (isAWSErr (Some (SDKError e)) _ "") eqn:Hi; [| now left].
    right. split; [reflexivity | split; [reflexivity |]].
    apply isAWSErr_any_message in Hi. destruct Hi as (message & ->).
    exists (history w),
      {| issuedAt := now w;
         request := DescribeTargetGroupsRequest [Id d];
         failure := Some (AWSError elbv2.ErrCodeTargetGroupNotFoundException
                            message) |},
      message.
    split; [reflexivity | split; [reflexivity | split; [reflexivity | exact Hd]]].
Qed.

Lemma Update_Id (d : ResourceData) (meta : AWSClient) (w : World) :
  Id (fst (fst (resourceAwsLbTargetGroupUpdate d meta w))) = Id d
  \/ (Id (fst (fst (resourceAwsLbTargetGroupUpdate d meta w))) = ""
      /\ snd (resourceAwsLbTargetGroupUpdate d meta w) = None
      /\ foundGone meta (Id d)
           (history (snd (fst (resourceAwsLbTargetGroupUpdate d meta w))))).
Proof.
  destruct (Update_cases d meta w) as [(w1 & e & _ & -> & _) | (w1 & _ & ->)].
  - now left.
  - apply Read_Id.
Qed.

(** X10: once CreateTargetGroup has returned a group, Create leaves that
    group's ARN as the resource id, also when the Update or the Read that
    follows fails; the id is empty instead only when the closing Read found
    the group gone, its DescribeTargetGroups call for that ARN, the last
    call made, having been answered with the error code
    TargetGroupNotFound, and then Create returns no error. *)
Theorem Create_tracks_created_group (d : ResourceData) (meta : AWSClient)
  (w : World) (targetGroup : elbv2.TargetGroup) (others : list elbv2.TargetGroup) :
  target_type (values d) = "lambda"
  \/ (isSetInt (port (values d)) = true
      /\ isSetString (protocol (values d)) = true
      /\ isSetString (vpc_id (values d)) = true) ->
  CreateTargetGroup_ meta (history w)
    (createTargetGroupParams d (fst (createGroupName d w)))
  = inl (targetGroup :: others) ->
  Id (fst (fst (resourceAwsLbTargetGroupCreate d meta w)))
  = aws.StringValue (elbv2.TargetGroupArn targetGroup)
  \/ (Id (fst (fst (resourceAwsLbTargetGroupCreate d meta w))) = ""
      /\ snd (resourceAwsLbTargetGroupCreate d meta w) = None
      /\ foundGone meta (aws.StringValue (elbv2.TargetGroupArn targetGroup))
           (history (snd (fst (resourceAwsLbTargetGroupCreate d meta w))))).
Proof.
  intros Hs Hc.
  unfold resourceAwsLbTargetGroupCreate.
  pose proof (groupName_history d w) as Hh.
  fold (createGroupName d w) in Hh |- *.
  destruct (createGroupName d w) as [groupName w0]. cbn [fst snd] in Hc, Hh.
  cbn zeta. change elbv2.TargetTypeEnumLambda with "lambda".
  assert (Hg :
    (negb (String.eqb (target_type (values d)) "lambda")
     && negb (isSetInt (port (values d))) = false)%bool /\
    (negb (String.eqb (target_type (values d)) "lambda")
     && negb (isSetString (protocol (values d))) = false)%bool /\
    (negb (String.eqb (target_type (values d)) "lambda")
     && negb (isSetString (vpc_id (values d))) = false)%bool).
  { destruct Hs as [-> | (-> & -> & ->)];
      [repeat split; reflexivity
      | rewrite !andb_false_r; repeat split; reflexivity]. }
  destruct Hg as (-> & -> & ->).
  unfold CreateTargetGroup. rewrite Hh, Hc. cbn [asResult failureOf].
  match goal with
  | |- context [resourceAwsLbTargetGroupUpdate ?x meta ?y] =>
      exact (Update_Id x meta y)
  end.
Qed.

Lemma Create_tracks_created_group_witness :
  Id (fst (fst (resourceAwsLbTargetGroupCreate newData goneClient startOfDay)))
  = aws.StringValue (elbv2.TargetGroupArn sampleGroup)
  \/ (Id (fst (fst (resourceAwsLbTargetGroupCreate newData goneClient startOfDay)))
      = ""
      /\ snd (resourceAwsLbTargetGroupCreate newData goneClient startOfDay) = None
      /\ foundGone goneClient (aws.StringValue (elbv2.TargetGroupArn sampleGroup))
           (history (snd (fst (resourceAwsLbTargetGroupCreate
                                 newData goneClient startOfDay))))).
Proof.
  apply (Create_tracks_created_group newData goneClient startOfDay sampleGroup []).
  - right. repeat split.
  - reflexivity.
Defined.

(** ** The ARN suffix of a well-formed ARN *)

Section WellFormedArn.

Import regexp.

Lemma matchHere_Literal_app {R : Type} (lit : string) (last : Regexp) :
  forall s caps (k : string -> list string -> option R),
    matchHere (Literal lit last) (lit ++ s) caps k = matchHere last s caps k.
Proof.
  induction lit as [| c lit IH]; intros s caps k; cbn [Literal append];
    [reflexivity |].
  cbn [matchHere]. rewrite Ascii.eqb_refl. apply IH.
Qed.

Lemma matchHere_Cat {R : Type} (r1 r2 : Regexp) (s : string) (caps : list string)
  (k : string -> list string -> option R) :
  matchHere (Cat r1 r2) s caps k
  = matchHere r1 s caps (fun s' caps' => matchHere r2 s' caps' k).
Proof. reflexivity. Qed.

Lemma matchHere_Star {R : Type} (r : Regexp) (s : string) (caps : list string)
  (k : string -> list string -> option R) :
  matchHere (Star r) s caps k
  = starLoop (matchHere r) k (String.length s) s caps.
Proof. reflexivity. Qed.

Lemma matchHere_Group {R : Type} (r : Regexp) (s : string) (caps : list string)
  (k : string -> list string -> option R) :
  matchHere (Group r) s caps k
  = matchHere r s caps (fun s' caps' => k s' (caps' ++ [consumed s s'])%list).
Proof. reflexivity. Qed.

(** A greedy run of [Any] finds a way through whenever some stretch
    without a line feed leads to a continuation that succeeds. *)
Lemma starLoop_Any_finds {R : Type} (k : string -> list string -> option R)
  (mid : string) :
  forall fuel rest caps,
    singleLine mid = true ->
    (String.length mid <= fuel)%nat ->
    k rest caps <> None ->
    starLoop (matchHere Any) k fuel (mid ++ rest) caps <> None.
Proof.
  induction mid as [| c mid IH]; intros fuel rest caps Hl Hf Hk; cbn [append].
  - destruct fuel as [| fuel]; [exact Hk |].
    rewrite starLoop_Any_S. destruct rest as [| c r]; [exact Hk |].
    destruct (isLineFeed c); [exact Hk |].
    destruct (starLoop _ _ _ _ _); [discriminate | exact Hk].
  - cbn [singleLine] in Hl. apply andb_true_iff in Hl. destruct Hl as [Hc Hm].
    destruct fuel as [| fuel]; [cbn in Hf; lia |].
    rewrite starLoop_Any_S.
    destruct (isLineFeed c); [discriminate |].
    specialize (IH fuel rest caps Hm ltac:(cbn in Hf; lia) Hk).
    destruct (starLoop _ _ _ _ _); [discriminate | now elim IH].
Qed.

(** The ARN pattern matches at the start of every string of the shape
    arn:X:targetgroup/Y whose X has no line feed. *)
Lemma matchHere_arnPattern_complete (x y skipped : string) :
  singleLine x = true ->
  matchHere arnPattern ("arn:" ++ x ++ ":targetgroup/" ++ y) []
    (fun rest caps =>
       Some {| before := skipped;
               submatches :=
                 consumed ("arn:" ++ x ++ ":targetgroup/" ++ y) rest :: caps;
               after := rest |}) <> None.
Proof.
  intros Hx. unfold arnPattern.
  rewrite matchHere_Literal_app, matchHere_Cat, matchHere_Star.
  apply starLoop_Any_finds; [exact Hx | rewrite length_append; lia |].
  rewrite matchHere_Literal_app, matchHere_Group, matchHere_Star.
  erewrite starLoop_Any_total; [discriminate | reflexivity | apply Nat.le_refl].
Qed.

Lemma occurrences_found (sub a b : string) :
  (1 <= occurrences sub (a ++ sub ++ b))%nat.
Proof.
  induction a as [| c a IH]; cbn [append].
  - assert (H : strings.HasPrefix (sub ++ b) sub = true)
      by (apply HasPrefix_iff; now exists b).
    destruct (sub ++ b); cbn [occurrences]; rewrite H; lia.
  - cbn [occurrences]. lia.
Qed.

Lemma string_app_inv_head (a x y : string) : a ++ x = a ++ y -> x = y.
Proof.
  induction a as [| c a IH]; cbn [append]; intros H; [exact H |].
  injection H as H. now apply IH.
Qed.

(** A substring that occurs once occurs at one place. *)
Lemma occurrences_once (sub : string) :
  forall a a' b b',
    a ++ sub ++ b = a' ++ sub ++ b' ->
    occurrences sub (a ++ sub ++ b) = 1%nat ->
    a = a' /\ b = b'.
Proof.
  induction a as [| c a IH]; intros a' b b' He Ho.
  - destruct a' as [| c' a'].
    + split; [reflexivity |]. cbn [append] in He.
      now apply string_app_inv_head in He.
    + exfalso. rewrite He in Ho. cbn [append occurrences] in Ho.
      assert (H : strings.HasPrefix (String c' (a' ++ sub ++ b')) sub = true).
      { apply HasPrefix_iff. exists b. cbn [append] in He. now rewrite <- He. }
      rewrite H in Ho. pose proof (occurrences_found sub a' b'). lia.
  - destruct a' as [| c' a'].
    + exfalso. cbn [append occurrences] in Ho.
      assert (H : strings.HasPrefix (String c (a ++ sub ++ b)) sub = true).
      { apply HasPrefix_iff. exists b'. cbn [append] in He. exact He. }
      rewrite H in Ho. pose proof (occurrences_found sub a b). lia.
    + cbn [append] in He. injection He as -> He.
      cbn [append occurrences] in Ho.
      pose proof (occurrences_found sub a b) as Hf.
      destruct (IH a' b b' He) as [-> ->]; [| now split].
      destruct (strings.HasPrefix _ _); lia.
Qed.

(** What the function returns for a single-line string the pattern
    matches. *)
Lemma suffix_of_single_line (s : string) (m : Match) :
  singleLine s = true ->
  search arnPattern "" s = Some m ->
  exists pre mid tail,
    s = pre ++ "arn:" ++ mid ++ ":targetgroup/" ++ tail /\
    lbTargetGroupSuffixFromARN (Some s) = "targetgroup/" ++ tail.
Proof.
  intros Hline Hs.
  unfold lbTargetGroupSuffixFromARN, FindAllStringSubmatch.
  cbn [allMatches]. rewrite Hs.
  apply search_arnPattern in Hs.
  destruct Hs as (pre & mid & tail & Hs & Hmid & Hsub & Haft).
  assert (Htail : singleLine tail = true).
  { rewrite Hs in Hline. rewrite !singleLine_app in Hline.
    repeat (apply andb_true_iff in Hline; destruct Hline as [? Hline]).
    assumption. }
  destruct (singleLine_lines tail Htail) as [Hf Ha].
  rewrite Hf in Hsub. rewrite Ha in Haft.
  exists pre, mid, tail. split; [assumption |].
  rewrite Hsub, Haft. cbn [append].
  rewrite allMatches_arnPattern_empty. reflexivity.
Qed.

End WellFormedArn.

(** X11: for a string of the shape arn:X:targetgroup/Y without a line feed
    in which ":targetgroup/" occurs only once, as in every ARN the service
    hands out, [lbTargetGroupSuffixFromARN] returns "targetgroup/" followed
    by Y. *)
Theorem lbTargetGroupSuffixFromARN_well_formed (x y : string) :
  regexp.singleLine ("arn:" ++ x ++ ":targetgroup/" ++ y) = true ->
  occurrences ":targetgroup/" ("arn:" ++ x ++ ":targetgroup/" ++ y) = 1%nat ->
  lbTargetGroupSuffixFromARN (Some ("arn:" ++ x ++ ":targetgroup/" ++ y))
  = "targetgroup/" ++ y.
Proof.
  intros Hline Hocc.
  assert (Hx : regexp.singleLine x = true).
  { change ("arn:" ++ x ++ ":targetgroup/" ++ y)
      with ("arn:" ++ (x ++ ":targetgroup/" ++ y)) in Hline.
    rewrite !singleLine_app in Hline.
    apply andb_true_iff in Hline. destruct Hline as [_ Hline].
    apply andb_true_iff in Hline. now destruct Hline. }
  pose proof (matchHere_arnPattern_complete x y "" Hx) as Hm.
  assert (Hs : exists m,
             regexp.search arnPattern ""
               ("arn:" ++ x ++ ":targetgroup/" ++ y) = Some m).
  { cbn [append regexp.search] in Hm |- *.
    destruct (regexp.matchHere arnPattern _ _ _) as [m |]; [| now elim Hm].
    now exists m. }
  destruct Hs as (m & Hs).
  destruct (suffix_of_single_line _ m Hline Hs) as (pre & mid & tail & He & ->).
  f_equal.
  assert (E1 : "arn:" ++ x ++ ":targetgroup/" ++ y
               = ("arn:" ++ x) ++ ":targetgroup/" ++ y)
    by (now rewrite <- string_app_assoc).
  assert (E2 : pre ++ "arn:" ++ mid ++ ":targetgroup/" ++ tail
               = (pre ++ "arn:" ++ mid) ++ ":targetgroup/" ++ tail)
    by (now rewrite <- !string_app_assoc).
  rewrite E1 in Hocc. rewrite E1, E2 in He.
  destruct (occurrences_once _ _ _ _ _ He Hocc) as [_ ->]. reflexivity.
Qed.

Lemma lbTargetGroupSuffixFromARN_well_formed_witness :
  lbTargetGroupSuffixFromARN
    (Some ("arn:" ++ "aws:elasticloadbalancing:eu-west-1:1" ++ ":targetgroup/"
           ++ "web/7a"))
  = "targetgroup/" ++ "web/7a".
Proof.
  apply (lbTargetGroupSuffixFromARN_well_formed
           "aws:elasticloadbalancing:eu-west-1:1" "web/7a");
    vm_compute; reflexivity.
Defined.

(** ** Numbers written and read back *)

Section ItoaAtoi.

Lemma behind_cons (n : Z) (c : ascii) (s : string) :
  behind n (String c s) = behind (n * 10 + strconv.digit c) s.
Proof.
  unfold behind. cbn [String.length decimalValue].
  rewrite Nat2Z.inj_succ, Z.pow_succ_r by lia. ring.
Qed.

Lemma behind_of_uint_acc (d : Decimal.uint) :
  forall acc,
    behind (Z.pos acc) (NilEmpty.string_of_uint d)
    = Z.pos (Pos.of_uint_acc d acc).
Proof.
  induction d; intros acc; cbn [NilEmpty.string_of_uint Pos.of_uint_acc];
    [unfold behind; cbn; lia | ..];
    rewrite behind_cons, <- IHd; f_equal;
    match goal with
    | |- context [strconv.digit ?c] =>
        let v := eval vm_compute in (strconv.digit c) in
        change (strconv.digit c) with v
    end;
    cbn [Pos.of_uint_acc]; lia.
Qed.

Lemma behind_of_uint (d : Decimal.uint) :
  behind 0 (NilEmpty.string_of_uint d) = Z.of_N (Pos.of_uint d).
Proof.
  induction d; cbn [NilEmpty.string_of_uint Pos.of_uint];
    [reflexivity | rewrite behind_cons; exact IHd | ..];
    rewrite behind_cons; cbn [Z.of_N]; rewrite <- behind_of_uint_acc;
    reflexivity.
Qed.

Lemma decimalValue_to_uint (p : positive) :
  decimalValue (NilEmpty.string_of_uint (Pos.to_uint p)) = Z.pos p.
Proof.
  pose proof (behind_of_uint (Pos.to_uint p)) as H.
  rewrite Unsigned.of_to in H. unfold behind in H. cbn [Z.of_N] in H. lia.
Qed.

Lemma allDigits_string_of_uint (d : Decimal.uint) :
  allDigits (NilEmpty.string_of_uint d) = true.
Proof. induction d; cbn [NilEmpty.string_of_uint allDigits]; auto. Qed.

Lemma NilZero_NilEmpty (p : positive) :
  NilZero.string_of_uint (Pos.to_uint p)
  = NilEmpty.string_of_uint (Pos.to_uint p).
Proof.
  unfold NilZero.string_of_uint.
  pose proof (Unsigned.to_uint_nonnil p) as H.
  destruct (Pos.to_uint p); [now elim H | reflexivity ..].
Qed.

Lemma string_of_uint_nonempty (p : positive) :
  NilEmpty.string_of_uint (Pos.to_uint p) <> "".
Proof.
  pose proof (Unsigned.to_uint_nonnil p) as H.
  destruct (Pos.to_uint p); [now elim H | discriminate ..].
Qed.

(** What [Itoa] prints is a decimal representation of the number. *)
Lemma Itoa_DecimalOf (n : Z) : DecimalOf (strconv.Itoa n) n.
Proof.
  unfold strconv.Itoa. destruct n as [| p | p];
    cbn [Z.to_int NilZero.string_of_int].
  - exists "", "0". repeat split; [discriminate | now left; split; [left |]].
  - rewrite NilZero_NilEmpty.
    exists "", (NilEmpty.string_of_uint (Pos.to_uint p)).
    split; [reflexivity |].
    split; [apply string_of_uint_nonempty |].
    split; [apply allDigits_string_of_uint |].
    left. split; [now left | now rewrite decimalValue_to_uint].
  - rewrite NilZero_NilEmpty.
    exists "-", (NilEmpty.string_of_uint (Pos.to_uint p)).
    split; [reflexivity |].
    split; [apply string_of_uint_nonempty |].
    split; [apply allDigits_string_of_uint |].
    right. split; [reflexivity | now rewrite decimalValue_to_uint].
Qed.

Lemma Atoi_Itoa (n : Z) :
  strconv.minInt64 <= n <= strconv.maxInt64 ->
  strconv.Atoi (strconv.Itoa n) = (n, None).
Proof. intros H. apply DecimalOf_Atoi; [apply Itoa_DecimalOf | exact H]. Qed.

Lemma ParseBool_FormatBool (b : bool) :
  strconv.ParseBool (strconv.FormatBool b) = inl b.
Proof. destruct b; reflexivity. Qed.

End ItoaAtoi.

(** ** Attributes sent and read back *)

Lemma Set_echo (d : ResourceData) :
  fst (Set_ d "slow_start" (VInt (slow_start (values d)))) = d /\
  fst (Set_ d "proxy_protocol_v2" (VBool (proxy_protocol_v2 (values d)))) = d /\
  fst (Set_ d "load_balancing_algorithm_type"
         (VString (load_balancing_algorithm_type (values d)))) = d /\
  fst (Set_ d "lambda_multi_value_headers_enabled"
         (VBool (lambda_multi_value_headers_enabled (values d)))) = d /\
  fst (Set_ d "deregistration_delay" (VInt (deregistration_delay (values d)))) = d.
Proof. destruct d as [i n o p v]; destruct v; repeat split. Qed.

(** X12: the attribute list Update sends reads back as written: run over
    the data it was built from, the attribute loop of
    [flattenAwsLbTargetGroupResource] and the loop of
    [flattenAwsLbTargetGroupStickiness] parse every number and flag
    without an error and leave the data unchanged. *)
Theorem updateAttributes_read_back (d : ResourceData) :
  isInt64 (slow_start (values d)) ->
  isInt64 (deregistration_delay (values d)) ->
  Forall (fun s => isInt64 (st_cookie_duration s)) (stickiness (values d)) ->
  attributesLoop (updateAttributes d) d = (d, None) /\
  snd (fst (stickinessLoop (updateAttributes d) emptyStickinessMap d)) = d /\
  snd (stickinessLoop (updateAttributes d) emptyStickinessMap d) = None.
Proof.
  intros Hs Hd Hc.
  destruct (Set_echo d) as (E1 & E2 & E3 & E4 & E5).
  unfold updateAttributes.
  destruct (isOneOf (target_type (values d)) _).
  - destruct (HasChange d "deregistration_delay");
      destruct (HasChange d "slow_start");
      destruct (HasChange d "proxy_protocol_v2");
      destruct (HasChange d "stickiness");
      destruct (HasChange d "load_balancing_algorithm_type");
      unfold stickinessAttributes;
      try (destruct (stickiness (values d)) as [| s [| s' l]];
           [| destruct (_ && _ && _ && _)%bool; [| destruct (isOneOf _ _)] |]);
      try (apply Forall_inv in Hc);
      cbn [app attributesLoop stickinessLoop attribute elbv2.Key elbv2.Value
           aws.StringValue String.eqb Ascii.eqb Bool.eqb];
      rewrite ?Atoi_Itoa, ?ParseBool_FormatBool by assumption;
      cbn [app attributesLoop stickinessLoop attribute elbv2.Key elbv2.Value
           aws.StringValue String.eqb Ascii.eqb Bool.eqb];
      rewrite ?E1, ?E2, ?E3, ?E5; rewrite ?E1, ?E2, ?E3, ?E5;
      repeat split.
  - destruct (String.eqb _ _); [| repeat split].
    destruct (HasChange d "lambda_multi_value_headers_enabled");
      [| repeat split].
    cbn [attributesLoop stickinessLoop attribute elbv2.Key elbv2.Value
         aws.StringValue String.eqb Ascii.eqb Bool.eqb].
    rewrite ParseBool_FormatBool, E4. repeat split.
Qed.

Lemma updateAttributes_read_back_witness :
  attributesLoop (updateAttributes changedWebData) changedWebData
  = (changedWebData, None) /\
  snd (fst (stickinessLoop (updateAttributes changedWebData)
              emptyStickinessMap changedWebData)) = changedWebData /\
  snd (stickinessLoop (updateAttributes changedWebData)
         emptyStickinessMap changedWebData) = None.
Proof.
  apply (updateAttributes_read_back changedWebData).
  - unfold isInt64, strconv.minInt64, strconv.maxInt64. cbn. lia.
  - unfold isInt64, strconv.minInt64, strconv.maxInt64. cbn. lia.
  - repeat constructor; unfold isInt64, strconv.minInt64, strconv.maxInt64;
      cbn; lia.
Defined.

(** ** The stickiness block read from the attributes *)

Lemma stickinessLoop_len (attributes : list elbv2.TargetGroupAttribute) :
  forall m d m' d',
    stickinessLoop attributes m d = (m', d', None) ->
    (lenStickinessMap m' = 0%nat <->
     lenStickinessMap m = 0%nat
     /\ Forall (fun a => isStickinessAttribute a = false) attributes).
Proof.
  induction attributes as [| attr rest IH]; intros m d m' d';
    cbn [stickinessLoop].
  - intros [= <- <-]. split; [intros H; split; [exact H | constructor] | tauto].
  - assert (Hcons : forall b,
              isStickinessAttribute attr = b ->
              (Forall (fun a => isStickinessAttribute a = false) (attr :: rest)
               <-> b = false
                   /\ Forall (fun a => isStickinessAttribute a = false) rest)).
    { intros b <-. split; [intros H; inversion H; auto | intros [H1 H2]; now constructor]. }
    unfold isStickinessAttribute, isOneOf in Hcons. cbn [existsb] in Hcons.
    destruct (String.eqb (aws.StringValue (elbv2.Key attr)) "stickiness.enabled")
      eqn:E1.
    { destruct (strconv.ParseBool _); [| discriminate].
      intros H. apply IH in H. rewrite H, (Hcons _ eq_refl).
      destruct m as [[|] [|] [|]]; cbn; split; intros; try lia;
        repeat match goal with H : _ /\ _ |- _ => destruct H end; discriminate. }
    destruct (String.eqb (aws.StringValue (elbv2.Key attr)) "stickiness.type")
      eqn:E2.
    { intros H. apply IH in H. rewrite H, (Hcons _ eq_refl).
      destruct m as [[|] [|] [|]]; cbn; split; intros; try lia;
        repeat match goal with H : _ /\ _ |- _ => destruct H end; discriminate. }
    destruct (String.eqb (aws.StringValue (elbv2.Key attr))
                "stickiness.lb_cookie.duration_seconds") eqn:E3.
    { destruct (strconv.Atoi _) as [n [e |]]; [discriminate |].
      intros H. apply IH in H. rewrite H, (Hcons _ eq_refl).
      destruct m as [[|] [|] [|]]; cbn; split; intros; try lia;
        repeat match goal with H : _ /\ _ |- _ => destruct H end; discriminate. }
    destruct (String.eqb (aws.StringValue (elbv2.Key attr))
                "deregistration_delay.timeout_seconds").
    { destruct (strconv.Atoi _) as [n [e |]]; [discriminate |].
      intros H. apply IH in H. rewrite H, (Hcons _ eq_refl). cbn. tauto. }
    intros H. apply IH in H. rewrite H, (Hcons _ eq_refl). cbn. tauto.
Qed.

(** X13: when [flattenAwsLbTargetGroupStickiness] succeeds, the stickiness
    block it stores is absent exactly when the attributes hold none of
    stickiness.enabled, stickiness.type and
    stickiness.lb_cookie.duration_seconds, and is a single block
    otherwise. *)
Theorem flattenStickiness_block (d : ResourceData)
  (attributes : list elbv2.TargetGroupAttribute) (d' : ResourceData) :
  flattenAwsLbTargetGroupStickiness d attributes = (d', None) ->
  (stickiness (values d') = [] <->
   Forall (fun a => isStickinessAttribute a = false) attributes) /\
  (List.length (stickiness (values d')) <= 1)%nat.
Proof.
  unfold flattenAwsLbTargetGroupStickiness.
  destruct (stickinessLoop attributes emptyStickinessMap d)
    as [[m d1] [e |]] eqn:Hl; [discriminate |].
  apply stickinessLoop_len in Hl.
  destruct (Nat.ltb_spec 0 (lenStickinessMap m)) as [Hpos | Hzero];
    intros [= <-]; cbn [fst values stickiness List.length].
  - split; [| lia]. split; [discriminate |].
    intros H. assert (lenStickinessMap m = 0%nat) by (apply Hl; now split). lia.
  - split; [| lia]. split; [| reflexivity].
    intros _. apply Hl. lia.
Qed.

Lemma flattenStickiness_block_witness :
  (stickiness
     (values (fst (flattenAwsLbTargetGroupStickiness existingData
                     [attribute "deregistration_delay.timeout_seconds" "300"])))
   = [] <->
   Forall (fun a => isStickinessAttribute a = false)
          [attribute "deregistration_delay.timeout_seconds" "300"]) /\
  (List.length
     (stickiness
        (values (fst (flattenAwsLbTargetGroupStickiness existingData
                        [attribute "deregistration_delay.timeout_seconds" "300"]))))
   <= 1)%nat.
Proof.
  apply (flattenStickiness_block existingData
           [attribute "deregistration_delay.timeout_seconds" "300"]).
  reflexivity.
Defined.

(** ** What the write requests carry *)

(** X14: a ModifyTargetGroup request of Update is addressed to the
    resource id; it carries no matcher, path or interval when the resource
    is being created or the health check is TCP, no health-check port or
    protocol when the target type is "lambda", and never a zero timeout. *)
Theorem Update_modify_request (d : ResourceData) (meta : AWSClient) (w : World) :
  exists calls,
    history (snd (fst (resourceAwsLbTargetGroupUpdate d meta w)))
    = (history w ++ calls)%list /\
    forall c input,
      In c calls ->
      request c = ModifyTargetGroupRequest input ->
      elbv2.mtg_TargetGroupArn input = Some (Id d) /\
      (IsNewResource d = true
       \/ hc_protocol (health_check_0 (values d)) = "TCP" ->
       elbv2.mtg_Matcher input = None
       /\ elbv2.mtg_HealthCheckPath input = None
       /\ elbv2.mtg_HealthCheckIntervalSeconds input = None) /\
      (target_type (values d) = "lambda" ->
       elbv2.mtg_HealthCheckPort input = None
       /\ elbv2.mtg_HealthCheckProtocol input = None) /\
      elbv2.mtg_HealthCheckTimeoutSeconds input <> Some 0.
Proof.
  destruct (Update_calls d meta w) as (calls & Hh & Hj).
  exists calls. split; [exact Hh |].
  intros c input Hin Hr.
  rewrite Forall_forall in Hj. specialize (Hj c Hin). rewrite Hr in Hj.
  destruct Hj as [_ Hp]. unfold modifyTargetGroupParams in Hp.
  unfold health_check_0.
  destruct (health_check (values d)) as [| h [| h' l]]; try discriminate.
  injection Hp as <-.
  cbn [elbv2.mtg_TargetGroupArn elbv2.mtg_Matcher elbv2.mtg_HealthCheckPath
       elbv2.mtg_HealthCheckIntervalSeconds elbv2.mtg_HealthCheckPort
       elbv2.mtg_HealthCheckProtocol elbv2.mtg_HealthCheckTimeoutSeconds].
  change elbv2.ProtocolEnumTcp with "TCP".
  change elbv2.TargetTypeEnumLambda with "lambda".
  split; [reflexivity |]. split; [| split].
  - intros [Hn | Ht].
    + rewrite Hn, andb_false_r. auto.
    + rewrite Ht. cbn. auto.
  - intros ->. cbn. auto.
  - destruct (Z.eqb_spec (hc_timeout h) 0) as [E | N]; cbn [negb];
      [discriminate | intros [= E]; contradiction].
Qed.

Lemma Create_first_call (d : ResourceData) (meta : AWSClient) (w : World) :
  target_type (values d) = "lambda"
  \/ (isSetInt (port (values d)) = true
      /\ isSetString (protocol (values d)) = true
      /\ isSetString (vpc_id (values d)) = true) ->
  exists call later,
    history (snd (fst (resourceAwsLbTargetGroupCreate d meta w)))
    = (history w ++ call :: later)%list /\
    request call
    = CreateTargetGroupRequest
        (createTargetGroupParams d (fst (createGroupName d w))).
Proof.
  intros Hs. unfold resourceAwsLbTargetGroupCreate.
  pose proof (groupName_history d w) as Hh.
  fold (createGroupName d w) in Hh |- *.
  destruct (createGroupName d w) as [groupName w0]. cbn [fst snd] in Hh |- *.
  cbn zeta. change elbv2.TargetTypeEnumLambda with "lambda".
  assert (Hg :
    (negb (String.eqb (target_type (values d)) "lambda")
     && negb (isSetInt (port (values d))) = false)%bool /\
    (negb (String.eqb (target_type (values d)) "lambda")
     && negb (isSetString (protocol (values d))) = false)%bool /\
    (negb (String.eqb (target_type (values d)) "lambda")
     && negb (isSetString (vpc_id (values d))) = false)%bool).
  { destruct Hs as [-> | (-> & -> & ->)];
      [repeat split; reflexivity
      | rewrite !andb_false_r; repeat split; reflexivity]. }
  destruct Hg as (-> & -> & ->).
  unfold CreateTargetGroup.
  destruct (CreateTargetGroup_ meta (history w0)
              (createTargetGroupParams d groupName)) as [groups | e];
    cbn [asResult failureOf].
  - destruct groups as [| targetGroup others].
    + eexists. exists []. cbn [fst snd issue history]. rewrite Hh.
      split; reflexivity.
    + match goal with
      | |- context [resourceAwsLbTargetGroupUpdate ?x meta ?y] =>
          destruct (Update_calls x meta y) as (calls & Hc & _)
      end.
      eexists. exists calls. rewrite Hc. cbn [issue history].
      rewrite Hh, <- app_assoc. split; reflexivity.
  - eexists. exists []. cbn [fst snd issue history]. rewrite Hh.
    split; reflexivity.
Qed.

(** X15: when the required attributes are there, the first call of Create
    is CreateTargetGroup with the configured name when one is set and the
    configured target type; for the target type "lambda" it carries no
    port, protocol, VPC, health-check port or health-check protocol; for a
    TCP health check no path and no matcher; and never a zero health-check
    timeout. *)
Theorem Create_request (d : ResourceData) (meta : AWSClient) (w : World) :
  target_type (values d) = "lambda"
  \/ (isSetInt (port (values d)) = true
      /\ isSetString (protocol (values d)) = true
      /\ isSetString (vpc_id (values d)) = true) ->
  exists call later input,
    history (snd (fst (resourceAwsLbTargetGroupCreate d meta w)))
    = (history w ++ call :: later)%list /\
    request call = CreateTargetGroupRequest input /\
    (name (values d) <> "" -> elbv2.ctg_Name input = Some (name (values d))) /\
    elbv2.ctg_TargetType input = Some (target_type (values d)) /\
    (target_type (values d) = "lambda" ->
     elbv2.ctg_Port input = None /\ elbv2.ctg_Protocol input = None
     /\ elbv2.ctg_VpcId input = None
     /\ elbv2.ctg_HealthCheckPort input = None
     /\ elbv2.ctg_HealthCheckProtocol input = None) /\
    (hc_protocol (health_check_0 (values d)) = "TCP" ->
     elbv2.ctg_HealthCheckPath input = None
     /\ elbv2.ctg_Matcher input = None) /\
    elbv2.ctg_HealthCheckTimeoutSeconds input <> Some 0.
Proof.
  intros Hs. destruct (Create_first_call d meta w Hs) as (call & later & Hh & Hr).
  exists call, later. eexists. split; [exact Hh |]. split; [exact Hr |].
  unfold createTargetGroupParams, health_check_0, onlyBlock, createGroupName.
  cbn [elbv2.ctg_Name elbv2.ctg_TargetType elbv2.ctg_Port elbv2.ctg_Protocol
       elbv2.ctg_VpcId elbv2.ctg_HealthCheckPort elbv2.ctg_HealthCheckProtocol
       elbv2.ctg_HealthCheckPath elbv2.ctg_Matcher
       elbv2.ctg_HealthCheckTimeoutSeconds].
  change elbv2.ProtocolEnumTcp with "TCP".
  change elbv2.TargetTypeEnumLambda with "lambda".
  split; [| split; [reflexivity | split; [| split]]].
  - intros Hn. unfold isSetString.
    destruct (String.eqb_spec (name (values d)) "") as [E | _];
      [now elim Hn | reflexivity].
  - intros ->. cbn [String.eqb Ascii.eqb Bool.eqb negb].
    destruct (health_check (values d)) as [| h [| h' l]]; auto.
  - destruct (health_check (values d)) as [| h [| h' l]]; auto.
    intros ->. cbn. auto.
  - destruct (health_check (values d)) as [| h [| h' l]]; try discriminate.
    destruct (Z.eqb_spec (hc_timeout h) 0) as [E | N]; cbn [negb];
      [discriminate | intros [= E]; contradiction].
Qed.

Lemma Create_request_witness :
  exists call later input,
    history (snd (fst (resourceAwsLbTargetGroupCreate newData quietClient startOfDay)))
    = (history startOfDay ++ call :: later)%list /\
    request call = CreateTargetGroupRequest input /\
    (name (values newData) <> "" ->
     elbv2.ctg_Name input = Some (name (values newData))) /\
    elbv2.ctg_TargetType input = Some (target_type (values newData)) /\
    (target_type (values newData) = "lambda" ->
     elbv2.ctg_Port input = None /\ elbv2.ctg_Protocol input = None
     /\ elbv2.ctg_VpcId input = None
     /\ elbv2.ctg_HealthCheckPort input = None
     /\ elbv2.ctg_HealthCheckProtocol input = None) /\
    (hc_protocol (health_check_0 (values newData)) = "TCP" ->
     elbv2.ctg_HealthCheckPath input = None
     /\ elbv2.ctg_Matcher input = None) /\
    elbv2.ctg_HealthCheckTimeoutSeconds input <> Some 0.
Proof.
  apply (Create_request newData quietClient startOfDay).
  right. repeat split.
Defined.

(** ** Create and Update end in a fresh Read *)




